(** * Project-management dashboard (app.py): data layer, workflow and views

    A shallow embedding of the SQLAlchemy models, of [DatabaseManager],
    of [AuthService.authenticate], of the kanban "Move & Log" handler, of
    the WBS renderer of [gantt_page], of the date arithmetic of
    [get_gantt_chart] and of the weekly rollup of [reports_page].

    Conventions.
    - Python [int] is [Z]; a nullable column is an [option].
    - [Float] columns (hours, estimates) are rationals [Q]: the sums are
      written as the left folds that Python's [sum] performs, and every
      equation about them below is a syntactic one, so that it does not
      depend on associativity or commutativity of the addition.
    - A [DateTime] is the proleptic Gregorian ordinal of its date
      ([date.toordinal()], day 1 is Monday 0001-01-01) and the microseconds
      since midnight.  Arithmetic on dates raises OverflowError outside
      the calendar, which ends with 9999-12-31.
    - String columns declared [nullable=False] are total strings.
    - The database is the list of rows of each table in rowid order, which
      is the order in which SQLite answers an unordered [SELECT].
    - The pages share one SQLAlchemy session.  Its unit of work is explicit
      here: what a page assigns to a loaded object stays pending until the
      next commit, which flushes everything pending in one transaction.
    - Each of [create], [update] and [delete] catches every exception of its
      flush and commit.  Besides the constraint violations computed from the
      data, a call takes an [engine] argument that says whether the storage
      engine works during the call. *)

From Stdlib Require Import ZArith QArith Qround String List Lia.
From Stdlib Require Import Ascii.
From Stdlib Require DecimalString DecimalZ DecimalPos.
From stdpp Require Import base option list gmap strings.

Local Open Scope string_scope.
Local Open Scope list_scope.
Local Open Scope Z_scope.

(** ** Models *)

Record datetime := mk_datetime {
  dt_ordinal : Z;   (* .date().toordinal() *)
  dt_micros : Z     (* microseconds since midnight *)
}.

Module User.
Record t := mk {
  id : option Z;
  username : string;
  email : string;
  password_hash : string;
  role : string;
  created_at : datetime
}.
End User.

Module Project.
Record t := mk {
  id : option Z;
  name : string;
  description : option string;
  category : string;
  status : string;
  priority : string;
  start_date : datetime;
  due_date : option datetime;
  manager_id : option Z
}.
End Project.

Module Task.
Record t := mk {
  id : option Z;
  title : string;
  description : option string;
  status : string;
  priority : string;
  estimate_hours : Q;
  dependency_task_id : option Z;
  sprint_id : option Z;
  project_id : option Z;
  assigned_to_id : option Z;
  created_at : datetime
}.
End Task.

Module TimeLog.
Record t := mk {
  id : option Z;
  hours : Q;
  log_date : datetime;
  task_id : option Z;
  user_id : option Z
}.
End TimeLog.

Module Risk.
Record t := mk {
  id : option Z;
  name : string;
  description : option string;
  probability : string;
  impact : string;
  mitigation_plan : option string;
  status : string;
  project_id : option Z;
  owner_id : option Z
}.
End Risk.

Module Sprint.
Record t := mk {
  id : option Z;
  name : string;
  start_date : option datetime;
  end_date : option datetime;
  project_id : option Z;
  status : string
}.
End Sprint.

(** The mapped classes, as they are passed to [read_all]. *)
Inductive model := MUser | MProject | MTask | MTimeLog | MRisk | MSprint.

(** An instance of one of the mapped classes. *)
Inductive entity :=
| EUser (u : User.t)
| EProject (p : Project.t)
| ETask (t : Task.t)
| ETimeLog (l : TimeLog.t)
| ERisk (r : Risk.t)
| ESprint (s : Sprint.t).

(** Every mapped class has an integer primary key [id], which the flush
    sets on a new object. *)
Class Row (A : Type) := {
  row_id : A -> option Z;
  with_id : Z -> A -> A;
  row_id_with_id : forall k x, row_id (with_id k x) = Some k
}.

#[global] Instance User_row : Row User.t := {|
  row_id := User.id;
  with_id k u := User.mk (Some k) (User.username u) (User.email u)
                   (User.password_hash u) (User.role u) (User.created_at u);
  row_id_with_id _ _ := eq_refl |}.
#[global] Instance Project_row : Row Project.t := {|
  row_id := Project.id;
  with_id k p := Project.mk (Some k) (Project.name p) (Project.description p)
                   (Project.category p) (Project.status p) (Project.priority p)
                   (Project.start_date p) (Project.due_date p) (Project.manager_id p);
  row_id_with_id _ _ := eq_refl |}.
#[global] Instance Task_row : Row Task.t := {|
  row_id := Task.id;
  with_id k t := Task.mk (Some k) (Task.title t) (Task.description t)
                   (Task.status t) (Task.priority t) (Task.estimate_hours t)
                   (Task.dependency_task_id t) (Task.sprint_id t)
                   (Task.project_id t) (Task.assigned_to_id t) (Task.created_at t);
  row_id_with_id _ _ := eq_refl |}.
#[global] Instance TimeLog_row : Row TimeLog.t := {|
  row_id := TimeLog.id;
  with_id k l := TimeLog.mk (Some k) (TimeLog.hours l) (TimeLog.log_date l)
                   (TimeLog.task_id l) (TimeLog.user_id l);
  row_id_with_id _ _ := eq_refl |}.
#[global] Instance Risk_row : Row Risk.t := {|
  row_id := Risk.id;
  with_id k r := Risk.mk (Some k) (Risk.name r) (Risk.description r)
                   (Risk.probability r) (Risk.impact r) (Risk.mitigation_plan r)
                   (Risk.status r) (Risk.project_id r) (Risk.owner_id r);
  row_id_with_id _ _ := eq_refl |}.
#[global] Instance Sprint_row : Row Sprint.t := {|
  row_id := Sprint.id;
  with_id k s := Sprint.mk (Some k) (Sprint.name s) (Sprint.start_date s)
                   (Sprint.end_date s) (Sprint.project_id s) (Sprint.status s);
  row_id_with_id _ _ := eq_refl |}.

(** ** The database *)

Record Store := mk_store {
  users : list User.t;
  projects : list Project.t;
  tasks : list Task.t;
  time_logs : list TimeLog.t;
  risks : list Risk.t;
  sprints : list Sprint.t
}.

(** [None == k] is false, [Some j == k] compares the integers. *)
Definition is_id (k : Z) (o : option Z) : bool :=
  match o with Some j => j =? k | None => false end.

Section Tables.
Context {A : Type} `{Row A}.

Definition has_id (k : Z) (rows : list A) : bool :=
  existsb (fun r => is_id k (row_id r)) rows.

Definition get (k : Z) (rows : list A) : option A :=
  List.find (fun r => is_id k (row_id r)) rows.

(** SQLite gives a new row of an [INTEGER PRIMARY KEY] table the largest
    rowid in use plus one, and 1 in an empty table (the keys in use are
    positive). *)
Definition next_id (rows : list A) : Z :=
  1 + fold_right (fun r m => Z.max (default 0 (row_id r)) m) 0 rows.

(** Rows are kept in rowid order. *)
Fixpoint insert_row (k : Z) (x : A) (rows : list A) : list A :=
  match rows with
  | [] => [x]
  | y :: rows' =>
      if k <? default 0 (row_id y) then x :: rows
      else y :: insert_row k x rows'
  end.

(** [UPDATE ... WHERE id = k] *)
Definition replace_row (k : Z) (x : A) (rows : list A) : list A :=
  map (fun r => if is_id k (row_id r) then x else r) rows.

(** [DELETE ... WHERE id = k] *)
Definition remove_row (k : Z) (rows : list A) : list A :=
  List.filter (fun r => negb (is_id k (row_id r))) rows.
End Tables.

Definition set_users (f : list User.t -> list User.t) (db : Store) : Store :=
  mk_store (f (users db)) (projects db) (tasks db) (time_logs db) (risks db) (sprints db).
Definition set_projects (f : list Project.t -> list Project.t) (db : Store) : Store :=
  mk_store (users db) (f (projects db)) (tasks db) (time_logs db) (risks db) (sprints db).
Definition set_tasks (f : list Task.t -> list Task.t) (db : Store) : Store :=
  mk_store (users db) (projects db) (f (tasks db)) (time_logs db) (risks db) (sprints db).
Definition set_time_logs (f : list TimeLog.t -> list TimeLog.t) (db : Store) : Store :=
  mk_store (users db) (projects db) (tasks db) (f (time_logs db)) (risks db) (sprints db).
Definition set_risks (f : list Risk.t -> list Risk.t) (db : Store) : Store :=
  mk_store (users db) (projects db) (tasks db) (time_logs db) (f (risks db)) (sprints db).
Definition set_sprints (f : list Sprint.t -> list Sprint.t) (db : Store) : Store :=
  mk_store (users db) (projects db) (tasks db) (time_logs db) (risks db) (f (sprints db)).

(** PRIMARY KEY: every row of a table has a key, and no two rows share one. *)
Fixpoint primary_key {A : Type} `{Row A} (rows : list A) : bool :=
  match rows with
  | [] => true
  | r :: rows' =>
      match row_id r with
      | Some k => negb (existsb (fun r' => is_id k (row_id r')) rows') && primary_key rows'
      | None => false
      end
  end.

Definition stored (db : Store) : bool :=
  primary_key (users db) && primary_key (projects db) && primary_key (tasks db) &&
  primary_key (time_logs db) && primary_key (risks db) && primary_key (sprints db).

(** ** Exceptions of the persistence layer *)

Inductive db_exception :=
| IntegrityError        (* a UNIQUE or PRIMARY KEY constraint failed *)
| InvalidRequestError   (* session.delete of an instance that is not persisted *)
| StaleDataError        (* UPDATE of a row that is gone *)
| OperationalError.     (* the engine failed: locked file, I/O error, ... *)

Definition raises (A : Type) : Type := db_exception + A.

Definition bind_raises {A B : Type} (m : raises A) (f : A -> raises B) : raises B :=
  match m with inl e => inl e | inr a => f a end.

Notation "x <-! m ;; k" := (bind_raises m (fun x => k))
  (at level 100, m at next level, right associativity).

(** Whether the engine itself works during one [DatabaseManager] call. *)
Inductive engine := EngineOk | EngineFails.

(** ** Statements emitted by a flush *)

(** users.username and users.email are UNIQUE; [skip] is the row being
    updated, if any. *)
Definition unique_violation (skip : option Z) (u : User.t) (rows : list User.t) : bool :=
  existsb (fun r =>
    negb (match skip with Some k => is_id k (User.id r) | None => false end) &&
    (String.eqb (User.username r) (User.username u) ||
     String.eqb (User.email r) (User.email u))) rows.

(** INSERT of one row; the key is chosen by SQLite when the object has none. *)
Definition add_row {A : Type} `{Row A} (x : A) (rows : list A) : raises (list A) :=
  match row_id x with
  | None => let k := next_id rows in inr (insert_row k (with_id k x) rows)
  | Some k => if has_id k rows then inl IntegrityError
              else inr (insert_row k x rows)
  end.

Definition flush_insert (e : entity) (db : Store) : raises Store :=
  match e with
  | EUser u =>
      if unique_violation None u (users db) then inl IntegrityError
      else rows <-! add_row u (users db) ;; inr (set_users (fun _ => rows) db)
  | EProject p => rows <-! add_row p (projects db) ;; inr (set_projects (fun _ => rows) db)
  | ETask t => rows <-! add_row t (tasks db) ;; inr (set_tasks (fun _ => rows) db)
  | ETimeLog l => rows <-! add_row l (time_logs db) ;; inr (set_time_logs (fun _ => rows) db)
  | ERisk r => rows <-! add_row r (risks db) ;; inr (set_risks (fun _ => rows) db)
  | ESprint s => rows <-! add_row s (sprints db) ;; inr (set_sprints (fun _ => rows) db)
  end.

(** UPDATE of the row of a modified persistent object. *)
Definition save_row {A : Type} `{Row A} (x : A) (rows : list A) : raises (list A) :=
  match row_id x with
  | Some k => if has_id k rows then inr (replace_row k x rows) else inl StaleDataError
  | None => inl StaleDataError
  end.

Definition flush_update (e : entity) (db : Store) : raises Store :=
  match e with
  | EUser u =>
      if unique_violation (User.id u) u (users db) then inl IntegrityError
      else rows <-! save_row u (users db) ;; inr (set_users (fun _ => rows) db)
  | EProject p => rows <-! save_row p (projects db) ;; inr (set_projects (fun _ => rows) db)
  | ETask t => rows <-! save_row t (tasks db) ;; inr (set_tasks (fun _ => rows) db)
  | ETimeLog l => rows <-! save_row l (time_logs db) ;; inr (set_time_logs (fun _ => rows) db)
  | ERisk r => rows <-! save_row r (risks db) ;; inr (set_risks (fun _ => rows) db)
  | ESprint s => rows <-! save_row s (sprints db) ;; inr (set_sprints (fun _ => rows) db)
  end.

(** *** Deletion and the relationship cascades

    [Project.tasks], [Project.sprints], [Project.risks] and [Task.time_logs]
    are declared with [cascade="all, delete-orphan"]: their members are
    deleted with the parent.  The other one-to-many relationships
    ([Sprint.tasks], the backref [Task.dependent_tasks], and the four
    collections of [User]) have the default cascade: the foreign key of
    their members is set to NULL when the parent is deleted. *)

Definition ids_of {A : Type} `{Row A} (rows : list A) : list Z :=
  omap row_id rows.

Definition refers (gone : list Z) (o : option Z) : bool :=
  match o with Some j => existsb (Z.eqb j) gone | None => false end.

Definition without (gone : list Z) (o : option Z) : option Z :=
  if refers gone o then None else o.

Definition detach_task (gone_tasks gone_sprints gone_users : list Z) (t : Task.t) : Task.t :=
  Task.mk (Task.id t) (Task.title t) (Task.description t) (Task.status t)
    (Task.priority t) (Task.estimate_hours t)
    (without gone_tasks (Task.dependency_task_id t))
    (without gone_sprints (Task.sprint_id t))
    (Task.project_id t)
    (without gone_users (Task.assigned_to_id t))
    (Task.created_at t).

Definition delete_tasks (gone : list Z) (db : Store) : Store :=
  set_time_logs (List.filter (fun l => negb (refers gone (TimeLog.task_id l))))
    (set_tasks (fun ts => map (detach_task gone [] [])
                  (List.filter (fun t => negb (refers gone (Task.id t))) ts)) db).

Definition delete_sprints (gone : list Z) (db : Store) : Store :=
  set_sprints (List.filter (fun s => negb (refers gone (Sprint.id s))))
    (set_tasks (map (detach_task [] gone [])) db).

Definition delete_risks (gone : list Z) (db : Store) : Store :=
  set_risks (List.filter (fun r => negb (refers gone (Risk.id r)))) db.

(** The collections [project.tasks], [project.sprints], [project.risks]. *)
Definition tasks_of_project (k : Z) (db : Store) : list Task.t :=
  List.filter (fun t => is_id k (Task.project_id t)) (tasks db).
Definition sprints_of_project (k : Z) (db : Store) : list Sprint.t :=
  List.filter (fun s => is_id k (Sprint.project_id s)) (sprints db).
Definition risks_of_project (k : Z) (db : Store) : list Risk.t :=
  List.filter (fun r => is_id k (Risk.project_id r)) (risks db).

Definition delete_project (k : Z) (db : Store) : Store :=
  let gone_tasks := ids_of (tasks_of_project k db) in
  let gone_sprints := ids_of (sprints_of_project k db) in
  let gone_risks := ids_of (risks_of_project k db) in
  set_projects (remove_row k)
    (delete_risks gone_risks (delete_sprints gone_sprints (delete_tasks gone_tasks db))).

Definition delete_user (k : Z) (db : Store) : Store :=
  set_users (remove_row k)
    (set_projects (map (fun p =>
        Project.mk (Project.id p) (Project.name p) (Project.description p)
          (Project.category p) (Project.status p) (Project.priority p)
          (Project.start_date p) (Project.due_date p)
          (without [k] (Project.manager_id p))))
    (set_tasks (map (detach_task [] [] [k]))
    (set_time_logs (map (fun l =>
        TimeLog.mk (TimeLog.id l) (TimeLog.hours l) (TimeLog.log_date l)
          (TimeLog.task_id l) (without [k] (TimeLog.user_id l))))
    (set_risks (map (fun r =>
        Risk.mk (Risk.id r) (Risk.name r) (Risk.description r) (Risk.probability r)
          (Risk.impact r) (Risk.mitigation_plan r) (Risk.status r)
          (Risk.project_id r) (without [k] (Risk.owner_id r)))) db)))).

(** The primary key an object carries.  No constructor call of the source
    passes an [id]: an object has a key when it was stored or loaded, and
    it keeps the key when its row is deleted. *)
Definition entity_id (e : entity) : option Z :=
  match e with
  | EUser u => User.id u | EProject p => Project.id p | ETask t => Task.id t
  | ETimeLog l => TimeLog.id l | ERisk r => Risk.id r | ESprint s => Sprint.id s
  end.

Definition known {A : Type} `{Row A} (x : A) (rows : list A) : option Z :=
  match row_id x with
  | Some k => if has_id k rows then Some k else None
  | None => None
  end.

(** The primary key of [e] when its row is in the database. *)
Definition persisted (e : entity) (db : Store) : option Z :=
  match e with
  | EUser u => known u (users db)
  | EProject p => known p (projects db)
  | ETask t => known t (tasks db)
  | ETimeLog l => known l (time_logs db)
  | ERisk r => known r (risks db)
  | ESprint s => known s (sprints db)
  end.

(** DELETE of the row of an object, with the cascades, all by the key of
    the object.  A DELETE that matches no row only warns (this is the case
    of an object whose row is already gone); an object without a key does
    not get here, [session.delete] refuses it. *)
Definition flush_delete (e : entity) (db : Store) : raises Store :=
  match entity_id e with
  | None => inl InvalidRequestError
  | Some k =>
      inr match e with
          | EUser _ => delete_user k db
          | EProject _ => delete_project k db
          | ETask _ => delete_tasks [k] db
          | ETimeLog _ => set_time_logs (remove_row k) db
          | ERisk _ => delete_risks [k] db
          | ESprint _ => delete_sprints [k] db
          end
  end.

(** ** The session (unit of work)

    [DatabaseManager] keeps one [Session] for the life of the process, and
    every object the pages handle belongs to it.  What the session holds
    beyond the committed database is the work not yet flushed: objects
    added, persistent objects whose attributes were assigned, objects
    marked for deletion.  [commit] flushes all of it in one transaction;
    [rollback] drops it, and the objects show the committed rows again. *)

Inductive pending :=
| New (e : entity)
| Dirty (e : entity)
| Deleted (e : entity).

Record Session := mk_session {
  committed : Store;
  work : list pending
}.

Definition clean (db : Store) : Session := mk_session db [].

Definition flush_one (db : Store) (w : pending) : raises Store :=
  match w with
  | New e => flush_insert e db
  | Dirty e => flush_update e db
  | Deleted e => flush_delete e db
  end.

Fixpoint flush (ws : list pending) (db : Store) : raises Store :=
  match ws with
  | [] => inr db
  | w :: ws' => db' <-! flush_one db w ;; flush ws' db'
  end.

Definition session_add (e : entity) (s : Session) : Session :=
  mk_session (committed s) (work s ++ [New e]).

(** Assigning an attribute of a persistent object: [e] is the object with
    its new attribute values. *)
Definition session_modify (e : entity) (s : Session) : Session :=
  mk_session (committed s) (work s ++ [Dirty e]).

(** [session.merge]: the state of [e] is copied onto the persistent object
    with its primary key; an object without a row becomes a new one.  For
    an object that is in the session already the copy changes nothing; the
    UPDATE queued here then writes the values the row will have anyway
    (the same row twice, or the committed row onto itself). *)
Definition session_merge (e : entity) (s : Session) : Session :=
  match persisted e (committed s) with
  | Some _ => session_modify e s
  | None => session_add e s
  end.

(** [session.delete]: "Instance is not persisted" is raised for an object
    without identity key, one that was never stored.  An object that has
    its key is marked for deletion, also when its row is gone already (a
    deleted object is detached and keeps its key; it is attached
    again). *)
Definition session_delete (e : entity) (s : Session) : raises Session :=
  match entity_id e with
  | Some _ => inr (mk_session (committed s) (work s ++ [Deleted e]))
  | None => inl InvalidRequestError
  end.

(** [io] stands for the whole call that ends in this commit: with
    [EngineFails] whatever the call sends to the engine raises, be it the
    SELECT that refreshes an object expired by the commit before, a
    statement of the flush, or COMMIT itself. *)
Definition commit (io : engine) (s : Session) : raises Session :=
  match io with
  | EngineFails => inl OperationalError
  | EngineOk => db' <-! flush (work s) (committed s) ;; inr (clean db')
  end.

Definition rollback (s : Session) : Session := clean (committed s).

(** ** DatabaseManager: generic CRUD methods *)

Definition create (io : engine) (e : entity) (s : Session) : bool * Session :=
  match commit io (session_add e s) with
  | inr s' => (true, s')
  | inl IntegrityError => (false, rollback s)
  | inl _ => (false, rollback s)          (* st.error("Database error: ...") *)
  end.

Definition update (io : engine) (e : entity) (s : Session) : bool * Session :=
  match commit io (session_merge e s) with
  | inr s' => (true, s')
  | inl _ => (false, rollback s)          (* st.error("Database error: ...") *)
  end.

Definition delete (io : engine) (e : entity) (s : Session) : bool * Session :=
  match s' <-! session_delete e s ;; commit io s' with
  | inr s'' => (true, s'')
  | inl _ => (false, rollback s)          (* st.error("Database error: ...") *)
  end.

Definition table (m : model) (db : Store) : list entity :=
  match m with
  | MUser => map EUser (users db)
  | MProject => map EProject (projects db)
  | MTask => map ETask (tasks db)
  | MTimeLog => map ETimeLog (time_logs db)
  | MRisk => map ERisk (risks db)
  | MSprint => map ESprint (sprints db)
  end.

(** [hasattr(model, 'project_id')] *)
Definition has_project_id (m : model) : bool :=
  match m with
  | MTask | MRisk | MSprint => true
  | MUser | MProject | MTimeLog => false
  end.

Definition project_id_of (e : entity) : option Z :=
  match e with
  | ETask t => Task.project_id t
  | ERisk r => Risk.project_id r
  | ESprint s => Sprint.project_id s
  | EUser _ | EProject _ | ETimeLog _ => None
  end.

(** Truth value of an optional integer argument: [None] and [0] are false. *)
Definition truthy (o : option Z) : bool :=
  match o with Some k => negb (k =? 0) | None => false end.

Definition read_all (m : model) (project_id : option Z) (db : Store) : list entity :=
  if truthy project_id && has_project_id m
  then List.filter (fun e => match project_id with
                             | Some k => is_id k (project_id_of e)
                             | None => false
                             end) (table m db)
  else table m db.

Definition read_by_id (m : model) (k : Z) (db : Store) : option entity :=
  List.find (fun e => match e with
                      | EUser u => is_id k (User.id u)
                      | EProject p => is_id k (Project.id p)
                      | ETask t => is_id k (Task.id t)
                      | ETimeLog l => is_id k (TimeLog.id l)
                      | ERisk r => is_id k (Risk.id r)
                      | ESprint s => is_id k (Sprint.id s)
                      end) (table m db).

(** [sum(log.hours for log in logs)] *)
Definition sum_hours (logs : list TimeLog.t) : Q :=
  fold_left Qplus (map TimeLog.hours logs) 0%Q.

Definition get_total_logged_hours (task_id : Z) (db : Store) : Q :=
  sum_hours (List.filter (fun l => is_id task_id (TimeLog.task_id l)) (time_logs db)).

Definition get_user_by_username (name : string) (db : Store) : option User.t :=
  List.find (fun u => String.eqb (User.username u) name) (users db).

(** ** AuthService *)

Record session_state := mk_state {
  is_authenticated : bool;
  st_username : option string;
  st_user_role : option string;
  st_user_id : option Z;
  current_page : string
}.

Section Auth.
(** [hashlib.sha256(password.encode()).hexdigest()] *)
Variable hash_password : string -> string.

(** Returns the boolean, [st.session_state] afterwards and the toasts
    shown. *)
Definition authenticate (username password : string) (db : Store)
    (st : session_state) : bool * session_state * list string :=
  match get_user_by_username username db with
  | Some user =>
      if String.eqb (User.password_hash user) (hash_password password)
      then (true,
            mk_state true (Some (User.username user)) (Some (User.role user))
              (User.id user) "Dashboard",
            ["Welcome back, " ++ User.username user ++ " (" ++ User.role user ++ ")!"]%string)
      else (false, st, [])
  | None => (false, st, [])
  end.

(** What the login form does with the answer. *)
Inductive login_outcome :=
| Rerun (st : session_state) (toasts : list string)
| LoginError (msg : string) (st : session_state).

Definition login_submit (username password : string) (db : Store)
    (st : session_state) : login_outcome :=
  let '(ok, st', toasts) := authenticate username password db st in
  if ok then Rerun st' toasts
  else LoginError "Invalid username or password." st'.
End Auth.

(** ** Kanban: the "Move & Log" button *)

Definition KANBAN_STATUSES : list string :=
  ["To Do"; "In Progress"; "In Review"; "Done"].

Definition with_status (new_status : string) (t : Task.t) : Task.t :=
  Task.mk (Task.id t) (Task.title t) (Task.description t) new_status
    (Task.priority t) (Task.estimate_hours t) (Task.dependency_task_id t)
    (Task.sprint_id t) (Task.project_id t) (Task.assigned_to_id t)
    (Task.created_at t).

(** The attributes the Task object with key [k] shows: those assigned since
    the last commit or rollback, otherwise those of its row. *)
Definition task_object (k : Z) (s : Session) : option Task.t :=
  match List.find (fun w => match w with
                            | Dirty (ETask t) => is_id k (Task.id t)
                            | _ => false
                            end) (rev (work s)) with
  | Some (Dirty (ETask t)) => Some t
  | _ => get k (tasks (committed s))
  end.

Record moved := mk_moved {
  logged : option bool;   (* what create(new_log) returned; the page ignores it *)
  updated : bool;         (* what update(task) returned: toast and rerun, or st.error *)
  after : Store
}.

(** [k] is the key of the card's task, one of the tasks just read from
    [db]; [io_log] and [io_task] say whether the engine works during the
    two calls. *)
Definition move_and_log (io_log io_task : engine) (now : datetime)
    (user_id : option Z) (k : Z) (new_status : string) (hours_to_log : Q)
    (db : Store) : option moved :=
  match get k (tasks db) with
  | None => None
  | Some task =>
      (* task.status = new_status *)
      let s1 := session_modify (ETask (with_status new_status task)) (clean db) in
      let '(created, s2) :=
        if negb (Qle_bool hours_to_log 0)
        then let new_log := TimeLog.mk None hours_to_log now (Task.id task) user_id in
             let '(ok, s) := create io_log (ETimeLog new_log) s1 in (Some ok, s)
        else (None, s1) in
      match task_object k s2 with
      | None => None
      | Some task' =>
          let '(ok, s3) := update io_task (ETask task') s2 in
          Some (mk_moved created ok (committed s3))
      end
  end.

(** ** Gantt page: work breakdown structure *)

#[warning="-register-all"]
Inductive wbs_node := Node (level : nat) (task : Task.t) (children : list wbs_node).

Inductive wbs_view :=
| WbsNoTasks                          (* st.info("No tasks available to generate WBS.") *)
| WbsNoTopLevel                       (* st.warning("No clear top-level tasks ...") *)
| WbsForest (roots : list wbs_node).  (* one st.markdown line per node, depth first *)

(** Python's [==] on two optional integers. *)
Definition py_eqb (a b : option Z) : bool :=
  match a, b with
  | Some x, Some y => x =? y
  | None, None => true
  | _, _ => false
  end.

(** [{t.dependency_task_id for t in project_tasks if t.dependency_task_id}] *)
Definition dependent_ids (project_tasks : list Task.t) : gset Z :=
  list_to_set (omap (fun t => if truthy (Task.dependency_task_id t)
                              then Task.dependency_task_id t else None)
                 project_tasks).

Definition in_ids (o : option Z) (s : gset Z) : bool :=
  match o with Some k => bool_decide (k ∈ s) | None => false end.

Definition top_level_tasks (project_tasks : list Task.t) : list Task.t :=
  List.filter (fun t => negb (in_ids (Task.id t) (dependent_ids project_tasks)) &&
                        negb (truthy (Task.dependency_task_id t)))
    project_tasks.

Definition dependents (project_tasks : list Task.t) (task : Task.t) : list Task.t :=
  List.filter (fun t => py_eqb (Task.dependency_task_id t) (Task.id task)) project_tasks.

(** [fuel] bounds the depth of the Python call stack. *)
Fixpoint render_wbs_node (fuel : nat) (project_tasks : list Task.t)
    (task : Task.t) (level : nat) : option wbs_node :=
  match fuel with
  | O => None
  | S fuel' =>
      match mapM (fun t => render_wbs_node fuel' project_tasks t (S level))
                 (dependents project_tasks task) with
      | Some children => Some (Node level task children)
      | None => None
      end
  end.

Definition wbs (fuel : nat) (project_tasks : list Task.t) : option wbs_view :=
  match project_tasks with
  | [] => Some WbsNoTasks
  | _ :: _ =>
      match top_level_tasks project_tasks with
      | [] => Some WbsNoTopLevel
      | tops =>
          match mapM (fun t => render_wbs_node fuel project_tasks t 0) tops with
          | Some roots => Some (WbsForest roots)
          | None => None
          end
      end
  end.

(** ** Gantt chart: the dates of a task *)

(** Rounding to the nearest integer, ties to the even one. *)
Definition round_half_even (x : Q) : Z :=
  let f := Qfloor x in
  match Qcompare (x - inject_Z f) (1 # 2) with
  | Lt => f
  | Gt => f + 1
  | Eq => if Z.even f then f else f + 1
  end.

(** A [timedelta] is its length in microseconds, which is the resolution
    the constructor rounds to. *)
Definition microseconds_per_hour : Z := 3600000000.
Definition microseconds_per_day : Z := 86400000000.

Definition timedelta_hours (h : Q) : Z :=
  round_half_even (h * inject_Z microseconds_per_hour).

Definition timedelta_days (n : Z) : Z := n * microseconds_per_day.

Inductive python_error :=
| AttributeError (msg : string)
| OverflowError.

(** The constructor of [timedelta] refuses a length whose days pass
    999999999 in magnitude. *)
Definition timedelta_max_days : Z := 999999999.

Definition timedelta (microseconds : Z) : python_error + Z :=
  let days := microseconds / microseconds_per_day in
  if (- timedelta_max_days <=? days) && (days <=? timedelta_max_days)
  then inr microseconds
  else inl OverflowError.

(** A [datetime.date] is a day from 0001-01-01, ordinal 1, to 9999-12-31,
    ordinal [MAXORDINAL]. *)
Definition MAXORDINAL : Z := 3652059.

(** [date + timedelta]: only [timedelta.days] is added, and the result
    must be a day of the calendar. *)
Definition date_add (d : Z) (delta : Z) : python_error + Z :=
  let o := d + delta / microseconds_per_day in
  if (0 <? o) && (o <=? MAXORDINAL) then inr o else inl OverflowError.

(** Lines 330-331 of [get_gantt_chart]: the pair [(start, end)], or the
    OverflowError of line 331. *)
Definition timeline_dates (task : Task.t) : python_error + Z * Z :=
  let start := dt_ordinal (Task.created_at task) in
  let delta :=
    if negb (Qle_bool (Task.estimate_hours task) 0)
    then timedelta (timedelta_hours (Task.estimate_hours task))
    else timedelta (timedelta_days 1) in
  match delta with
  | inl e => inl e
  | inr delta =>
      match date_add start delta with
      | inl e => inl e
      | inr end_ => inr (start, end_)
      end
  end.

(** [end] is a [datetime.date], and [end.date()] does not exist. *)
Definition date_of_date (d : Z) : python_error + Z :=
  inl (AttributeError "'datetime.date' object has no attribute 'date'").

Record gantt_row := mk_gantt_row {
  g_Task : string;
  g_Start : Z;
  g_Finish : Z;
  g_Status : string;
  g_Priority : string;
  g_Duration : Q;
  g_Logged : Q
}.

Definition gantt_row_of (db : Store) (task : Task.t) : python_error + gantt_row :=
  let logged_hours :=
    match Task.id task with Some k => get_total_logged_hours k db | None => 0%Q end in
  match timeline_dates task with
  | inl e => inl e
  | inr (start, end_) =>
      match date_of_date end_ with
      | inl e => inl e
      | inr finish =>
          inr (mk_gantt_row (Task.title task) start finish (Task.status task)
                 (Task.priority task) (Task.estimate_hours task) logged_hours)
      end
  end.

(** [None] is the Python [None] returned for an empty list. *)
Definition get_gantt_chart (db : Store) (tasks : list Task.t)
    : option (python_error + list gantt_row) :=
  match tasks with
  | [] => None
  | _ :: _ =>
      Some (fold_right (fun task acc =>
              match gantt_row_of db task, acc with
              | inl e, _ => inl e
              | inr _, inl e => inl e
              | inr row, inr rows => inr (row :: rows)
              end) (inr []) tasks)
  end.

(** ** Reports page: weekly logged hours *)

(** [date.weekday()], Monday is 0; [date.isoweekday()], Monday is 1. *)
Definition weekday (d : Z) : Z := (d + 6) mod 7.
Definition isoweekday (d : Z) : Z := if d mod 7 =? 0 then 7 else d mod 7.

(** [to_period('W')]: the weekly period ending on Sunday that holds the
    day, as its first and last day (its text is "first/last"). *)
Definition to_period_W (d : Z) : Z * Z :=
  let last := d + (6 - weekday d) in (last - 6, last).

(** The Monday that opens the ISO week of a day. *)
Definition iso_week_start (d : Z) : Z := d - (isoweekday d - 1).

Definition same_iso_week (d1 d2 : Z) : bool := iso_week_start d1 =? iso_week_start d2.

Record log_row := mk_log_row {
  row_User : string;
  row_Task_ID : option Z;
  row_Task_Title : string;
  row_Project : string;
  row_Hours_Logged : Q;
  row_Date : Z
}.

(** One entry of [log_data]; [None] is the AttributeError of a relationship
    that is [None]. *)
Definition log_row_of (db : Store) (log : TimeLog.t) : option log_row :=
  user ← TimeLog.user_id log ≫= (fun k => get k (users db));
  task ← TimeLog.task_id log ≫= (fun k => get k (tasks db));
  project ← Task.project_id task ≫= (fun k => get k (projects db));
  Some (mk_log_row (User.username user) (Task.id task) (Task.title task)
          (Project.name project) (TimeLog.hours log)
          (dt_ordinal (TimeLog.log_date log))).

Definition log_data (db : Store) : option (list log_row) :=
  mapM (log_row_of db) (time_logs db).

Definition week_key (r : log_row) : string * (Z * Z) :=
  (row_User r, to_period_W (row_Date r)).

(** [df_logs.groupby(['User', 'Week'])['Hours Logged'].sum()]: one entry per
    pair that occurs, holding the sum of its rows in row order.  The order
    of the entries of the grouped frame is not represented. *)
Definition weekly_summary (rows : list log_row) : gmap (string * (Z * Z)) Q :=
  fold_left (fun m r =>
      <[week_key r := (default 0%Q (m !! week_key r) + row_Hours_Logged r)%Q]> m)
    rows ∅.

Inductive time_report :=
| NoTimeLogged                                      (* st.info("No time has been logged yet.") *)
| ReportFails                                       (* AttributeError while building log_data *)
| WeeklyHours (summary : gmap (string * (Z * Z)) Q).

Definition weekly_logged_hours (db : Store) : time_report :=
  match time_logs db with
  | [] => NoTimeLogged
  | _ :: _ =>
      match log_data db with
      | Some rows => WeeklyHours (weekly_summary rows)
      | None => ReportFails
      end
  end.

(** ** The demo data of [_seed_initial_data]

    Booted on Monday 2024-01-01 (ordinal 738886) at midnight; the password
    hashes are written [sha256:<password>]. *)

Definition boot : datetime := mk_datetime 738886 0.

Definition demo_hash (password : string) : string := ("sha256:" ++ password)%string.

Definition admin : User.t :=
  User.mk (Some 1) "admin" "admin@tool.com" (demo_hash "adminpass") "Admin" boot.
Definition manager : User.t :=
  User.mk (Some 2) "manager" "manager@tool.com" (demo_hash "managerpass") "Project Manager" boot.
Definition member : User.t :=
  User.mk (Some 3) "member" "member@tool.com" (demo_hash "memberpass") "Team Member" boot.

Definition proj_core : Project.t :=
  Project.mk (Some 1) "Tool Core Development"
    (Some "Develop the core features and database.") "Software" "In Progress"
    "High" boot (Some (mk_datetime (738886 + 90) 0)) (Some 2).
Definition proj_marketing : Project.t :=
  Project.mk (Some 2) "Q4 Marketing Strategy"
    (Some "Plan and execute holiday marketing campaign.") "Marketing" "Planning"
    "Medium" boot (Some (mk_datetime (738886 + 45) 0)) (Some 1).

Definition sprint_1 : Sprint.t :=
  Sprint.mk (Some 1) "Sprint 1: Auth & DB" (Some boot)
    (Some (mk_datetime (738886 + 14) 0)) (Some 1) "Active".

Definition task1 : Task.t :=
  Task.mk (Some 1) "Implement Kanban View" None "In Progress" "Urgent" 8
    (Some 2) (Some 1) (Some 1) (Some 3) boot.
Definition task2 : Task.t :=
  Task.mk (Some 2) "Design Database Schema" None "Done" "High" 12
    None None (Some 1) (Some 1) boot.
Definition task3 : Task.t :=
  Task.mk (Some 3) "Launch User Testing Phase 1" None "To Do" "High" 20
    None None (Some 2) (Some 2) boot.

Definition risk1 : Risk.t :=
  Risk.mk (Some 1) "Database Migration Failure"
    (Some "Risk of data loss during production database switch.") "High" "High"
    (Some "Perform dry run migration and full backup.") "Open" (Some 1) (Some 1).

Definition log1 : TimeLog.t := TimeLog.mk (Some 1) (9 # 2) boot (Some 2) (Some 1).

Definition seeded : Store :=
  mk_store [admin; manager; member] [proj_core; proj_marketing]
    [task1; task2; task3] [log1] [risk1] [sprint_1].

(** ** Notions and data used in the statements *)

Definition dana : User.t :=
  User.mk None "dana" "dana@tool.com" (demo_hash "danapass") "Team Member" boot.
Definition dana_again : User.t :=
  User.mk None "dana" "dana@elsewhere.org" (demo_hash "other") "Project Manager" boot.
Definition admin_again : User.t :=
  User.mk None "admin" "second@tool.com" (demo_hash "secret") "Team Member" boot.

(** The store after a move that logs hours, when the engine works during
    the insert. *)
Definition moved_store (now : datetime) (user_id : option Z) (k : Z)
    (new_status : string) (hours_to_log : Q) (task : Task.t) (db : Store) : Store :=
  set_time_logs
    (fun logs => logs ++ [TimeLog.mk (Some (next_id logs)) hours_to_log now (Some k) user_id])
    (set_tasks (replace_row k (with_status new_status task)) db).

(** The view in which every top-level task is a leaf. *)
Definition flat_view (project_tasks : list Task.t) : wbs_view :=
  match project_tasks with
  | [] => WbsNoTasks
  | _ :: _ =>
      match top_level_tasks project_tasks with
      | [] => WbsNoTopLevel
      | tops => WbsForest (map (fun t => Node 0 t []) tops)
      end
  end.

(** [a] depends on [b]: the dependency reference of [a] is the key of [b]. *)
Definition depends_on (project_tasks : list Task.t) (a b : Task.t) : Prop :=
  In a project_tasks /\ In b project_tasks /\
  truthy (Task.dependency_task_id a) = true /\
  Task.dependency_task_id a = Task.id b.

(** The dependency references form a cycle. *)
Definition cyclic (project_tasks : list Task.t) : Prop :=
  exists t, tc (depends_on project_tasks) t t.

(** Three tasks of one project: C depends on B, B depends on A. *)
Definition task_a : Task.t :=
  Task.mk (Some 1) "A" None "Done" "High" 4 None None (Some 1) (Some 1) boot.
Definition task_b : Task.t :=
  Task.mk (Some 2) "B" None "In Progress" "High" 6 (Some 1) None (Some 1) (Some 2) boot.
Definition task_c : Task.t :=
  Task.mk (Some 3) "C" None "To Do" "Medium" 8 (Some 2) None (Some 1) (Some 3) boot.
Definition chain_tasks : list Task.t := [task_a; task_b; task_c].

(** The forest a dependency view of the chain is expected to show. *)
Definition chain_forest : wbs_view :=
  WbsForest [Node 0 task_a [Node 1 task_b [Node 2 task_c []]]].

(** A task with the key 0 that refers to itself: 0 is false for Python, so
    the task counts as having no dependency and as not being pointed at.
    SQLite never hands out this key. *)
Definition zero_key_task : Task.t :=
  Task.mk (Some 0) "Z" None "To Do" "Low" 1 (Some 0) None (Some 1) (Some 1) boot.

(** The same tasks with A depending on C. *)
Definition task_a_on_c : Task.t :=
  Task.mk (Some 1) "A" None "Done" "High" 4 (Some 3) None (Some 1) (Some 1) boot.
Definition cycle_tasks : list Task.t := [task_a_on_c; task_b; task_c].

(** The projection in the words of the specification: the end is the start
    plus the estimate taken as a number of hours, for every estimate. *)
Definition naive_timeline (task : Task.t) : Z * Z :=
  let start := dt_ordinal (Task.created_at task) in
  (start, start + timedelta_hours (Task.estimate_hours task) / microseconds_per_day).

Definition unestimated_task : Task.t :=
  Task.mk (Some 4) "Write release notes" None "To Do" "Low" 0 None None (Some 1) (Some 3) boot.

(** An estimate of a hundred million hours, which the form accepts: the
    end would lie after the year 9999. *)
Definition overestimated_task : Task.t :=
  Task.mk (Some 5) "Rewrite everything" None "To Do" "Low" 100000000 None None (Some 1)
    (Some 3) boot.

(** The sum of a group as the grouped frame holds it; a pair without rows
    has no entry. *)
Definition bucket (hours : list Q) : option Q :=
  match hours with
  | [] => None
  | _ :: _ => Some (fold_left Qplus hours 0%Q)
  end.

(** The username the report shows for a TimeLog: that of [log.user]. *)
Definition username_of (db : Store) (log : TimeLog.t) : option string :=
  User.username <$> (TimeLog.user_id log ≫= (fun k => get k (users db))).

(** The TimeLogs by the user called [name] whose date is in the ISO week of
    the day [d]. *)
Definition in_bucket (db : Store) (name : string) (d : Z) (log : TimeLog.t) : bool :=
  match username_of db log with
  | Some n => String.eqb n name
  | None => false
  end && same_iso_week (dt_ordinal (TimeLog.log_date log)) d.

(** The seeded store after two more logs by admin: on Sunday 2024-01-07 and
    on Monday 2024-01-08. *)
Definition log2 : TimeLog.t :=
  TimeLog.mk (Some 2) 2 (mk_datetime 738892 0) (Some 1) (Some 1).
Definition log3 : TimeLog.t :=
  TimeLog.mk (Some 3) 1 (mk_datetime 738893 0) (Some 1) (Some 1).
Definition two_weeks : Store :=
  set_time_logs (fun logs => logs ++ [log2; log3]) seeded.

(** ** Entities in general *)

Definition model_of (e : entity) : model :=
  match e with
  | EUser _ => MUser | EProject _ => MProject | ETask _ => MTask
  | ETimeLog _ => MTimeLog | ERisk _ => MRisk | ESprint _ => MSprint
  end.

Definition entity_with_id (k : Z) (e : entity) : entity :=
  match e with
  | EUser u => EUser (with_id k u) | EProject p => EProject (with_id k p)
  | ETask t => ETask (with_id k t) | ETimeLog l => ETimeLog (with_id k l)
  | ERisk r => ERisk (with_id k r) | ESprint s => ESprint (with_id k s)
  end.

(** The key SQLite gives the next row of the table of a class. *)
Definition next_key (m : model) (db : Store) : Z :=
  match m with
  | MUser => next_id (users db) | MProject => next_id (projects db)
  | MTask => next_id (tasks db) | MTimeLog => next_id (time_logs db)
  | MRisk => next_id (risks db) | MSprint => next_id (sprints db)
  end.

(** No UNIQUE constraint stands against the INSERT, resp. the UPDATE, of
    the object: only users have such constraints. *)
Definition insert_allowed (e : entity) (db : Store) : bool :=
  match e with
  | EUser u => negb (unique_violation None u (users db))
  | _ => true
  end.

Definition update_allowed (e : entity) (db : Store) : bool :=
  match e with
  | EUser u => negb (unique_violation (User.id u) u (users db))
  | _ => true
  end.

(** A new task for the marketing project, not yet stored. *)
Definition standup : Task.t :=
  Task.mk None "Prepare stand-up notes" None "To Do" "Low" 1 None None (Some 2) (Some 3) boot.

(** UNIQUE(username), UNIQUE(email): two users clash when they share one of
    the two, and no two rows of the table may clash. *)
Definition clashes (a b : User.t) : bool :=
  String.eqb (User.username a) (User.username b) ||
  String.eqb (User.email a) (User.email b).

Fixpoint unique_users (rows : list User.t) : bool :=
  match rows with
  | [] => true
  | r :: rows' => negb (existsb (clashes r) rows') && unique_users rows'
  end.

(** The constraints of the schema: primary keys and the two UNIQUE columns
    of users. *)
Definition constrained (db : Store) : bool := stored db && unique_users (users db).

(** ** Name-to-key dictionaries of the pages *)

(** [{user.username: user.id for user in users}]: a later user replaces an
    earlier one of the same name.  The order of the keys is not
    represented. *)
Definition get_users_for_assignment (db : Store) : gmap string (option Z) :=
  fold_left (fun m user => <[User.username user := User.id user]> m) (users db) ∅.

Definition get_user_id_by_username (username : string) (db : Store) : option Z :=
  match get_user_by_username username db with
  | Some user => User.id user
  | None => None
  end.

(** [project_options = {p.name: p.id for p in all_projects}], from which the
    kanban, sprint, Gantt and risk pages take [selected_project_id]. *)
Definition project_options (db : Store) : gmap string (option Z) :=
  fold_left (fun m p => <[Project.name p := Project.id p]> m) (projects db) ∅.

(** ** Login page: registration; session state; routing *)

Inductive registration :=
| AllFieldsRequired     (* st.error("All fields are required.") *)
| PasswordsDoNotMatch   (* st.error("Passwords do not match.") *)
| Registered            (* st.success("Registration successful! Please log in.") *)
| AlreadyExists.        (* st.error("Username or Email already exists.") *)

(** Truth value of a string: the empty string is false. *)
Definition nonempty (s : string) : bool := negb (String.eqb s "").

Section Registration.
(** [auth_service.hash_password] *)
Variable hash_password : string -> string.

(** The "Register" button; [now] is the default of [created_at]. *)
Definition register (io : engine) (now : datetime)
    (new_username new_email new_password confirm_password new_role : string)
    (db : Store) : registration * Store :=
  if negb (forallb nonempty [new_username; new_email; new_password; confirm_password])
  then (AllFieldsRequired, db)
  else if negb (String.eqb new_password confirm_password)
  then (PasswordsDoNotMatch, db)
  else
    let hashed_pass := hash_password new_password in
    let new_user := User.mk None new_username new_email hashed_pass new_role now in
    let '(ok, s) := create io (EUser new_user) (clean db) in
    (if ok then Registered else AlreadyExists, committed s).
End Registration.

(** What the pages read in a new browser session. *)
Definition initial_state : session_state := mk_state false None None None "Login".

(** [st.session_state] itself is a dictionary, and [init_session_state] and
    [logout] depend on which of its keys are set.  [VObject] stands for
    any other object it holds (the [db_manager], the [auth_service], the
    values of widgets). *)
Inductive state_value :=
| VNone
| VBool (b : bool)
| VStr (s : string)
| VInt (k : Z)
| VObject.

(** Lines 283-291: the six keys are set when [is_authenticated] is not. *)
Definition init_session_state (d : gmap string state_value) : gmap string state_value :=
  match d !! "is_authenticated" with
  | Some _ => d
  | None =>
      <["show_task_form" := VBool false]>
        (<["user_id" := VNone]>
           (<["user_role" := VNone]>
              (<["username" := VNone]>
                 (<["current_page" := VStr "Login"]>
                    (<["is_authenticated" := VBool false]> d)))))
  end.

(** The dictionary as the pages read it.  [is_authenticated] and
    [current_page] are read by attribute: the outer [None] is the
    AttributeError of one of them not being set.  A key of the user that
    is not set reads as [None], which is what [.get] gives for it (line
    272); the pages that read these keys by attribute are reached after a
    login only, which sets all three. *)
Definition read_state (d : gmap string state_value) : option session_state :=
  match d !! "is_authenticated", d !! "current_page" with
  | Some (VBool authenticated), Some (VStr page) =>
      Some (mk_state authenticated
              (match d !! "username" with Some (VStr name) => Some name | _ => None end)
              (match d !! "user_role" with Some (VStr role) => Some role | _ => None end)
              (match d !! "user_id" with Some (VInt k) => Some k | _ => None end)
              page)
  | _, _ => None
  end.

(** [st.session_state.get('user_role') in required_roles] *)
Definition check_role_access (required_roles : list string) (st : session_state) : bool :=
  match st_user_role st with
  | Some role => existsb (String.eqb role) required_roles
  | None => false
  end.

(** [logout]: every key is cleared, then [is_authenticated] and
    [current_page] are set, and the script is run again. *)
Definition logout (d : gmap string state_value) : gmap string state_value :=
  <["current_page" := VStr "Login"]> (<["is_authenticated" := VBool false]> ∅).

Definition is_admin (st : session_state) : bool :=
  match st_user_role st with
  | Some role => String.eqb role "Admin"
  | None => false
  end.

(** The options of the navigation radio. *)
Definition main_pages (st : session_state) : list string :=
  ["Dashboard"; "Project Management"; "Kanban Board"; "Sprint Management";
   "Gantt & WBS"; "Risk Register"; "Reports & Analytics"] ++
  (if is_admin st then ["Administration"] else []).

(** What [main_app] puts in the content area. *)
Inductive content :=
| LoginPage
| DashboardPage
| ProjectsPage
| KanbanPage
| SprintPage
| GanttPage
| RiskRegisterPage
| ReportsPage
| AdministrationPage
| AccessDenied      (* st.error("Access Denied. Only Administrators can view this page.") *)
| NoContent.

Definition administration_page (st : session_state) : content :=
  if negb (is_admin st) then AccessDenied else AdministrationPage.

(** [choice] is what the navigation radio returns; it is read only when the
    user is authenticated. *)
Definition main_app (st : session_state) (choice : string) : content :=
  let current_page := if is_authenticated st then choice else current_page st in
  if negb (is_authenticated st) then LoginPage
  else if String.eqb current_page "Dashboard" then DashboardPage
  else if String.eqb current_page "Project Management" then ProjectsPage
  else if String.eqb current_page "Kanban Board" then KanbanPage
  else if String.eqb current_page "Sprint Management" then SprintPage
  else if String.eqb current_page "Gantt & WBS" then GanttPage
  else if String.eqb current_page "Risk Register" then RiskRegisterPage
  else if String.eqb current_page "Reports & Analytics" then ReportsPage
  else if String.eqb current_page "Administration" then administration_page st
  else NoContent.

(** ** Kanban page: the board and the "Create Task" form *)

(** [tasks_by_status]: one list per status of [KANBAN_STATUSES], filled in
    the order of [tasks]; a task of another status is skipped. *)
Definition tasks_by_status (tasks : list Task.t) : gmap string (list Task.t) :=
  fold_left
    (fun m task =>
       if existsb (String.eqb (Task.status task)) KANBAN_STATUSES
       then <[Task.status task := default [] (m !! Task.status task) ++ [task]]> m
       else m)
    tasks
    (fold_left (fun m status => <[status := []]> m) KANBAN_STATUSES ∅).

(** [str(k)] for an integer. *)
Definition str_int (k : Z) : string :=
  DecimalString.NilEmpty.string_of_int (Z.to_int k).

(** [int(s)] on a string of digits with an optional minus sign; [None] is
    ValueError.  (Python accepts more: a plus sign, blanks around the
    number, underscores.  The form applies [int] to what is left of an
    option label, which has none of these.) *)
Definition py_int (s : string) : option Z :=
  match DecimalString.NilEmpty.int_of_string s with
  | Some (Decimal.Pos Decimal.Nil) | Some (Decimal.Neg Decimal.Nil) | None => None
  | Some d => Some (Z.of_int d)
  end.

(** [s.split(':')[0]] *)
Fixpoint before_colon (s : string) : string :=
  match s with
  | EmptyString => EmptyString
  | String c s' => if Ascii.eqb c ":" then EmptyString else String c (before_colon s')
  end.

(** [s.replace(old, new)] for a non-empty [old]: occurrences are replaced
    from the left and do not overlap; [skip] counts the characters of a
    replaced occurrence still to pass. *)
Fixpoint replace_from (old new : string) (skip : nat) (s : string) : string :=
  match s with
  | EmptyString => EmptyString
  | String c s' =>
      match skip with
      | S n => replace_from old new n s'
      | O =>
          if String.prefix old s
          then (new ++ replace_from old new (String.length old - 1) s')%string
          else String c (replace_from old new 0 s')
      end
  end.

Definition replace (old new s : string) : string := replace_from old new 0 s.

(** [f"Task #{t.id}: {t.title}"] *)
Definition dependency_label (t : Task.t) : string :=
  ("Task #" ++ match Task.id t with Some k => str_int k | None => "None" end
   ++ ": " ++ Task.title t)%string.

(** The options of "Depends on (Task Dependency)". *)
Definition dependency_tasks (tasks : list Task.t) : list string :=
  "None" :: map dependency_label
              (List.filter (fun t => negb (String.eqb (Task.status t) "Done")) tasks).

(** The key read back from the selected option; the outer [None] is
    ValueError. *)
Definition dependency_id (dependency_selection : string) : option (option Z) :=
  if negb (String.eqb dependency_selection "None")
  then Some <$> py_int (replace "Task #" "" (before_colon dependency_selection))
  else Some None.

Inductive task_form :=
| TitleRequired      (* st.error("Task Title is required.") *)
| FormRaises         (* ValueError *)
| TaskCreated        (* st.success(...) *)
| TaskNotCreated.    (* st.error("Failed to create task.") *)

(** The "Create Task" button.  [assigned_to_id] is [users_map[task_assigned_name]],
    [sprint_id] is [sprint_map.get(sprint_name)]; status and creation time
    take the column defaults. *)
Definition create_task (io : engine) (now : datetime)
    (task_title task_desc task_priority : string) (task_estimate : Q)
    (selected_project_id assigned_to_id sprint_id : option Z)
    (dependency_selection : string) (db : Store) : task_form * Store :=
  if negb (nonempty task_title) then (TitleRequired, db)
  else
    match dependency_id dependency_selection with
    | None => (FormRaises, db)
    | Some dependency =>
        let new_task :=
          Task.mk None task_title (Some task_desc) "To Do" task_priority task_estimate
            dependency sprint_id selected_project_id assigned_to_id now in
        let '(ok, s) := create io (ETask new_task) (clean db) in
        (if ok then TaskCreated else TaskNotCreated, committed s)
    end.

(** The characters of [str_int], and the strings made of them. *)
Definition digit (c : ascii) : bool :=
  existsb (Ascii.eqb c) ["0"; "1"; "2"; "3"; "4"; "5"; "6"; "7"; "8"; "9"; "-"]%char.

Fixpoint numeric (s : string) : bool :=
  match s with
  | EmptyString => true
  | String c s' => digit c && numeric s'
  end.

(** A task whose title itself has a colon and the words of a label. *)
Definition follow_up : Task.t :=
  Task.mk (Some 12) "Task #7: follow-up" None "To Do" "Low" 2 None None (Some 1) (Some 3) boot.

(** ** DatabaseManager: the demo data of a first start *)

(** What leaves [_seed_initial_data] early: an exception of a
    [session.commit()], or the AttributeError of [x.id] on a [None].
    Nothing catches either, and the store stays as the commits before it
    have left it. *)
Inductive seed_error :=
| CommitRaises (e : db_exception)
| NoneHasNoId (e : python_error).

Definition seeding (A : Type) : Type := (seed_error * Store) + A.

Definition bind_seeding {A B : Type} (m : seeding A) (f : A -> seeding B) : seeding B :=
  match m with inl e => inl e | inr a => f a end.

Notation "x <-? m ;; k" := (bind_seeding m (fun x => k))
  (at level 100, m at next level, right associativity).

(** [session.add_all(...)] (or an assignment to a loaded object) followed
    by [session.commit()]. *)
Definition seed_commit (io : engine) (ws : list pending) (db : Store) : seeding Store :=
  match commit io (mk_session db ws) with
  | inl e => inl (CommitRaises e, db)
  | inr s => inr (committed s)
  end.

(** [user.id] on the result of [.first()] *)
Definition id_of (user : option User.t) (db : Store) : seeding (option Z) :=
  match user with
  | Some u => inr (User.id u)
  | None => inl (NoneHasNoId (AttributeError "'NoneType' object has no attribute 'id'"), db)
  end.

(** The key a new object shows after the commit that inserted it into
    [rows], and the table after that INSERT. *)
Definition inserted {A : Type} `{Row A} (x : A) (rows : list A) : Z * list A :=
  let k := next_id rows in (k, insert_row k (with_id k x) rows).

(** [datetime + timedelta(days=n)] *)
Definition plus_days (d : datetime) (n : Z) : datetime :=
  mk_datetime (dt_ordinal d + n) (dt_micros d).

Section Seed.
(** The local [hash_password]. *)
Variable hash_password : string -> string.
(** The readings of [datetime.now()], one for each place of the function
    that takes one (the column defaults included), numbered from the top. *)
Variable now : nat -> datetime.
(** Whether the engine works during each of the six commits. *)
Variable io : nat -> engine.

(** Lines 150-156. *)
Definition seed_users (db : Store) : seeding Store :=
  match get_user_by_username "admin" db with
  | None =>
      let admin := User.mk None "admin" "admin@tool.com"
                     (hash_password "adminpass") "Admin" (now 0) in
      let manager := User.mk None "manager" "manager@tool.com"
                       (hash_password "managerpass") "Project Manager" (now 1) in
      let member := User.mk None "member" "member@tool.com"
                      (hash_password "memberpass") "Team Member" (now 2) in
      seed_commit (io 0) [New (EUser admin); New (EUser manager); New (EUser member)] db
  | Some _ => inr db
  end.

(** Lines 158-193. *)
Definition seed_demo (db : Store) : seeding Store :=
  match projects db with
  | _ :: _ => inr db
  | [] =>
      let admin := get_user_by_username "admin" db in
      let manager_user := get_user_by_username "manager" db in
      let member_user := get_user_by_username "member" db in
      manager_id <-? id_of manager_user db ;;
      admin_id <-? id_of admin db ;;
      let proj_core :=
        Project.mk None "Tool Core Development"
          (Some "Develop the core features and database.") "Software" "In Progress"
          "High" (now 5) (Some (plus_days (now 3) 90)) manager_id in
      let proj_marketing :=
        Project.mk None "Q4 Marketing Strategy"
          (Some "Plan and execute holiday marketing campaign.") "Marketing" "Planning"
          "Medium" (now 6) (Some (plus_days (now 4) 45)) admin_id in
      let '(proj_core_id, rows) := inserted proj_core (projects db) in
      let '(proj_marketing_id, _) := inserted proj_marketing rows in
      db <-? seed_commit (io 1) [New (EProject proj_core); New (EProject proj_marketing)] db ;;
      let sprint_1 :=
        Sprint.mk None "Sprint 1: Auth & DB" (Some (now 7)) (Some (plus_days (now 8) 14))
          (Some proj_core_id) "Active" in
      let '(sprint_1_id, _) := inserted sprint_1 (sprints db) in
      db <-? seed_commit (io 2) [New (ESprint sprint_1)] db ;;
      member_id <-? id_of member_user db ;;
      let task1 :=
        Task.mk None "Implement Kanban View" None "In Progress" "Urgent" 8
          None (Some sprint_1_id) (Some proj_core_id) member_id (now 9) in
      let task2 :=
        Task.mk None "Design Database Schema" None "Done" "High" 12
          None None (Some proj_core_id) admin_id (now 10) in
      let task3 :=
        Task.mk None "Launch User Testing Phase 1" None "To Do" "High" 20
          None None (Some proj_marketing_id) manager_id (now 11) in
      let '(task1_id, rows) := inserted task1 (tasks db) in
      let '(task2_id, _) := inserted task2 rows in
      db <-? seed_commit (io 3) [New (ETask task1); New (ETask task2); New (ETask task3)] db ;;
      (* task1.dependency_task_id = task2.id *)
      let task1 :=
        Task.mk (Some task1_id) "Implement Kanban View" None "In Progress" "Urgent" 8
          (Some task2_id) (Some sprint_1_id) (Some proj_core_id) member_id (now 9) in
      db <-? seed_commit (io 4) [Dirty (ETask task1)] db ;;
      let risk1 :=
        Risk.mk None "Database Migration Failure"
          (Some "Risk of data loss during production database switch.") "High" "High"
          (Some "Perform dry run migration and full backup.") "Open"
          (Some proj_core_id) admin_id in
      let log1 := TimeLog.mk None (9 # 2) (now 12) (Some task2_id) admin_id in
      seed_commit (io 5) [New (ERisk risk1); New (ETimeLog log1)] db
  end.

Definition _seed_initial_data (db : Store) : seeding Store :=
  db <-? seed_users db ;; seed_demo db.
End Seed.

(** A store with no row at all. *)
Definition empty_store : Store := mk_store [] [] [] [] [] [].

(** The store a run of the seed leaves, finished or not. *)
Definition store_after (r : seeding Store) : Store :=
  match r with inl (_, db) => db | inr db => db end.

(** A pending write that cannot change the table of [m]: an INSERT or
    UPDATE of another class (a DELETE may cascade). *)
Definition leaves (m : model) (w : pending) : Prop :=
  match w with
  | New e | Dirty e => model_of e <> m
  | Deleted _ => False
  end.

(** A first start during which the commit of the demo tasks fails, and the
    store it leaves. *)
Definition tasks_commit_fails (n : nat) : engine :=
  if Nat.eqb n 3 then EngineFails else EngineOk.

Definition half_seeded : Store :=
  mk_store [admin; manager; member] [proj_core; proj_marketing] [] [] [] [sprint_1].

(** ** Sprint page: the backlog and "Move to Sprint" *)

(** The objects of a query for [Task]. *)
Definition the_tasks (es : list entity) : list Task.t :=
  omap (fun e => match e with ETask t => Some t | _ => None end) es.

(** [t.sprint]: the Sprint the task refers to, if there is one. *)
Definition task_sprint (db : Store) (t : Task.t) : option Sprint.t :=
  match Task.sprint_id t with
  | Some k => get k (sprints db)
  | None => None
  end.

(** [s.tasks]: the tasks that refer to the sprint. *)
Definition sprint_tasks (db : Store) (s : Sprint.t) : list Task.t :=
  match Sprint.id s with
  | Some k => List.filter (fun t => is_id k (Task.sprint_id t)) (tasks db)
  | None => []
  end.

(** [[t for t in read_all(Task, project_id=selected_project_id) if not t.sprint]] *)
Definition backlog_tasks (selected_project_id : option Z) (db : Store) : list Task.t :=
  List.filter (fun t => match task_sprint db t with Some _ => false | None => true end)
    (the_tasks (read_all MTask selected_project_id db)).

Definition with_sprint (target_sprint : Z) (t : Task.t) : Task.t :=
  Task.mk (Task.id t) (Task.title t) (Task.description t) (Task.status t)
    (Task.priority t) (Task.estimate_hours t) (Task.dependency_task_id t)
    (Some target_sprint) (Task.project_id t) (Task.assigned_to_id t)
    (Task.created_at t).

(** The "Move to Sprint" button: [None] is the AttributeError of
    [task.sprint_id = ...] on a task that is not found; otherwise what
    [update] returned and the store. *)
Definition assign_task (io : engine) (task_to_assign target_sprint : Z) (db : Store)
    : option (bool * Store) :=
  match read_by_id MTask task_to_assign db with
  | Some (ETask task) =>
      let task := with_sprint target_sprint task in
      let '(ok, s) := update io (ETask task) (session_modify (ETask task) (clean db)) in
      Some (ok, committed s)
  | _ => None
  end.

(** ** Administration page: "Update Role" *)

(** The options of "New Role". *)
Definition role_options : list string :=
  ["Admin"; "Project Manager"; "Team Member"; "Viewer"].

Definition with_role (new_role : string) (u : User.t) : User.t :=
  User.mk (User.id u) (User.username u) (User.email u) (User.password_hash u)
    new_role (User.created_at u).

Inductive role_form :=
| NoRoleForm         (* no user is selected *)
| RoleFormRaises     (* KeyError, AttributeError or ValueError while the form is built *)
| RoleUpdated        (* st.success(...) *)
| RoleNotUpdated.    (* st.error("Failed to update user role.") *)

(** The "Update Role" button.  [user_map] is the dictionary
    [{u.username: u.id for u in users}] over all users, which is what
    [get_users_for_assignment] builds; the index of the current role in
    the options is computed before the form is shown. *)
Definition update_role (io : engine) (selected_username new_role : string) (db : Store)
    : role_form * Store :=
  let user_map := get_users_for_assignment db in
  if negb (nonempty selected_username) then (NoRoleForm, db)
  else
    match user_map !! selected_username with
    | None => (RoleFormRaises, db)
    | Some key =>
        match key ≫= (fun k => read_by_id MUser k db) with
        | Some (EUser user_to_update) =>
            if negb (existsb (String.eqb (User.role user_to_update)) role_options)
            then (RoleFormRaises, db)
            else
              let user := with_role new_role user_to_update in
              let '(ok, s) :=
                update io (EUser user) (session_modify (EUser user) (clean db)) in
              (if ok then RoleUpdated else RoleNotUpdated, committed s)
        | _ => (RoleFormRaises, db)
        end
    end.

(** ** Dashboard page *)

(** The objects of a query for [Project], [TimeLog] and [Risk]. *)
Definition the_projects (es : list entity) : list Project.t :=
  omap (fun e => match e with EProject p => Some p | _ => None end) es.
Definition the_time_logs (es : list entity) : list TimeLog.t :=
  omap (fun e => match e with ETimeLog l => Some l | _ => None end) es.
Definition the_risks (es : list entity) : list Risk.t :=
  omap (fun e => match e with ERisk r => Some r | _ => None end) es.

Record dashboard := mk_dashboard {
  total_projects : nat;
  projects_active : nat;
  my_tasks_open : nat;
  my_tasks_done : nat;
  total_hours_logged : Q;
  open_risks : nat;             (* "Total Open Risks" *)
  high_tasks : list Task.t;     (* its length is "Urgent/High Priority Tasks" *)
  urgent_lines : option (list (string * string))
    (* title and project name of the first five; [None] is the
       AttributeError of [t.project.name] on a task without project *)
}.

Definition dashboard_page (st : session_state) (db : Store) : dashboard :=
  let all_projects := the_projects (read_all MProject None db) in
  let all_tasks := the_tasks (read_all MTask None db) in
  let user_tasks :=
    List.filter (fun t => py_eqb (Task.assigned_to_id t) (st_user_id st)) all_tasks in
  let high_tasks :=
    List.filter (fun t => existsb (String.eqb (Task.priority t)) ["High"; "Urgent"] &&
                          negb (String.eqb (Task.status t) "Done")) all_tasks in
  mk_dashboard
    (length all_projects)
    (length (List.filter (fun p => String.eqb (Project.status p) "In Progress") all_projects))
    (length (List.filter (fun t => negb (String.eqb (Task.status t) "Done")) user_tasks))
    (length (List.filter (fun t => String.eqb (Task.status t) "Done") user_tasks))
    (sum_hours (List.filter (fun l => py_eqb (TimeLog.user_id l) (st_user_id st))
                  (the_time_logs (read_all MTimeLog None db))))
    (length (List.filter (fun r => String.eqb (Risk.status r) "Open")
               (the_risks (read_all MRisk None db))))
    high_tasks
    (mapM (fun t =>
             project ← Task.project_id t ≫= (fun k => get k (projects db));
             Some (Task.title t, Project.name project))
          (firstn 5 high_tasks)).

(** The board of the selected project: lines 606 and 660-663. *)
Definition kanban_board (selected_project_id : option Z) (db : Store)
    : gmap string (list Task.t) :=
  tasks_by_status (the_tasks (read_all MTask selected_project_id db)).

(** * Properties *)

(** ** Tables *)

Section TableFacts.
Context {A : Type} `{Row A}.

Lemma is_id_true k o : is_id k o = true <-> o = Some k.
Proof.
  destruct o as [j|]; simpl; [|split; discriminate].
  rewrite Z.eqb_eq. split; [intros ->; reflexivity | intros [= ->]; reflexivity].
Qed.

Lemma get_Some k (rows : list A) x :
  get k rows = Some x -> row_id x = Some k /\ In x rows.
Proof.
  unfold get. intros Hf. apply find_some in Hf as [Hin Hid].
  apply is_id_true in Hid. auto.
Qed.

Lemma get_has_id k (rows : list A) x : get k rows = Some x -> has_id k rows = true.
Proof.
  intros Hg. apply get_Some in Hg as [Hid Hin].
  unfold has_id. apply existsb_exists. exists x. split; [assumption|].
  apply is_id_true; assumption.
Qed.

Lemma has_id_false k (rows : list A) :
  has_id k rows = false <-> (forall r, In r rows -> row_id r <> Some k).
Proof.
  unfold has_id. split.
  - intros Hn r Hin Hid.
    assert (existsb (fun r => is_id k (row_id r)) rows = true) as Ht.
    { apply existsb_exists. exists r. split; [assumption|]. apply is_id_true; assumption. }
    congruence.
  - intros Hall. destruct (existsb _ rows) eqn:E; [|reflexivity].
    apply existsb_exists in E as (r & Hin & Hid). apply is_id_true in Hid.
    exfalso. exact (Hall r Hin Hid).
Qed.

Lemma next_id_above (rows : list A) r :
  In r rows -> default 0 (row_id r) < next_id rows.
Proof.
  unfold next_id. induction rows as [|y rows IH]; simpl; [contradiction|].
  intros [->|Hin]; [lia|]. specialize (IH Hin). lia.
Qed.

Lemma next_id_fresh (rows : list A) : has_id (next_id rows) rows = false.
Proof.
  apply has_id_false. intros r Hin Hid.
  pose proof (next_id_above rows r Hin) as Hlt. rewrite Hid in Hlt. simpl in Hlt. lia.
Qed.

Lemma insert_row_last k x (rows : list A) :
  (forall r, In r rows -> default 0 (row_id r) <= k) ->
  insert_row k x rows = rows ++ [x].
Proof.
  induction rows as [|y rows IH]; simpl; intros Hle; [reflexivity|].
  destruct (Z.ltb_spec k (default 0 (row_id y))) as [Hlt|_].
  - specialize (Hle y (or_introl eq_refl)). lia.
  - rewrite IH; [reflexivity|]. intros r Hin. apply Hle. right; assumption.
Qed.

(** A row that receives its key from SQLite goes to the end of its table. *)
Lemma insert_row_next x (rows : list A) :
  insert_row (next_id rows) x rows = rows ++ [x].
Proof.
  apply insert_row_last. intros r Hin. pose proof (next_id_above rows r Hin). lia.
Qed.

Lemma add_row_new x (rows : list A) :
  row_id x = None ->
  add_row x rows = inr (rows ++ [with_id (next_id rows) x]).
Proof. intros Hx. unfold add_row. rewrite Hx, insert_row_next. reflexivity. Qed.

Lemma has_id_replace_row k j x (rows : list A) :
  row_id x = Some k -> has_id j (replace_row k x rows) = has_id j rows.
Proof.
  intros Hx. unfold has_id, replace_row. induction rows as [|y rows IH]; simpl; [reflexivity|].
  rewrite IH. f_equal. destruct (is_id k (row_id y)) eqn:E; [|reflexivity].
  apply is_id_true in E. rewrite Hx, E. reflexivity.
Qed.

Lemma get_replace_row k x (rows : list A) :
  row_id x = Some k -> has_id k rows = true -> get k (replace_row k x rows) = Some x.
Proof.
  intros Hx. unfold has_id, get, replace_row.
  induction rows as [|y rows IH]; simpl; [discriminate|].
  destruct (is_id k (row_id y)) eqn:E; simpl.
  - intros _. rewrite Hx. simpl. rewrite Z.eqb_refl. reflexivity.
  - rewrite E. exact IH.
Qed.
End TableFacts.

(** ** create *)

Lemma unique_violation_insert u rows :
  unique_violation None u rows = true <->
  exists r, In r rows /\
    (User.username r = User.username u \/ User.email r = User.email u).
Proof.
  unfold unique_violation. rewrite existsb_exists.
  split; intros (r & Hin & Hr); exists r; (split; [assumption|]).
  - simpl in Hr. apply orb_prop in Hr as [Hr|Hr]; apply String.eqb_eq in Hr; auto.
  - simpl. apply orb_true_iff. destruct Hr as [Hr|Hr]; [left|right];
      apply String.eqb_eq; assumption.
Qed.

(** A new user whose name and address are free is appended, under the next
    key. *)
Lemma create_user_free db u :
  User.id u = None ->
  unique_violation None u (users db) = false ->
  create EngineOk (EUser u) (clean db) =
    (true, clean (set_users (fun _ => users db ++ [with_id (next_id (users db)) u]) db)).
Proof.
  intros Hid Hfree. unfold create, commit, session_add. simpl.
  rewrite Hfree. rewrite (add_row_new u (users db)) by exact Hid. reflexivity.
Qed.

(** A user whose name or address is taken: the flush raises IntegrityError,
    whatever else holds, and the session is rolled back. *)
Lemma commit_user_taken db u :
  unique_violation None u (users db) = true ->
  commit EngineOk (session_add (EUser u) (clean db)) = inl IntegrityError.
Proof. intros Htaken. unfold commit, session_add. simpl. rewrite Htaken. reflexivity. Qed.

Lemma create_user_taken io db u :
  unique_violation None u (users db) = true ->
  create io (EUser u) (clean db) = (false, clean db).
Proof.
  intros Htaken. unfold create. destruct io.
  - rewrite (commit_user_taken db u Htaken). reflexivity.
  - reflexivity.
Qed.

Lemma filter_username_absent name rows :
  (forall r, In r rows -> User.username r <> name) ->
  List.filter (fun u => String.eqb (User.username u) name) rows = [].
Proof.
  induction rows as [|y rows IH]; simpl; intros Hfree; [reflexivity|].
  destruct (String.eqb_spec (User.username y) name) as [Heq|_].
  - exfalso. exact (Hfree y (or_introl eq_refl) Heq).
  - apply IH. intros r Hin. apply Hfree. right; assumption.
Qed.

(** C1, as amended.  In a store where neither the username nor the e-mail
    address of the first User is taken, and when the engine works during
    the first call: the first [create] returns True; a second [create] of a
    User with the same username returns False (the flush raises
    IntegrityError, which [create] catches; an engine failure is caught as
    well), it leaves the session as the first call left it, and the store
    holds exactly one User with that username, the first one. *)
Theorem create_same_username_twice (db : Store) (u1 u2 : User.t) (io2 : engine) :
  User.id u1 = None ->
  unique_violation None u1 (users db) = false ->
  User.username u2 = User.username u1 ->
  let first := create EngineOk (EUser u1) (clean db) in
  let second := create io2 (EUser u2) (snd first) in
  fst first = true /\
  fst second = false /\
  commit EngineOk (session_add (EUser u2) (snd first)) = inl IntegrityError /\
  snd second = snd first /\
  List.filter (fun u => String.eqb (User.username u) (User.username u1))
    (users (committed (snd second))) = [with_id (next_id (users db)) u1].
Proof.
  intros Hid Hfree Hname first second. subst first second.
  rewrite (create_user_free db u1 Hid Hfree). cbn [fst snd].
  set (db1 := set_users _ db).
  assert (unique_violation None u2 (users db1) = true) as Htaken.
  { apply unique_violation_insert. exists (with_id (next_id (users db)) u1).
    split; [|left; symmetry; exact Hname].
    subst db1. simpl. apply in_or_app. right. left. reflexivity. }
  rewrite (create_user_taken io2 db1 u2 Htaken). cbn [fst snd committed].
  repeat split.
  - apply commit_user_taken. exact Htaken.
  - subst db1. simpl. rewrite List.filter_app.
    rewrite filter_username_absent.
    + simpl. rewrite String.eqb_refl. reflexivity.
    + intros r Hin Heq.
      assert (unique_violation None u1 (users db) = true) as Hcontra.
      { apply unique_violation_insert. exists r. auto. }
      congruence.
Qed.

Lemma create_same_username_twice_witness :
  let first := create EngineOk (EUser dana) (clean seeded) in
  let second := create EngineOk (EUser dana_again) (snd first) in
  fst first = true /\
  fst second = false /\
  commit EngineOk (session_add (EUser dana_again) (snd first)) = inl IntegrityError /\
  snd second = snd first /\
  List.filter (fun u => String.eqb (User.username u) (User.username dana))
    (users (committed (snd second))) = [with_id (next_id (users seeded)) dana].
Proof.
  exact (create_same_username_twice seeded dana dana_again EngineOk
           eq_refl eq_refl eq_refl).
Defined.

(** C1 as stated fails in the seeded store: "admin" is taken, so already the
    first of two creates of a User named "admin" returns False. *)
Lemma create_taken_username_first_fails :
  fst (create EngineOk (EUser admin_again) (clean seeded)) = false /\
  List.filter (fun u => String.eqb (User.username u) "admin") (users seeded) = [admin].
Proof. split; reflexivity. Qed.

(** ** delete *)

Section CascadeFacts.
Context {A : Type} `{Row A}.

Lemma refers_ids_of (rows : list A) (o : option Z) :
  refers (ids_of rows) o = true <->
  exists k r, o = Some k /\ In r rows /\ row_id r = Some k.
Proof.
  unfold refers, ids_of. destruct o as [j|].
  - rewrite existsb_exists. split.
    + intros (k & Hin & Heq). apply Z.eqb_eq in Heq. subst k.
      apply list_elem_of_In, list_elem_of_omap in Hin as (r & Hr & Hid).
      exists j, r. rewrite <- list_elem_of_In. auto.
    + intros (k & r & [= ->] & Hin & Hid). exists k. split; [|apply Z.eqb_refl].
      apply list_elem_of_In, list_elem_of_omap. exists r.
      rewrite list_elem_of_In. auto.
  - split; [discriminate|]. intros (k & r & Hk & _). discriminate.
Qed.

Lemma primary_key_keyed (rows : list A) r :
  primary_key rows = true -> In r rows -> exists k, row_id r = Some k.
Proof.
  induction rows as [|y rows IH]; simpl; [contradiction|].
  destruct (row_id y) as [k|] eqn:Ey; [|discriminate].
  intros Hpk [->|Hin]; [eauto|].
  apply andb_prop in Hpk as [_ Hpk]. auto.
Qed.

Lemma primary_key_unique (rows : list A) a b :
  primary_key rows = true -> In a rows -> In b rows ->
  row_id a = row_id b -> a = b.
Proof.
  induction rows as [|y rows IH]; simpl; [contradiction|].
  destruct (row_id y) as [k|] eqn:Ey; [|discriminate].
  intros Hpk Ha Hb Heq. apply andb_prop in Hpk as [Hfresh Hpk].
  apply negb_true_iff in Hfresh.
  assert (forall r, In r rows -> row_id r <> Some k) as Hno.
  { apply has_id_false. exact Hfresh. }
  destruct Ha as [->|Ha], Hb as [->|Hb]; [reflexivity| | |auto].
  - exfalso. apply (Hno b Hb). congruence.
  - exfalso. apply (Hno a Ha). congruence.
Qed.

(** Deleting the members of a collection by key deletes exactly the rows
    the collection was selected by. *)
Lemma filter_by_collection (P : A -> bool) (rows : list A) :
  primary_key rows = true ->
  List.filter (fun r => negb (refers (ids_of (List.filter P rows)) (row_id r))) rows =
  List.filter (fun r => negb (P r)) rows.
Proof.
  intros Hpk. apply List.filter_ext_in. intros r Hin. f_equal.
  destruct (P r) eqn:EP.
  - apply refers_ids_of. destruct (primary_key_keyed rows r Hpk Hin) as [k Hk].
    exists k, r. rewrite List.filter_In. auto.
  - destruct (refers _ (row_id r)) eqn:ER; [|reflexivity].
    apply refers_ids_of in ER as (k & r' & Hk & Hin' & Hk').
    apply List.filter_In in Hin' as [Hin' HP'].
    assert (r' = r) as -> by (apply (primary_key_unique rows); congruence).
    congruence.
Qed.

End CascadeFacts.

Lemma delete_project_eval io db p :
  delete io (EProject p) (clean db) =
  match io, Project.id p with
  | EngineOk, Some k => (true, clean (delete_project k db))
  | _, _ => (false, clean db)
  end.
Proof.
  unfold delete, session_delete, commit. simpl.
  destruct (Project.id p) as [k|] eqn:Ek; simpl.
  - destruct io; [|reflexivity]. unfold flush_delete. simpl. rewrite Ek. reflexivity.
  - destruct io; reflexivity.
Qed.

Lemma known_key {A : Type} `{Row A} (x : A) (rows : list A) k :
  known x rows = Some k -> row_id x = Some k.
Proof.
  unfold known. destruct (row_id x) as [j|]; [|discriminate].
  destruct (has_id j rows); [|discriminate]. intros [= <-]. reflexivity.
Qed.

Lemma get_remove_row {A : Type} `{Row A} k (rows : list A) : get k (remove_row k rows) = None.
Proof.
  unfold get, remove_row. induction rows as [|y rows IH]; simpl; [reflexivity|].
  destruct (is_id k (row_id y)) eqn:E; simpl; [exact IH|]. rewrite E. exact IH.
Qed.

Lemma filter_nothing {A : Type} (P : A -> bool) (l : list A) :
  (forall x, In x l -> P x = false) -> List.filter P l = [].
Proof.
  induction l as [|y l IH]; simpl; intros Hall; [reflexivity|].
  rewrite (Hall y (or_introl eq_refl)). apply IH. intros x Hin. apply Hall. right; assumption.
Qed.

Lemma tasks_delete_project k db :
  primary_key (tasks db) = true ->
  tasks (delete_project k db) =
    map (detach_task [] (ids_of (sprints_of_project k db)) [])
      (map (detach_task (ids_of (tasks_of_project k db)) [] [])
         (List.filter (fun t => negb (is_id k (Task.project_id t))) (tasks db))).
Proof.
  intros Hpk.
  pose proof (filter_by_collection (fun t => is_id k (Task.project_id t)) (tasks db) Hpk) as E.
  unfold delete_project, tasks_of_project. simpl in *. rewrite E. reflexivity.
Qed.



Lemma time_logs_delete_project k db :
  time_logs (delete_project k db) =
    List.filter (fun l => negb (refers (ids_of (tasks_of_project k db)) (TimeLog.task_id l)))
      (time_logs db).
Proof. reflexivity. Qed.




(** ** Move & Log *)

Lemma replace_row_again {A : Type} `{Row A} k x (rows : list A) :
  row_id x = Some k -> replace_row k x (replace_row k x rows) = replace_row k x rows.
Proof.
  intros Hx. unfold replace_row. rewrite map_map. apply map_ext. intros r.
  destruct (is_id k (row_id r)) eqn:E; [|rewrite E; reflexivity].
  rewrite Hx. simpl. rewrite Z.eqb_refl. reflexivity.
Qed.

Lemma move_and_log_logged io_task now user_id k new_status hours_to_log task db :
  get k (tasks db) = Some task ->
  Qle_bool hours_to_log 0 = false ->
  move_and_log EngineOk io_task now user_id k new_status hours_to_log db =
    Some (mk_moved (Some true)
            (match io_task with EngineOk => true | EngineFails => false end)
            (moved_store now user_id k new_status hours_to_log task db)).
Proof.
  intros Hget Hpos.
  destruct (get_Some k (tasks db) task Hget) as [Hid _]. simpl in Hid.
  pose proof (get_has_id k (tasks db) task Hget) as Hhas.
  set (task' := with_status new_status task).
  assert (row_id task' = Some k) as Hid' by exact Hid.
  unfold move_and_log. rewrite Hget, Hpos. cbn [negb].
  unfold create, commit, session_add, session_modify, clean. cbn [committed work app flush flush_one].
  unfold flush_update at 1. fold task'.
  unfold save_row. rewrite Hid', Hhas. cbn [bind_raises].
  unfold flush_insert, set_tasks, set_time_logs, moved_store.
  cbn [time_logs tasks users projects risks sprints].
  rewrite add_row_new by reflexivity. cbn [bind_raises].
  unfold task_object. cbn [work rev List.find committed tasks].
  rewrite (get_replace_row k task' (tasks db) Hid' Hhas).
  unfold update, session_merge, persisted, known. cbn [committed tasks].
  rewrite Hid', (has_id_replace_row k k task' (tasks db) Hid'), Hhas.
  unfold commit, session_modify. cbn [work committed app].
  destruct io_task; [|rewrite Hid; reflexivity].
  cbn [flush flush_one]. unfold flush_update, save_row, set_tasks.
  cbn [time_logs tasks users projects risks sprints].
  rewrite Hid', (has_id_replace_row k k task' (tasks db) Hid'), Hhas.
  cbn [bind_raises]. rewrite (replace_row_again k task' (tasks db) Hid').
  rewrite Hid. reflexivity.
Qed.

Lemma move_and_log_not_logged io_task now user_id k new_status hours_to_log db r :
  move_and_log EngineFails io_task now user_id k new_status hours_to_log db = Some r ->
  logged r <> Some true.
Proof.
  unfold move_and_log. destruct (get k (tasks db)) as [task|]; [|discriminate].
  destruct (negb (Qle_bool hours_to_log 0)).
  - unfold create, commit. cbn [rollback]. 
    destruct (task_object k _) as [task'|]; [|discriminate].
    destruct (update io_task (ETask task') _) as [ok s3].
    intros [= <-]. simpl. discriminate.
  - destruct (task_object k _) as [task'|]; [|discriminate].
    destruct (update io_task (ETask task') _) as [ok s3].
    intros [= <-]. simpl. discriminate.
Qed.

(** When the engine fails during the insert, the rollback also drops the
    pending status: the Task object shows its row again, and the update
    that follows writes that row back and returns True.  Nothing has moved
    and nothing is logged. *)
Lemma move_and_log_insert_fails now user_id k new_status hours_to_log task db :
  get k (tasks db) = Some task ->
  Qle_bool hours_to_log 0 = false ->
  exists r,
    move_and_log EngineFails EngineOk now user_id k new_status hours_to_log db = Some r /\
    logged r = Some false /\ updated r = true /\
    time_logs (after r) = time_logs db /\
    get k (tasks (after r)) = Some task.
Proof.
  intros Hget Hpos.
  destruct (get_Some k (tasks db) task Hget) as [Hid _].
  pose proof (get_has_id k (tasks db) task Hget) as Hhas.
  unfold move_and_log. rewrite Hget, Hpos. cbn [negb].
  unfold create, commit, rollback, session_modify, clean. cbn [committed].
  unfold task_object. cbn [work rev List.find committed]. rewrite Hget.
  unfold update, session_merge, persisted, known. cbn [committed].
  rewrite Hid, Hhas. unfold commit, session_modify. cbn [work committed app flush flush_one].
  unfold flush_update, save_row. rewrite Hid, Hhas. cbn [bind_raises].
  eexists. split; [reflexivity|]. cbn [logged updated after clean committed].
  repeat split. unfold set_tasks. cbn [tasks].
  apply (get_replace_row k task (tasks db) Hid Hhas).
Qed.

Lemma total_logged_hours_moved now user_id k new_status hours_to_log task db :
  get_total_logged_hours k (moved_store now user_id k new_status hours_to_log task db) =
  (get_total_logged_hours k db + hours_to_log)%Q.
Proof.
  unfold get_total_logged_hours, moved_store, sum_hours. simpl.
  rewrite List.filter_app. simpl. rewrite Z.eqb_refl.
  rewrite map_app, fold_left_app. reflexivity.
Qed.

Lemma status_moved now user_id k new_status hours_to_log task db :
  get k (tasks db) = Some task ->
  get k (tasks (moved_store now user_id k new_status hours_to_log task db)) =
    Some (with_status new_status task).
Proof.
  intros Hget. destruct (get_Some k (tasks db) task Hget) as [Hid _].
  unfold moved_store. simpl.
  apply (get_replace_row k (with_status new_status task) (tasks db)).
  - exact Hid.
  - exact (get_has_id k (tasks db) task Hget).
Qed.

(** C3.  For a Task of the store with H hours logged: when the engine works
    the move to "Done" with 2.5 hours succeeds, both writes returning True;
    and after every such move whose two writes returned True the hours
    logged against the Task are H + 2.5 and its status is "Done". *)
Theorem move_to_done_logs_hours (now : datetime) (user_id : option Z) (k : Z)
    (task : Task.t) (db : Store) :
  get k (tasks db) = Some task ->
  (exists r, move_and_log EngineOk EngineOk now user_id k "Done" (5 # 2) db = Some r /\
             logged r = Some true /\ updated r = true) /\
  (forall io_log io_task r,
     move_and_log io_log io_task now user_id k "Done" (5 # 2) db = Some r ->
     logged r = Some true -> updated r = true ->
     get_total_logged_hours k (after r) = (get_total_logged_hours k db + (5 # 2))%Q /\
     Task.status <$> get k (tasks (after r)) = Some "Done").
Proof.
  intros Hget. split.
  - eexists. split; [apply (move_and_log_logged EngineOk); [exact Hget|reflexivity]|].
    split; reflexivity.
  - intros io_log io_task r Hr Hlogged Hupdated.
    destruct io_log.
    + rewrite (move_and_log_logged io_task now user_id k "Done" (5 # 2) task db Hget eq_refl) in Hr.
      injection Hr as <-. cbn [after].
      split; [apply total_logged_hours_moved|].
      rewrite (status_moved now user_id k "Done" (5 # 2) task db Hget). reflexivity.
    + exfalso. exact (move_and_log_not_logged _ _ _ _ _ _ _ _ Hr Hlogged).
Qed.

Lemma move_to_done_logs_hours_witness :
  (exists r, move_and_log EngineOk EngineOk boot (Some 3) 1 "Done" (5 # 2) seeded = Some r /\
             logged r = Some true /\ updated r = true) /\
  (forall io_log io_task r,
     move_and_log io_log io_task boot (Some 3) 1 "Done" (5 # 2) seeded = Some r ->
     logged r = Some true -> updated r = true ->
     get_total_logged_hours 1 (after r) = (get_total_logged_hours 1 seeded + (5 # 2))%Q /\
     Task.status <$> get 1 (tasks (after r)) = Some "Done").
Proof. exact (move_to_done_logs_hours boot (Some 3) 1 task1 seeded eq_refl). Defined.

Lemma move_and_log_both_fail now user_id k new_status hours_to_log task db :
  get k (tasks db) = Some task ->
  Qle_bool hours_to_log 0 = false ->
  move_and_log EngineFails EngineFails now user_id k new_status hours_to_log db =
    Some (mk_moved (Some false) false db).
Proof.
  intros Hget Hpos.
  destruct (get_Some k (tasks db) task Hget) as [Hid _].
  pose proof (get_has_id k (tasks db) task Hget) as Hhas.
  unfold move_and_log. rewrite Hget, Hpos. cbn [negb].
  unfold create, commit, rollback, session_modify, clean. cbn [committed].
  unfold task_object. cbn [work rev List.find committed]. rewrite Hget.
  unfold update, commit, rollback, clean. cbn [committed]. reflexivity.
Qed.

Lemma move_and_log_log_fails now user_id k new_status hours_to_log task db :
  get k (tasks db) = Some task ->
  Qle_bool hours_to_log 0 = false ->
  move_and_log EngineFails EngineOk now user_id k new_status hours_to_log db =
    Some (mk_moved (Some false) true (set_tasks (replace_row k task) db)).
Proof.
  intros Hget Hpos.
  destruct (get_Some k (tasks db) task Hget) as [Hid _].
  pose proof (get_has_id k (tasks db) task Hget) as Hhas.
  unfold move_and_log. rewrite Hget, Hpos. cbn [negb].
  unfold create, commit, rollback, session_modify, clean. cbn [committed].
  unfold task_object. cbn [work rev List.find committed]. rewrite Hget.
  unfold update, session_merge, persisted, known. cbn [committed].
  rewrite Hid, Hhas. unfold commit, session_modify. cbn [work committed app flush flush_one].
  unfold flush_update, save_row. rewrite Hid, Hhas. cbn [bind_raises]. reflexivity.
Qed.

(** C4, as amended.  With hours to log, the TimeLog and the new status of
    the card are written by one commit, that of [create]: the status is
    assigned before it and is flushed with the INSERT.  When the engine
    works during this commit the TimeLog is appended and the task has the
    new status, whatever the update that follows returns; when the engine
    fails during it [create] returns False and neither is written.  So the
    TimeLog is not appended unconditionally, and it is never kept without
    the status change. *)
Theorem move_and_log_writes_together (io_log io_task : engine) (now : datetime)
    (user_id : option Z) (k : Z) (new_status : string) (hours_to_log : Q)
    (task : Task.t) (db : Store) :
  get k (tasks db) = Some task ->
  (0 < hours_to_log)%Q ->
  exists r,
    move_and_log io_log io_task now user_id k new_status hours_to_log db = Some r /\
    match io_log with
    | EngineOk =>
        logged r = Some true /\
        time_logs (after r) =
          time_logs db ++
          [TimeLog.mk (Some (next_id (time_logs db))) hours_to_log now (Some k) user_id] /\
        get k (tasks (after r)) = Some (with_status new_status task)
    | EngineFails =>
        logged r = Some false /\
        time_logs (after r) = time_logs db /\
        get k (tasks (after r)) = Some task
    end.
Proof.
  intros Hget Hpos.
  assert (Qle_bool hours_to_log 0 = false) as Hb.
  { destruct (Qle_bool hours_to_log 0) eqn:E; [|reflexivity].
    apply Qle_bool_iff in E. exfalso. exact (Qlt_not_le _ _ Hpos E). }
  destruct (get_Some k (tasks db) task Hget) as [Hid _].
  pose proof (get_has_id k (tasks db) task Hget) as Hhas.
  destruct io_log.
  - eexists. split; [exact (move_and_log_logged io_task now user_id k new_status
                              hours_to_log task db Hget Hb)|].
    cbn [logged after]. split; [reflexivity|]. split; [reflexivity|].
    exact (status_moved now user_id k new_status hours_to_log task db Hget).
  - destruct io_task.
    + eexists. split; [exact (move_and_log_log_fails now user_id k new_status
                                hours_to_log task db Hget Hb)|].
      cbn [logged after]. split; [reflexivity|]. split; [reflexivity|].
      cbn [tasks set_tasks]. exact (get_replace_row k task (tasks db) Hid Hhas).
    + eexists. split; [exact (move_and_log_both_fail now user_id k new_status
                                hours_to_log task db Hget Hb)|].
      cbn [logged after]. split; [reflexivity|]. split; [reflexivity|exact Hget].
Qed.

Lemma move_and_log_writes_together_witness :
  exists r,
    move_and_log EngineOk EngineOk boot (Some 3) 1 "In Review" (5 # 2) seeded = Some r /\
    logged r = Some true /\
    time_logs (after r) =
      time_logs seeded ++
      [TimeLog.mk (Some (next_id (time_logs seeded))) (5 # 2) boot (Some 1) (Some 3)] /\
    get 1 (tasks (after r)) = Some (with_status "In Review" task1).
Proof.
  exact (move_and_log_writes_together EngineOk EngineOk boot (Some 3) 1 "In Review" (5 # 2)
           task1 seeded eq_refl eq_refl).
Defined.

(** C4 as stated fails on the seeded store: with 2.5 hours to log on task 1
    and the engine failing during [create], no TimeLog is appended (the
    store is what it was, although the page reports success); and in the
    run in which the TimeLog is appended the status is stored with it. *)
Lemma time_log_is_not_unconditional :
  (0 < 5 # 2)%Q /\
  move_and_log EngineFails EngineOk boot (Some 3) 1 "In Review" (5 # 2) seeded =
    Some (mk_moved (Some false) true seeded) /\
  move_and_log EngineOk EngineOk boot (Some 3) 1 "In Review" (5 # 2) seeded =
    Some (mk_moved (Some true) true
            (moved_store boot (Some 3) 1 "In Review" (5 # 2) task1 seeded)) /\
  Task.status <$> get 1 (tasks (moved_store boot (Some 3) 1 "In Review" (5 # 2) task1 seeded)) =
    Some "In Review".
Proof. split; [reflexivity|]. split; [|split]; vm_compute; reflexivity. Qed.

(** ** Work breakdown structure *)

Lemma truthy_Some o : truthy o = true <-> exists k, o = Some k /\ k <> 0.
Proof.
  destruct o as [k|]; simpl.
  - rewrite negb_true_iff, Z.eqb_neq. split; [eauto|]. intros (j & [= ->] & Hj). exact Hj.
  - split; [discriminate|]. intros (j & Hj & _). discriminate.
Qed.

Lemma in_dependent_ids k project_tasks :
  k ∈ dependent_ids project_tasks <->
  k <> 0 /\ exists t, In t project_tasks /\ Task.dependency_task_id t = Some k.
Proof.
  unfold dependent_ids. rewrite elem_of_list_to_set, list_elem_of_omap. split.
  - intros (t & Hin & Ht). apply list_elem_of_In in Hin.
    destruct (truthy (Task.dependency_task_id t)) eqn:E; [|discriminate].
    apply truthy_Some in E as (j & Hj & Hnz).
    assert (j = k) as -> by congruence. eauto.
  - intros (Hnz & t & Hin & Ht). exists t. rewrite list_elem_of_In. split; [assumption|].
    rewrite Ht. simpl. destruct (Z.eqb_spec k 0); [contradiction|reflexivity].
Qed.

(** The rule that selects the top-level tasks. *)
Lemma top_level_tasks_spec project_tasks t :
  In t (top_level_tasks project_tasks) <->
  In t project_tasks /\
  in_ids (Task.id t) (dependent_ids project_tasks) = false /\
  truthy (Task.dependency_task_id t) = false.
Proof.
  unfold top_level_tasks. rewrite List.filter_In, andb_true_iff, !negb_true_iff. tauto.
Qed.

(** No task of the list points at a top-level task whose key is not 0. *)
Lemma top_level_no_dependents project_tasks t :
  truthy (Task.id t) = true ->
  In t (top_level_tasks project_tasks) ->
  dependents project_tasks t = [].
Proof.
  intros Hkey Htop. apply truthy_Some in Hkey as (k & Hk & Hnz).
  apply top_level_tasks_spec in Htop as (_ & Hfree & _).
  rewrite Hk in Hfree. simpl in Hfree. apply bool_decide_eq_false in Hfree.
  unfold dependents. apply filter_nothing. intros t' Hin.
  destruct (py_eqb (Task.dependency_task_id t') (Task.id t)) eqn:E; [|reflexivity].
  exfalso. apply Hfree. apply in_dependent_ids. split; [exact Hnz|].
  exists t'. split; [exact Hin|]. rewrite Hk in E.
  destruct (Task.dependency_task_id t') as [j|]; simpl in E; [|discriminate].
  apply Z.eqb_eq in E. congruence.
Qed.

Lemma render_top_level fuel project_tasks t level :
  truthy (Task.id t) = true ->
  In t (top_level_tasks project_tasks) ->
  render_wbs_node (S fuel) project_tasks t level = Some (Node level t []).
Proof.
  intros Hkey Htop. simpl.
  rewrite (top_level_no_dependents project_tasks t Hkey Htop). reflexivity.
Qed.

Lemma mapM_render_top_level fuel project_tasks tops :
  (forall t, In t tops -> truthy (Task.id t) = true /\ In t (top_level_tasks project_tasks)) ->
  mapM (fun t => render_wbs_node (S fuel) project_tasks t 0) tops =
    Some (map (fun t => Node 0 t []) tops).
Proof.
  induction tops as [|t tops IH]; intros Hall; [reflexivity|].
  destruct (Hall t (or_introl eq_refl)) as [Hkey Htop].
  change (mapM ?f (t :: tops)) with (x ← f t; k ← mapM f tops; mret (x :: k)).
  cbv beta.
  rewrite (render_top_level fuel project_tasks t 0 Hkey Htop).
  rewrite IH by (intros t' Hin; apply Hall; right; exact Hin). reflexivity.
Qed.

Lemma wbs_flat fuel project_tasks :
  forallb (fun t => truthy (Task.id t)) project_tasks = true ->
  wbs (S fuel) project_tasks = Some (flat_view project_tasks).
Proof.
  intros Hkeys. unfold wbs, flat_view.
  destruct project_tasks as [|t0 rest] eqn:Etasks; [reflexivity|]. rewrite <- Etasks in *.
  assert (mapM (fun t => render_wbs_node (S fuel) project_tasks t 0)
            (top_level_tasks project_tasks) =
          Some (map (fun t => Node 0 t []) (top_level_tasks project_tasks))) as Hm.
  { apply mapM_render_top_level. intros t Htop. split; [|exact Htop].
    apply top_level_tasks_spec in Htop as (Hin & _).
    rewrite forallb_forall in Hkeys. exact (Hkeys t Hin). }
  destruct (top_level_tasks project_tasks) as [|t1 tops]; [reflexivity|].
  rewrite Hm. reflexivity.
Qed.

Lemma wbs_no_top_level fuel project_tasks :
  project_tasks <> [] -> top_level_tasks project_tasks = [] ->
  wbs fuel project_tasks = Some WbsNoTopLevel.
Proof.
  intros Hne Htop. unfold wbs. destruct project_tasks; [contradiction|].
  rewrite Htop. reflexivity.
Qed.

(** C5 at the chain A, B, C: no task passes the top-level rule (A and B are
    pointed at, B and C point at a task), so nothing is rendered and the
    page shows its warning instead of the forest A > B > C. *)
Theorem wbs_chain_has_no_root (fuel : nat) :
  top_level_tasks chain_tasks = [] /\
  wbs fuel chain_tasks = Some WbsNoTopLevel /\
  wbs fuel chain_tasks <> Some chain_forest.
Proof.
  assert (top_level_tasks chain_tasks = []) as Htop by (vm_compute; reflexivity).
  assert (wbs fuel chain_tasks = Some WbsNoTopLevel) as Hw
    by (apply wbs_no_top_level; [discriminate|exact Htop]).
  split; [exact Htop|]. split; [exact Hw|]. rewrite Hw. discriminate.
Qed.

(** The demo project itself: task1 depends on task2, so neither is a
    top-level task and its dependency view shows the warning. *)
Lemma wbs_of_seeded_project fuel :
  tasks_of_project 1 seeded = [task1; task2] /\
  wbs fuel (tasks_of_project 1 seeded) = Some WbsNoTopLevel.
Proof.
  split; [reflexivity|].
  apply wbs_no_top_level; [discriminate|vm_compute; reflexivity].
Qed.

Lemma cycle_tasks_cyclic : cyclic cycle_tasks.
Proof.
  exists task_a_on_c.
  assert (forall a b, In a cycle_tasks -> In b cycle_tasks ->
            truthy (Task.dependency_task_id a) = true ->
            Task.dependency_task_id a = Task.id b -> depends_on cycle_tasks a b) as Hstep
    by (intros a b Ha Hb Ht He; repeat split; assumption).
  apply tc_l with task_c; [apply Hstep; simpl; auto|].
  apply tc_l with task_b; [apply Hstep; simpl; auto|].
  apply tc_once. apply Hstep; simpl; auto.
Qed.

(** C6, as amended.  For every task set whose keys are not 0 and whose
    dependency references form a cycle, the builder terminates and does
    not recurse indefinitely: one level of the call stack is enough for it
    to return its view, and a deeper stack gives the same view. *)
Theorem wbs_stops_at_depth_one (project_tasks : list Task.t) :
  forallb (fun t => truthy (Task.id t)) project_tasks = true ->
  cyclic project_tasks ->
  exists view, forall fuel, wbs (S fuel) project_tasks = Some view.
Proof.
  intros Hkeys _. exists (flat_view project_tasks).
  intros fuel. exact (wbs_flat fuel project_tasks Hkeys).
Qed.

Lemma wbs_stops_at_depth_one_witness :
  exists view, forall fuel, wbs (S fuel) cycle_tasks = Some view.
Proof. exact (wbs_stops_at_depth_one cycle_tasks eq_refl cycle_tasks_cyclic). Defined.

(** Why the keys must not be 0: the self-referring task with key 0 is a
    top-level task and its own dependent, and no depth of the call stack is
    enough to render it. *)
Lemma zero_key_never_rendered fuel :
  top_level_tasks [zero_key_task] = [zero_key_task] /\
  wbs fuel [zero_key_task] = None.
Proof.
  split; [vm_compute; reflexivity|].
  assert (forall n level, render_wbs_node n [zero_key_task] zero_key_task level = None) as Hloop.
  { induction n as [|n IH]; intros level; [reflexivity|].
    change (render_wbs_node (S n) [zero_key_task] zero_key_task level)
      with (match mapM (fun t => render_wbs_node n [zero_key_task] t (S level))
                    (dependents [zero_key_task] zero_key_task) with
            | Some children => Some (Node level zero_key_task children)
            | None => None
            end).
    change (dependents [zero_key_task] zero_key_task) with [zero_key_task].
    change (mapM ?f [zero_key_task]) with (x ← f zero_key_task; k ← mapM f []; mret (x :: k)).
    cbv beta. rewrite IH. reflexivity. }
  unfold wbs.
  replace (top_level_tasks [zero_key_task]) with [zero_key_task] by (vm_compute; reflexivity).
  change (mapM ?f [zero_key_task]) with (x ← f zero_key_task; k ← mapM f []; mret (x :: k)).
  cbv beta. rewrite Hloop. reflexivity.
Qed.

Lemma chain_tasks_acyclic : ~ cyclic chain_tasks.
Proof.
  assert (forall a b, tc (depends_on chain_tasks) a b ->
            default 0 (Task.id b) < default 0 (Task.id a)) as Hdown.
  { intros a b Htc. induction Htc as [a b Hab|a z b Haz _ IH].
    - destruct Hab as (Ha & Hb & _ & He).
      simpl in Ha, Hb.
      destruct Ha as [<-|[<-|[<-|[]]]], Hb as [<-|[<-|[<-|[]]]];
        simpl in He; try discriminate; simpl; lia.
    - assert (default 0 (Task.id z) < default 0 (Task.id a)); [|lia].
      destruct Haz as (Ha & Hb & _ & He).
      simpl in Ha, Hb.
      destruct Ha as [<-|[<-|[<-|[]]]], Hb as [<-|[<-|[<-|[]]]];
        simpl in He; try discriminate; simpl; lia. }
  intros [t Ht]. specialize (Hdown t t Ht). lia.
Qed.

(** C6 as stated fails on the cycle A -> C -> B -> A: the builder shows the
    warning about top-level tasks, exactly as it does for the acyclic
    chain, so nothing it shows tells a cyclic input from an acyclic one. *)
Lemma wbs_cycle_not_reported :
  cyclic cycle_tasks /\ ~ cyclic chain_tasks /\
  (forall fuel, wbs fuel cycle_tasks = Some WbsNoTopLevel /\
                wbs fuel cycle_tasks = wbs fuel chain_tasks).
Proof.
  split; [exact cycle_tasks_cyclic|]. split; [exact chain_tasks_acyclic|].
  intros fuel.
  assert (wbs fuel cycle_tasks = Some WbsNoTopLevel) as Hc
    by (apply wbs_no_top_level; [discriminate|vm_compute; reflexivity]).
  assert (wbs fuel chain_tasks = Some WbsNoTopLevel) as Hl
    by (apply wbs_no_top_level; [discriminate|vm_compute; reflexivity]).
  split; congruence.
Qed.

(** ** authenticate *)

(** C7.  A known username with a password whose hash differs from the
    stored one, and a username no User has: [authenticate] answers both
    with False, leaves [st.session_state] as it was and shows no toast, and
    the login form shows the same error for both. *)
Theorem authenticate_rejections_alike (hash_password : string -> string)
    (db : Store) (st : session_state) (username password : string) (user : User.t)
    (unknown password' : string) :
  get_user_by_username username db = Some user ->
  String.eqb (User.password_hash user) (hash_password password) = false ->
  get_user_by_username unknown db = None ->
  authenticate hash_password username password db st = (false, st, []) /\
  authenticate hash_password unknown password' db st = (false, st, []) /\
  login_submit hash_password username password db st =
    login_submit hash_password unknown password' db st.
Proof.
  intros Huser Hwrong Hnone.
  assert (authenticate hash_password username password db st = (false, st, [])) as H1
    by (unfold authenticate; rewrite Huser, Hwrong; reflexivity).
  assert (authenticate hash_password unknown password' db st = (false, st, [])) as H2
    by (unfold authenticate; rewrite Hnone; reflexivity).
  split; [exact H1|]. split; [exact H2|].
  unfold login_submit. rewrite H1, H2. reflexivity.
Qed.

Lemma authenticate_rejections_alike_witness :
  authenticate demo_hash "admin" "letmein" seeded
    (mk_state false None None None "Login") =
    (false, mk_state false None None None "Login", []) /\
  authenticate demo_hash "nobody" "adminpass" seeded
    (mk_state false None None None "Login") =
    (false, mk_state false None None None "Login", []) /\
  login_submit demo_hash "admin" "letmein" seeded (mk_state false None None None "Login") =
    login_submit demo_hash "nobody" "adminpass" seeded (mk_state false None None None "Login").
Proof.
  exact (authenticate_rejections_alike demo_hash seeded
           (mk_state false None None None "Login") "admin" "letmein" admin
           "nobody" "adminpass" eq_refl eq_refl eq_refl).
Defined.

(** ** read_all *)

(** C10.  [read_all] returns every row of the table when the model is User
    or TimeLog (classes without a [project_id]) and when the project id is
    missing, None or 0; when the model has a [project_id] and the id is an
    integer other than 0 it returns the rows of that project, and only
    them. *)
Theorem read_all_project_filter (m : model) (project_id : option Z) (db : Store) :
  (m = MUser \/ m = MTimeLog \/ project_id = None \/ project_id = Some 0 ->
   read_all m project_id db = table m db) /\
  (forall k, project_id = Some k -> k <> 0 -> has_project_id m = true ->
     read_all m project_id db =
       List.filter (fun e => is_id k (project_id_of e)) (table m db) /\
     (forall e, In e (read_all m project_id db) <->
                In e (table m db) /\ project_id_of e = Some k)).
Proof.
  split.
  - intros [-> | [-> | [-> | ->]]]; unfold read_all; simpl;
      try reflexivity; rewrite ?andb_false_r; reflexivity.
  - intros k -> Hnz Hattr.
    assert (read_all m (Some k) db =
            List.filter (fun e => is_id k (project_id_of e)) (table m db)) as Heq.
    { unfold read_all. simpl. destruct (Z.eqb_spec k 0); [contradiction|].
      rewrite Hattr. reflexivity. }
    split; [exact Heq|]. intros e. rewrite Heq, List.filter_In, is_id_true. tauto.
Qed.

(** ** Timeline dates *)

(** C9 as stated fails for an estimate of zero hours: the task created on
    2024-01-01 gets 2024-01-02 as its end, not 2024-01-01.  It also fails
    for an estimate that leads past the calendar: no end is assigned, the
    projection raises. *)
Lemma timeline_of_zero_estimate :
  timeline_dates unestimated_task = inr (738886, 738887) /\
  naive_timeline unestimated_task = (738886, 738886) /\
  timeline_dates overestimated_task = inl OverflowError.
Proof. split; [|split]; vm_compute; reflexivity. Qed.

Lemma Qle_bool_false_lt (q : Q) : Qle_bool q 0 = false <-> (0 < q)%Q.
Proof.
  split.
  - intros Hb. apply Qnot_le_lt. intros Hle. apply Qle_bool_iff in Hle. congruence.
  - intros Hlt. destruct (Qle_bool q 0) eqn:E; [|reflexivity].
    apply Qle_bool_iff in E. exfalso. exact (Qlt_not_le _ _ Hlt E).
Qed.

Lemma round_half_even_nonneg (x : Q) : (0 <= x)%Q -> 0 <= round_half_even x.
Proof.
  intros Hx. unfold round_half_even.
  assert (0 <= Qfloor x) as Hf by (apply (Qfloor_resp_le 0 x Hx)).
  destruct (Qcompare _ _); [destruct (Z.even _)| |]; lia.
Qed.

Lemma timedelta_hours_days_nonneg (h : Q) :
  (0 < h)%Q -> 0 <= timedelta_hours h / microseconds_per_day.
Proof.
  intros Hh. apply Z.div_pos; [|reflexivity]. apply round_half_even_nonneg.
  apply Qmult_le_0_compat; [apply Qlt_le_weak; exact Hh|discriminate].
Qed.

(** The days line 331 adds to the start. *)
Lemma timeline_dates_eval (task : Task.t) (days : Z) :
  0 < dt_ordinal (Task.created_at task) <= MAXORDINAL ->
  0 <= days ->
  (if negb (Qle_bool (Task.estimate_hours task) 0)
   then timedelta_hours (Task.estimate_hours task)
   else timedelta_days 1) / microseconds_per_day = days ->
  timeline_dates task =
    if dt_ordinal (Task.created_at task) + days <=? MAXORDINAL
    then inr (dt_ordinal (Task.created_at task), dt_ordinal (Task.created_at task) + days)
    else inl OverflowError.
Proof.
  intros Hstart Hdays Hdelta. unfold timeline_dates.
  set (start := dt_ordinal (Task.created_at task)) in *.
  set (delta := if negb (Qle_bool (Task.estimate_hours task) 0)
                then timedelta_hours (Task.estimate_hours task)
                else timedelta_days 1) in *.
  assert ((if negb (Qle_bool (Task.estimate_hours task) 0)
           then timedelta (timedelta_hours (Task.estimate_hours task))
           else timedelta (timedelta_days 1)) = timedelta delta) as ->
    by (unfold delta; destruct (negb _); reflexivity).
  unfold timedelta, date_add. rewrite Hdelta.
  assert ((- timedelta_max_days <=? days) = true) as ->
    by (apply Z.leb_le; unfold timedelta_max_days; lia).
  cbn [andb]. unfold MAXORDINAL, timedelta_max_days in *.
  destruct (Z.leb_spec days 999999999) as [Hin|Hout].
  - rewrite Hdelta. destruct (Z.ltb_spec 0 (start + days)); [|lia]. cbn [andb].
    destruct (start + days <=? 3652059); reflexivity.
  - destruct (Z.leb_spec (start + days) 3652059); [lia|reflexivity].
Qed.

(** C9, as amended.  For a task created on a day of the calendar, the
    start is that day.  With an estimate above zero the end is the start
    plus the estimate as a duration of hours, by date arithmetic (the
    whole days of the duration are added), when this day is not after
    9999-12-31; when it is, line 331 raises OverflowError.  With an
    estimate of zero, or below, the end is the day after the start
    (OverflowError on 9999-12-31). *)
Theorem timeline_dates_by_estimate (task : Task.t) :
  let start := dt_ordinal (Task.created_at task) in
  0 < start <= MAXORDINAL ->
  naive_timeline task =
    (start, start + timedelta_hours (Task.estimate_hours task) / microseconds_per_day) /\
  ((0 < Task.estimate_hours task)%Q ->
     timeline_dates task =
       if snd (naive_timeline task) <=? MAXORDINAL
       then inr (naive_timeline task)
       else inl OverflowError) /\
  ((Task.estimate_hours task <= 0)%Q ->
     timeline_dates task =
       if start + 1 <=? MAXORDINAL then inr (start, start + 1) else inl OverflowError).
Proof.
  intros start Hstart. split; [reflexivity|]. split.
  - intros Hpos. unfold naive_timeline. cbn [snd]. fold start.
    apply (timeline_dates_eval task _ Hstart (timedelta_hours_days_nonneg _ Hpos)).
    apply Qle_bool_false_lt in Hpos. rewrite Hpos. reflexivity.
  - intros Hle. apply (timeline_dates_eval task 1 Hstart); [lia|].
    apply Qle_bool_iff in Hle. rewrite Hle. reflexivity.
Qed.

Lemma timeline_dates_by_estimate_witness :
  naive_timeline task1 =
    (738886, 738886 + timedelta_hours 8 / microseconds_per_day) /\
  ((0 < 8)%Q ->
     timeline_dates task1 =
       if snd (naive_timeline task1) <=? MAXORDINAL
       then inr (naive_timeline task1)
       else inl OverflowError) /\
  ((8 <= 0)%Q ->
     timeline_dates task1 =
       if 738886 + 1 <=? MAXORDINAL then inr (738886, 738886 + 1) else inl OverflowError).
Proof. exact (timeline_dates_by_estimate task1 ltac:(vm_compute; split; congruence)). Defined.

(** An estimate of [n] whole hours is [n / 24] days on the calendar. *)
Lemma timedelta_whole_hours (n : Z) :
  timedelta_hours (inject_Z n) / microseconds_per_day = n / 24.
Proof.
  unfold timedelta_hours, round_half_even, microseconds_per_hour, microseconds_per_day.
  assert (Qfloor (inject_Z n * inject_Z 3600000000) = n * 3600000000) as Hf.
  { unfold Qfloor, Qmult, inject_Z. simpl. apply Z.div_1_r. }
  rewrite Hf.
  assert (Qcompare (inject_Z n * inject_Z 3600000000 - inject_Z (n * 3600000000)) (1 # 2) = Lt)
    as Hc.
  { unfold Qcompare, Qminus, Qplus, Qopp, Qmult, inject_Z. simpl.
    apply Z.compare_lt_iff. lia. }
  rewrite Hc.
  replace 86400000000 with (3600000000 * 24) by reflexivity.
  rewrite <- Z.div_div by lia. rewrite Z.div_mul by lia. reflexivity.
Qed.

(** The row of a task is never built: line 331 raises, or line 336 does. *)
Lemma gantt_row_of_raises db task :
  gantt_row_of db task =
    inl match timeline_dates task with
        | inl e => e
        | inr _ => AttributeError "'datetime.date' object has no attribute 'date'"
        end.
Proof.
  unfold gantt_row_of. destruct (timeline_dates task) as [e|[start end_]]; reflexivity.
Qed.

(** ** Weekly rollup *)

Lemma bucket_snoc hours h :
  bucket (hours ++ [h]) = Some (default 0%Q (bucket hours) + h)%Q.
Proof.
  destruct hours as [|h0 hours]; [reflexivity|].
  unfold bucket. simpl. rewrite fold_left_app. reflexivity.
Qed.

Lemma weekly_summary_snoc rows r :
  weekly_summary (rows ++ [r]) =
    <[week_key r := (default 0%Q (weekly_summary rows !! week_key r) + row_Hours_Logged r)%Q]>
      (weekly_summary rows).
Proof. unfold weekly_summary. rewrite fold_left_app. reflexivity. Qed.

Lemma weekly_summary_lookup rows key :
  weekly_summary rows !! key =
    bucket (map row_Hours_Logged
              (List.filter (fun r => bool_decide (week_key r = key)) rows)).
Proof.
  induction rows as [|r rows IH] using rev_ind; [reflexivity|].
  rewrite weekly_summary_snoc, List.filter_app, map_app. simpl.
  destruct (decide (week_key r = key)) as [Heq|Hne].
  - rewrite (bool_decide_eq_true_2 _ Heq). simpl. rewrite bucket_snoc, <- IH.
    subst key. rewrite lookup_insert_eq. reflexivity.
  - rewrite (bool_decide_eq_false_2 _ Hne). simpl. rewrite app_nil_r, <- IH.
    apply lookup_insert_ne. exact Hne.
Qed.

(** The weekly period of a day opens on the Monday of its ISO week. *)
Lemma to_period_W_iso d : to_period_W d = (iso_week_start d, iso_week_start d + 6).
Proof.
  unfold to_period_W, iso_week_start, weekday, isoweekday.
  destruct (Z.eqb_spec (d mod 7) 0) as [E|E]; f_equal;
    Z.div_mod_to_equations; lia.
Qed.

Lemma same_period_iso_week d1 d2 :
  to_period_W d1 = to_period_W d2 <-> same_iso_week d1 d2 = true.
Proof.
  rewrite !to_period_W_iso. unfold same_iso_week. rewrite Z.eqb_eq.
  split; [intros [= H _]; exact H | intros ->; reflexivity].
Qed.

(** The seven days of an ISO week share its Monday, and the day a week later
    belongs to the week that opens seven days later. *)
Lemma iso_week_start_spec d :
  isoweekday (iso_week_start d) = 1 /\
  iso_week_start d <= d <= iso_week_start d + 6 /\
  iso_week_start (d + 7) = iso_week_start d + 7.
Proof.
  unfold iso_week_start, isoweekday.
  destruct (Z.eqb_spec (d mod 7) 0) as [E|E];
    destruct (Z.eqb_spec ((d + 7) mod 7) 0) as [E7|E7];
    repeat split; try (Z.div_mod_to_equations; lia).
  all: match goal with
       | |- context [Z.eqb ?a 0] => destruct (Z.eqb_spec a 0)
       end; Z.div_mod_to_equations; lia.
Qed.

Lemma log_row_of_fields db log r :
  log_row_of db log = Some r ->
  row_Hours_Logged r = TimeLog.hours log /\
  row_Date r = dt_ordinal (TimeLog.log_date log) /\
  username_of db log = Some (row_User r).
Proof.
  unfold log_row_of, username_of.
  destruct (TimeLog.user_id log ≫= _) as [user|]; [|discriminate]. simpl.
  destruct (TimeLog.task_id log ≫= _) as [task|]; [|discriminate]. simpl.
  destruct (Task.project_id task ≫= _) as [project|]; [|discriminate]. simpl.
  intros [= <-]. simpl. auto.
Qed.

Lemma week_key_in_bucket db log r name d :
  log_row_of db log = Some r ->
  bool_decide (week_key r = (name, to_period_W d)) = in_bucket db name d log.
Proof.
  intros Hrow. destruct (log_row_of_fields db log r Hrow) as (_ & Hdate & Huser).
  unfold in_bucket, week_key. rewrite Huser, <- Hdate.
  apply eq_true_iff_eq. rewrite bool_decide_eq_true, andb_true_iff, String.eqb_eq.
  rewrite <- same_period_iso_week. split.
  - intros Hkey. apply pair_equal_spec in Hkey. exact Hkey.
  - intros Hkey. apply pair_equal_spec. exact Hkey.
Qed.

Lemma log_data_groups db name d logs rows :
  mapM (log_row_of db) logs = Some rows ->
  map row_Hours_Logged
    (List.filter (fun r => bool_decide (week_key r = (name, to_period_W d))) rows) =
  map TimeLog.hours (List.filter (in_bucket db name d) logs).
Proof.
  rewrite mapM_Some. induction 1 as [|log r logs rows Hrow _ IH]; [reflexivity|].
  simpl. rewrite (week_key_in_bucket db log r name d Hrow).
  destruct (log_row_of_fields db log r Hrow) as (Hhours & _ & _).
  destruct (in_bucket db name d log); simpl; rewrite IH; congruence.
Qed.

(** C8.  When the report is drawn, its entry for a username and the week of
    a day is the sum of the hours of the TimeLogs of that user whose date
    is in the same ISO week, added in table order; the pair has no entry
    when there is no such TimeLog.  So two logs of a user in one ISO week
    are one entry, and a log of the following week is in another. *)
Theorem weekly_rollup_by_user_and_week (db : Store)
    (summary : gmap (string * (Z * Z)) Q) (name : string) (d : Z) :
  weekly_logged_hours db = WeeklyHours summary ->
  summary !! (name, to_period_W d) =
    bucket (map TimeLog.hours (List.filter (in_bucket db name d) (time_logs db))) /\
  (forall d', same_iso_week d' d = true <-> to_period_W d' = to_period_W d) /\
  to_period_W (d + 7) = (fst (to_period_W d) + 7, snd (to_period_W d) + 7).
Proof.
  intros Hreport. split; [|split].
  - unfold weekly_logged_hours in Hreport.
    destruct (time_logs db) as [|l0 logs] eqn:Elogs; [discriminate|]. rewrite <- Elogs in *.
    destruct (log_data db) as [rows|] eqn:Edata; [|discriminate].
    injection Hreport as <-.
    rewrite weekly_summary_lookup. f_equal.
    apply (log_data_groups db name d (time_logs db) rows). exact Edata.
  - intros d'. symmetry. apply same_period_iso_week.
  - rewrite !to_period_W_iso. cbn [fst snd].
    destruct (iso_week_start_spec d) as (_ & _ & ->). f_equal. lia.
Qed.

Lemma weekly_rollup_by_user_and_week_witness :
  weekly_summary (default [] (log_data two_weeks)) !! ("admin", to_period_W 738886) =
    bucket (map TimeLog.hours
              (List.filter (in_bucket two_weeks "admin" 738886) (time_logs two_weeks))) /\
  (forall d', same_iso_week d' 738886 = true <-> to_period_W d' = to_period_W 738886) /\
  to_period_W (738886 + 7) = (fst (to_period_W 738886) + 7, snd (to_period_W 738886) + 7).
Proof.
  exact (weekly_rollup_by_user_and_week two_weeks
           (weekly_summary (default [] (log_data two_weeks))) "admin" 738886 eq_refl).
Defined.

(** The three logs of admin: 4.5 h and 2 h in the week of 2024-01-01, 1 h in
    the week of 2024-01-08. *)
Example weekly_rollup_of_two_weeks :
  bucket (map TimeLog.hours
            (List.filter (in_bucket two_weeks "admin" 738892) (time_logs two_weeks))) =
    Some (0 + (9 # 2) + 2)%Q /\
  bucket (map TimeLog.hours
            (List.filter (in_bucket two_weeks "admin" 738893) (time_logs two_weeks))) =
    Some (0 + 1)%Q /\
  to_period_W 738886 = (738886, 738892) /\
  to_period_W 738892 = (738886, 738892) /\
  to_period_W 738893 = (738893, 738899).
Proof. repeat split; reflexivity. Qed.

(** ** The primary keys are kept

    The stores the theorems above speak of are those whose tables obey
    their primary keys.  The empty store and the seeded one do, and every
    write of [DatabaseManager] leaves such a store behind. *)

Section KeyFacts.
Context {A : Type} `{Row A}.

Lemma has_id_insert_row j k x (rows : list A) :
  row_id x = Some k ->
  has_id j (insert_row k x rows) = (k =? j) || has_id j rows.
Proof.
  intros Hx. unfold has_id. induction rows as [|y rows IH]; simpl.
  - rewrite Hx. reflexivity.
  - destruct (k <? default 0 (row_id y)); simpl.
    + rewrite Hx. reflexivity.
    + rewrite IH. simpl. destruct (is_id j (row_id y)), (k =? j); reflexivity.
Qed.

Lemma primary_key_cons x k (rows : list A) :
  row_id x = Some k ->
  primary_key (x :: rows) = negb (has_id k rows) && primary_key rows.
Proof. intros Hx. simpl. rewrite Hx. reflexivity. Qed.

Lemma primary_key_insert_row k x (rows : list A) :
  row_id x = Some k -> has_id k rows = false ->
  primary_key rows = true -> primary_key (insert_row k x rows) = true.
Proof.
  intros Hx. induction rows as [|y rows IH]; intros Hfresh Hpk.
  - simpl. rewrite Hx. reflexivity.
  - simpl. destruct (k <? default 0 (row_id y)).
    + rewrite (primary_key_cons x k (y :: rows) Hx), Hfresh. exact Hpk.
    + simpl in Hpk. destruct (row_id y) as [j|] eqn:Ey; [|discriminate].
      apply andb_prop in Hpk as [Hj Hpk].
      unfold has_id in Hfresh. simpl in Hfresh. rewrite Ey in Hfresh. simpl in Hfresh.
      apply orb_false_elim in Hfresh as [Hjk Hfresh].
      rewrite (primary_key_cons y j _ Ey), (has_id_insert_row j k x rows Hx).
      rewrite (IH Hfresh Hpk), andb_true_r.
      apply negb_true_iff in Hj. unfold has_id. rewrite Hj, orb_false_r.
      apply negb_true_iff. rewrite Z.eqb_sym. exact Hjk.
Qed.

Lemma primary_key_replace_row k x (rows : list A) :
  row_id x = Some k ->
  primary_key rows = true -> primary_key (replace_row k x rows) = true.
Proof.
  intros Hx. induction rows as [|y rows IH]; intros Hpk; [reflexivity|].
  simpl in Hpk. destruct (row_id y) as [j|] eqn:Ey; [|discriminate].
  apply andb_prop in Hpk as [Hj Hpk].
  change (replace_row k x (y :: rows))
    with ((if is_id k (row_id y) then x else y) :: replace_row k x rows).
  rewrite Ey. cbn [is_id]. destruct (Z.eqb_spec j k) as [->|Hne].
  - rewrite (primary_key_cons x k _ Hx), (has_id_replace_row k k x rows Hx).
    unfold has_id. rewrite Hj. exact (IH Hpk).
  - rewrite (primary_key_cons y j _ Ey), (has_id_replace_row k j x rows Hx).
    unfold has_id. rewrite Hj. exact (IH Hpk).
Qed.

Lemma has_id_filter k (P : A -> bool) (rows : list A) :
  has_id k rows = false -> has_id k (List.filter P rows) = false.
Proof.
  rewrite !has_id_false. intros Hno r Hin. apply List.filter_In in Hin as [Hin _]. auto.
Qed.

Lemma primary_key_filter (P : A -> bool) (rows : list A) :
  primary_key rows = true -> primary_key (List.filter P rows) = true.
Proof.
  induction rows as [|y rows IH]; intros Hpk; [reflexivity|].
  simpl in Hpk. destruct (row_id y) as [j|] eqn:Ey; [|discriminate].
  apply andb_prop in Hpk as [Hj Hpk]. simpl. destruct (P y); [|exact (IH Hpk)].
  rewrite (primary_key_cons y j _ Ey), (IH Hpk), andb_true_r.
  apply negb_true_iff. apply has_id_filter. apply negb_true_iff in Hj. exact Hj.
Qed.

Lemma has_id_map k (f : A -> A) (rows : list A) :
  (forall r, row_id (f r) = row_id r) -> has_id k (map f rows) = has_id k rows.
Proof.
  intros Hf. unfold has_id. induction rows as [|y rows IH]; [reflexivity|].
  simpl. rewrite Hf, IH. reflexivity.
Qed.

Lemma primary_key_map (f : A -> A) (rows : list A) :
  (forall r, row_id (f r) = row_id r) ->
  primary_key rows = true -> primary_key (map f rows) = true.
Proof.
  intros Hf. induction rows as [|y rows IH]; intros Hpk; [reflexivity|].
  simpl in Hpk. destruct (row_id y) as [j|] eqn:Ey; [|discriminate].
  apply andb_prop in Hpk as [Hj Hpk].
  change (map f (y :: rows)) with (f y :: map f rows).
  assert (row_id (f y) = Some j) as Efy by (rewrite Hf; exact Ey).
  rewrite (primary_key_cons (f y) j _ Efy), (has_id_map j f rows Hf), (IH Hpk).
  unfold has_id. rewrite Hj. reflexivity.
Qed.

Lemma add_row_keeps_key x (rows rows' : list A) :
  add_row x rows = inr rows' -> primary_key rows = true -> primary_key rows' = true.
Proof.
  unfold add_row. destruct (row_id x) as [k|] eqn:Ex.
  - destruct (has_id k rows) eqn:Efresh; [discriminate|]. intros [= <-].
    apply primary_key_insert_row; assumption.
  - intros [= <-]. apply primary_key_insert_row.
    + apply row_id_with_id.
    + apply next_id_fresh.
Qed.

Lemma save_row_keeps_key x (rows rows' : list A) :
  save_row x rows = inr rows' -> primary_key rows = true -> primary_key rows' = true.
Proof.
  unfold save_row. destruct (row_id x) as [k|] eqn:Ex; [|discriminate].
  destruct (has_id k rows); [|discriminate]. intros [= <-].
  apply primary_key_replace_row. exact Ex.
Qed.
End KeyFacts.

Lemma stored_iff db :
  stored db = true <->
  primary_key (users db) = true /\ primary_key (projects db) = true /\
  primary_key (tasks db) = true /\ primary_key (time_logs db) = true /\
  primary_key (risks db) = true /\ primary_key (sprints db) = true.
Proof. unfold stored. rewrite !andb_true_iff. tauto. Qed.

Ltac tables_kept :=
  apply stored_iff; cbn [users projects tasks time_logs risks sprints];
  repeat split;
  eauto using add_row_keeps_key, save_row_keeps_key, primary_key_filter, primary_key_map.

Lemma flush_insert_stored e db db' :
  flush_insert e db = inr db' -> stored db = true -> stored db' = true.
Proof.
  intros Hflush Hs. apply stored_iff in Hs as (Hu & Hp & Ht & Hl & Hr & Hsp).
  destruct e as [u|p|t|l|r|s]; unfold flush_insert in Hflush;
    [destruct (unique_violation None u (users db)); [discriminate|]| | | | |];
    match type of Hflush with
    | context [add_row ?x ?rows] => destruct (add_row x rows) as [err|rows'] eqn:Eadd
    end; try discriminate; injection Hflush as <-; tables_kept.
Qed.

Lemma flush_update_stored e db db' :
  flush_update e db = inr db' -> stored db = true -> stored db' = true.
Proof.
  intros Hflush Hs. apply stored_iff in Hs as (Hu & Hp & Ht & Hl & Hr & Hsp).
  destruct e as [u|p|t|l|r|s]; unfold flush_update in Hflush;
    [destruct (unique_violation (User.id u) u (users db)); [discriminate|]| | | | |];
    match type of Hflush with
    | context [save_row ?x ?rows] => destruct (save_row x rows) as [err|rows'] eqn:Esave
    end; try discriminate; injection Hflush as <-; tables_kept.
Qed.

Lemma flush_delete_stored e db db' :
  flush_delete e db = inr db' -> stored db = true -> stored db' = true.
Proof.
  intros Hflush Hs. apply stored_iff in Hs as (Hu & Hp & Ht & Hl & Hr & Hsp).
  unfold flush_delete in Hflush. destruct (entity_id e) as [k|]; [|discriminate].
  injection Hflush as <-.
  destruct e as [u|p|t|l|r|s];
    unfold delete_user, delete_project, delete_tasks, delete_risks, delete_sprints,
      set_users, set_projects, set_tasks, set_time_logs, set_risks, set_sprints,
      remove_row;
    tables_kept;
    repeat first [ apply primary_key_map; [reflexivity|]
                 | apply primary_key_filter ]; assumption.
Qed.

Lemma flush_stored ws db db' :
  flush ws db = inr db' -> stored db = true -> stored db' = true.
Proof.
  revert db. induction ws as [|w ws IH]; intros db Hflush Hs.
  - injection Hflush as <-. exact Hs.
  - simpl in Hflush. destruct (flush_one db w) as [err|db1] eqn:E1; [discriminate|].
    apply (IH db1 Hflush). destruct w as [e|e|e]; simpl in E1;
      eauto using flush_insert_stored, flush_update_stored, flush_delete_stored.
Qed.

Lemma commit_stored io s s' :
  commit io s = inr s' -> stored (committed s) = true -> stored (committed s') = true.
Proof.
  unfold commit. destruct io; [|discriminate].
  destruct (flush (work s) (committed s)) as [err|db'] eqn:E; [discriminate|].
  intros [= <-]. exact (flush_stored _ _ _ E).
Qed.

(** Every write leaves the primary keys in order, whether it succeeds or
    not. *)
Lemma writes_keep_stored io e s :
  stored (committed s) = true ->
  stored (committed (snd (create io e s))) = true /\
  stored (committed (snd (update io e s))) = true /\
  stored (committed (snd (delete io e s))) = true.
Proof.
  intros Hs. repeat split.
  - unfold create. destruct (commit io (session_add e s)) as [[| | |]|s'] eqn:E;
      try exact Hs. exact (commit_stored _ _ _ E Hs).
  - unfold update. destruct (commit io (session_merge e s)) as [err|s'] eqn:E;
      [exact Hs|]. apply (commit_stored _ _ _ E).
    unfold session_merge. destruct (persisted e (committed s)); exact Hs.
  - unfold delete. destruct (session_delete e s) as [err|s1] eqn:E1; [exact Hs|].
    simpl. destruct (commit io s1) as [err|s'] eqn:E; [exact Hs|].
    apply (commit_stored _ _ _ E). unfold session_delete in E1.
    destruct (entity_id e); [|discriminate]. injection E1 as <-. exact Hs.
Qed.

Lemma seeded_stored : stored seeded = true /\ stored (mk_store [] [] [] [] [] []) = true.
Proof. split; reflexivity. Qed.

Lemma move_and_log_stored io_log io_task now user_id k new_status hours_to_log db r :
  move_and_log io_log io_task now user_id k new_status hours_to_log db = Some r ->
  stored db = true -> stored (after r) = true.
Proof.
  unfold move_and_log. destruct (get k (tasks db)) as [task|]; [|discriminate].
  intros Hr Hs.
  set (s1 := session_modify (ETask (with_status new_status task)) (clean db)) in Hr.
  assert (stored (committed s1) = true) as Hs1 by exact Hs.
  destruct (negb (Qle_bool hours_to_log 0)).
  - set (new_log := ETimeLog _) in Hr.
    destruct (writes_keep_stored io_log new_log s1 Hs1) as (Hc & _ & _).
    destruct (create io_log new_log s1) as [ok s2].
    destruct (task_object k s2) as [task'|]; [|discriminate].
    destruct (writes_keep_stored io_task (ETask task') s2 Hc) as (_ & Hu & _).
    destruct (update io_task (ETask task') s2) as [ok' s3].
    injection Hr as <-. exact Hu.
  - destruct (task_object k s1) as [task'|]; [|discriminate].
    destruct (writes_keep_stored io_task (ETask task') s1 Hs1) as (_ & Hu & _).
    destruct (update io_task (ETask task') s1) as [ok' s3].
    injection Hr as <-. exact Hu.
Qed.

(** * Further properties of the data layer *)

(** ** Lookups *)

Section LookupFacts.
Context {A : Type} `{Row A}.

Lemma get_app_fresh k x (rows : list A) :
  row_id x = Some k -> has_id k rows = false -> get k (rows ++ [x]) = Some x.
Proof.
  intros Hx. unfold get, has_id. induction rows as [|y rows IH]; simpl.
  - intros _. rewrite Hx. simpl. rewrite Z.eqb_refl. reflexivity.
  - intros Hfresh. apply orb_false_elim in Hfresh as [Hy Hfresh].
    rewrite Hy. exact (IH Hfresh).
Qed.

Lemma get_None k (rows : list A) : get k rows = None <-> has_id k rows = false.
Proof.
  unfold get, has_id. induction rows as [|y rows IH]; simpl; [tauto|].
  destruct (is_id k (row_id y)); simpl; [split; discriminate|exact IH].
Qed.

Lemma get_replace_row_other j k x (rows : list A) :
  row_id x = Some k -> j <> k -> get j (replace_row k x rows) = get j rows.
Proof.
  intros Hx Hne. unfold get, replace_row. induction rows as [|y rows IH]; [reflexivity|].
  simpl. destruct (is_id k (row_id y)) eqn:Ey.
  - apply is_id_true in Ey. rewrite Hx, Ey. simpl.
    destruct (Z.eqb_spec k j) as [->|_]; [contradiction|]. exact IH.
  - destruct (is_id j (row_id y)); [reflexivity|exact IH].
Qed.

Lemma has_id_remove_row k (rows : list A) : has_id k (remove_row k rows) = false.
Proof. apply get_None. apply get_remove_row. Qed.

Lemma find_map_entity (E : A -> entity) (P : entity -> bool) (rows : list A) :
  List.find P (map E rows) = E <$> List.find (fun r => P (E r)) rows.
Proof.
  induction rows as [|y rows IH]; [reflexivity|]. simpl.
  destruct (P (E y)); [reflexivity|exact IH].
Qed.
End LookupFacts.

Lemma read_by_id_get m k db :
  read_by_id m k db =
    match m with
    | MUser => EUser <$> get k (users db)
    | MProject => EProject <$> get k (projects db)
    | MTask => ETask <$> get k (tasks db)
    | MTimeLog => ETimeLog <$> get k (time_logs db)
    | MRisk => ERisk <$> get k (risks db)
    | MSprint => ESprint <$> get k (sprints db)
    end.
Proof. destruct m; unfold read_by_id, table; apply find_map_entity. Qed.

(** ** create, update and delete on any class *)

Lemma create_new_row db e :
  entity_id e = None -> insert_allowed e db = true ->
  create EngineOk e (clean db) =
    (true,
     clean match e with
           | EUser u => set_users (fun rows => rows ++ [with_id (next_id rows) u]) db
           | EProject p => set_projects (fun rows => rows ++ [with_id (next_id rows) p]) db
           | ETask t => set_tasks (fun rows => rows ++ [with_id (next_id rows) t]) db
           | ETimeLog l => set_time_logs (fun rows => rows ++ [with_id (next_id rows) l]) db
           | ERisk r => set_risks (fun rows => rows ++ [with_id (next_id rows) r]) db
           | ESprint s => set_sprints (fun rows => rows ++ [with_id (next_id rows) s]) db
           end).
Proof.
  intros Hid Hok. unfold create, commit, session_add, clean. cbn [work committed app flush flush_one].
  destruct e as [u|p|t|l|r|s]; simpl in Hid, Hok; unfold flush_insert;
    [apply negb_true_iff in Hok; rewrite Hok| | | | |];
    rewrite add_row_new by exact Hid; reflexivity.
Qed.

(** X1.  Creating an object that has no key yet, which no UNIQUE constraint
    stands against, while the engine works: [create] returns True, the
    object is the new last row of its table under the next key,
    [read_by_id] finds it under that key, and the other tables are as they
    were. *)
Theorem create_appends_and_is_found (db : Store) (e : entity) :
  entity_id e = None ->
  insert_allowed e db = true ->
  let k := next_key (model_of e) db in
  let r := create EngineOk e (clean db) in
  fst r = true /\
  work (snd r) = [] /\
  table (model_of e) (committed (snd r)) =
    table (model_of e) db ++ [entity_with_id k e] /\
  read_by_id (model_of e) k (committed (snd r)) = Some (entity_with_id k e) /\
  (forall m, m <> model_of e -> table m (committed (snd r)) = table m db).
Proof.
  intros Hid Hok k r. subst k r. rewrite (create_new_row db e Hid Hok).
  cbn [fst snd]. unfold clean. cbn [work committed].
  split; [reflexivity|]. split; [reflexivity|].
  destruct e as [u|p|t|l|r|s]; cbn [model_of next_key entity_with_id];
    (split; [unfold table; simpl; rewrite map_app; reflexivity|]);
    (split; [rewrite read_by_id_get; simpl;
             rewrite get_app_fresh; [reflexivity|reflexivity|apply next_id_fresh]
            |intros m Hm; destruct m; try contradiction; reflexivity]).
Qed.

Lemma create_appends_and_is_found_witness :
  let k := next_key (model_of (ETask standup)) seeded in
  let r := create EngineOk (ETask standup) (clean seeded) in
  fst r = true /\
  work (snd r) = [] /\
  table (model_of (ETask standup)) (committed (snd r)) =
    table (model_of (ETask standup)) seeded ++ [entity_with_id k (ETask standup)] /\
  read_by_id (model_of (ETask standup)) k (committed (snd r)) =
    Some (entity_with_id k (ETask standup)) /\
  (forall m, m <> model_of (ETask standup) -> table m (committed (snd r)) = table m seeded).
Proof. exact (create_appends_and_is_found seeded (ETask standup) eq_refl eq_refl). Defined.

Lemma commit_leaves_no_work io s s' : commit io s = inr s' -> work s' = [].
Proof.
  unfold commit. destruct io; [|discriminate].
  destruct (flush (work s) (committed s)); [discriminate|]. intros [= <-]. reflexivity.
Qed.

(** X2.  Each of [create], [update] and [delete] ends with nothing pending
    in the session; a call that returns False has left the committed
    database as it found it; and a call during which the engine fails
    returns False. *)
Theorem writes_are_all_or_nothing (io : engine) (e : entity) (s : Session) :
  (work (snd (create io e s)) = [] /\
   work (snd (update io e s)) = [] /\
   work (snd (delete io e s)) = []) /\
  (fst (create io e s) = false -> committed (snd (create io e s)) = committed s) /\
  (fst (update io e s) = false -> committed (snd (update io e s)) = committed s) /\
  (fst (delete io e s) = false -> committed (snd (delete io e s)) = committed s) /\
  (io = EngineFails ->
   fst (create io e s) = false /\ fst (update io e s) = false /\
   fst (delete io e s) = false).
Proof.
  assert (forall m : raises Session,
            (forall s', m = inr s' -> work s' = []) ->
            let r := match m with inr s' => (true, s') | inl _ => (false, rollback s) end in
            work (snd r) = [] /\ (fst r = false -> committed (snd r) = committed s)) as Hcase.
  { intros [err|s'] Hw; simpl.
    - split; [reflexivity|intros _; reflexivity].
    - split; [exact (Hw s' eq_refl)|discriminate]. }
  assert (create io e s =
          match commit io (session_add e s) with
          | inr s' => (true, s') | inl _ => (false, rollback s) end) as Ec
    by (unfold create; destruct (commit io (session_add e s)) as [[| | |]|]; reflexivity).
  destruct (Hcase (commit io (session_add e s)) (commit_leaves_no_work io _)) as [Hc1 Hc2].
  destruct (Hcase (commit io (session_merge e s)) (commit_leaves_no_work io _)) as [Hu1 Hu2].
  destruct (Hcase (s' <-! session_delete e s ;; commit io s')) as [Hd1 Hd2].
  { intros s'. destruct (session_delete e s) as [err|s1]; [discriminate|].
    simpl. apply commit_leaves_no_work. }
  rewrite Ec. unfold update, delete.
  repeat split; try assumption.
  all: subst io; unfold commit; try reflexivity.
  destruct (session_delete e s); reflexivity.
Qed.

Lemma known_Some {A : Type} `{Row A} (x : A) (rows : list A) k :
  known x rows = Some k -> row_id x = Some k /\ has_id k rows = true.
Proof.
  unfold known. destruct (row_id x) as [j|]; [|discriminate].
  destruct (has_id j rows) eqn:E; [|discriminate]. intros [= <-]. auto.
Qed.

Lemma persisted_Some e db k :
  persisted e db = Some k ->
  entity_id e = Some k /\ read_by_id (model_of e) k db <> None.
Proof.
  intros Hp. rewrite read_by_id_get.
  destruct e as [u|p|t|l|r|s]; cbn [persisted model_of entity_id] in *;
    apply known_Some in Hp as [Hid Hhas]; (split; [exact Hid|]);
    match goal with
    | |- context [get ?j ?rows] =>
        destruct (get j rows) eqn:Eget; [discriminate|];
        apply get_None in Eget; congruence
    end.
Qed.

Lemma has_id_filter_refers {A : Type} `{Row A} k (rows : list A) :
  has_id k (List.filter (fun r => negb (refers [k] (row_id r))) rows) = false.
Proof.
  apply has_id_false. intros r Hin Hid. apply List.filter_In in Hin as [_ Hin].
  rewrite Hid in Hin. simpl in Hin. rewrite Z.eqb_refl in Hin. discriminate.
Qed.

Lemma delete_keyed db e k :
  entity_id e = Some k ->
  exists db', flush_delete e db = inr db' /\
              delete EngineOk e (clean db) = (true, clean db') /\
              read_by_id (model_of e) k db' = None.
Proof.
  intros Hp. unfold delete, session_delete, commit, clean. cbn [committed work].
  rewrite Hp. cbn [bind_raises committed work app flush flush_one].
  unfold flush_delete. rewrite Hp. cbn [bind_raises]. eexists. split; [reflexivity|]. split; [reflexivity|].
  rewrite read_by_id_get.
  destruct e as [u|p|t|l|r|s]; cbn [model_of].
  - replace (get k _) with (@None User.t); [reflexivity|]. symmetry.
    apply get_None. unfold delete_user. simpl. apply has_id_remove_row.
  - replace (get k _) with (@None Project.t); [reflexivity|]. symmetry.
    apply get_None. unfold delete_project. simpl. apply has_id_remove_row.
  - replace (get k _) with (@None Task.t); [reflexivity|]. symmetry.
    apply get_None. unfold delete_tasks. simpl.
    rewrite has_id_map by reflexivity.
    exact (has_id_filter_refers k (tasks db)).
  - replace (get k _) with (@None TimeLog.t); [reflexivity|]. symmetry.
    apply get_None. simpl. apply has_id_remove_row.
  - replace (get k _) with (@None Risk.t); [reflexivity|]. symmetry.
    apply get_None. unfold delete_risks. simpl. exact (has_id_filter_refers k (risks db)).
  - replace (get k _) with (@None Sprint.t); [reflexivity|]. symmetry.
    apply get_None. unfold delete_sprints. simpl. exact (has_id_filter_refers k (sprints db)).
Qed.

(** X3.  Deleting an object whose row is in the database, while the engine
    works: [delete] returns True and [read_by_id] no longer finds the key.
    Deleting the same object once more returns True as well (its DELETE
    matches no row, which only warns), and the key is still not found.
    An object that was never stored, which has no key, is refused:
    [delete] returns False and drops what was pending. *)
Theorem delete_then_gone (db : Store) (e : entity) (k : Z) :
  persisted e db = Some k ->
  let r := delete EngineOk e (clean db) in
  let r' := delete EngineOk e (snd r) in
  fst r = true /\
  read_by_id (model_of e) k (committed (snd r)) = None /\
  fst r' = true /\
  read_by_id (model_of e) k (committed (snd r')) = None /\
  (forall io e' s, entity_id e' = None -> delete io e' s = (false, rollback s)).
Proof.
  intros Hp r r'. subst r' r.
  destruct (persisted_Some e db k Hp) as [Hid _].
  destruct (delete_keyed db e k Hid) as (db' & _ & -> & Hgone).
  cbn [fst snd]. unfold clean at 1. cbn [committed].
  destruct (delete_keyed db' e k Hid) as (db'' & _ & -> & Hgone').
  cbn [fst snd]. unfold clean at 1. cbn [committed].
  split; [reflexivity|]. split; [exact Hgone|]. split; [reflexivity|]. split; [exact Hgone'|].
  intros io e' s Hnone. unfold delete, session_delete. rewrite Hnone. reflexivity.
Qed.

Lemma delete_then_gone_witness :
  let r := delete EngineOk (ERisk risk1) (clean seeded) in
  let r' := delete EngineOk (ERisk risk1) (snd r) in
  fst r = true /\
  read_by_id (model_of (ERisk risk1)) 1 (committed (snd r)) = None /\
  fst r' = true /\
  read_by_id (model_of (ERisk risk1)) 1 (committed (snd r')) = None /\
  (forall io e' s, entity_id e' = None -> delete io e' s = (false, rollback s)).
Proof. exact (delete_then_gone seeded (ERisk risk1) 1 eq_refl). Defined.

Lemma update_persisted db e k :
  persisted e db = Some k -> update_allowed e db = true ->
  update EngineOk e (clean db) =
    (true,
     clean match e with
           | EUser u => set_users (replace_row k u) db
           | EProject p => set_projects (replace_row k p) db
           | ETask t => set_tasks (replace_row k t) db
           | ETimeLog l => set_time_logs (replace_row k l) db
           | ERisk r => set_risks (replace_row k r) db
           | ESprint s => set_sprints (replace_row k s) db
           end).
Proof.
  intros Hp Hok. unfold update, session_merge, commit, clean. cbn [committed work].
  rewrite Hp. unfold session_modify. cbn [work committed app flush flush_one].
  destruct e as [u|p|t|l|r|s]; cbn [persisted update_allowed] in Hp, Hok;
    apply known_Some in Hp as [Hid Hhas]; unfold flush_update, save_row;
    [apply negb_true_iff in Hok; rewrite Hok| | | | |];
    rewrite Hid, Hhas; reflexivity.
Qed.

(** X4.  Updating an object whose row is in the database, which no UNIQUE
    constraint stands against, while the engine works: [update] returns
    True, [read_by_id] under the key of the object gives the object, under
    any other key what it gave before, and no table has gained or lost a
    row. *)
Theorem update_overwrites_one_row (db : Store) (e : entity) (k : Z) :
  persisted e db = Some k ->
  update_allowed e db = true ->
  let r := update EngineOk e (clean db) in
  fst r = true /\
  read_by_id (model_of e) k (committed (snd r)) = Some e /\
  (forall j, j <> k ->
     read_by_id (model_of e) j (committed (snd r)) = read_by_id (model_of e) j db) /\
  (forall m, length (table m (committed (snd r))) = length (table m db)) /\
  (forall m, m <> model_of e -> table m (committed (snd r)) = table m db).
Proof.
  intros Hp Hok r. subst r. rewrite (update_persisted db e k Hp Hok).
  cbn [fst snd]. unfold clean. cbn [committed].
  destruct (persisted_Some e db k Hp) as [Hid Hfound].
  split; [reflexivity|].
  rewrite read_by_id_get in Hfound.
  destruct e as [u|p|t|l|r|s]; cbn [model_of entity_id] in *;
    (split; [rewrite read_by_id_get; simpl;
             rewrite get_replace_row;
               [reflexivity|exact Hid|
                match type of Hfound with
                | context [get ?j ?rows] =>
                    destruct (get j rows) eqn:Eget; [exact (get_has_id _ _ _ Eget)|contradiction]
                end]|]);
    (split; [intros j Hj; rewrite !read_by_id_get; simpl;
             rewrite get_replace_row_other by (exact Hid || exact Hj); reflexivity|]);
    (split; [intros m; destruct m; unfold table; simpl;
             rewrite ?length_map; unfold replace_row; rewrite ?length_map; reflexivity
            |intros m Hm; destruct m; try contradiction; reflexivity]).
Qed.

Lemma update_overwrites_one_row_witness :
  let e := ERisk (Risk.mk (Some 1) "Database Migration Failure" None "High" "High"
                   (Some "Dry run done.") "Managed" (Some 1) (Some 1)) in
  let r := update EngineOk e (clean seeded) in
  fst r = true /\
  read_by_id (model_of e) 1 (committed (snd r)) = Some e /\
  (forall j, j <> 1 ->
     read_by_id (model_of e) j (committed (snd r)) = read_by_id (model_of e) j seeded) /\
  (forall m, length (table m (committed (snd r))) = length (table m seeded)) /\
  (forall m, m <> model_of e -> table m (committed (snd r)) = table m seeded).
Proof.
  exact (update_overwrites_one_row seeded
           (ERisk (Risk.mk (Some 1) "Database Migration Failure" None "High" "High"
                     (Some "Dry run done.") "Managed" (Some 1) (Some 1)))
           1 eq_refl eq_refl).
Defined.

(** ** The constraints of the schema are kept *)

(** X5.  From a store whose tables obey their primary keys, every write of
    [DatabaseManager] and every "Move & Log", successful or not, leads to
    such a store again. *)
Theorem primary_keys_survive_writes (io : engine) (e : entity) (db : Store) :
  stored db = true ->
  stored (committed (snd (create io e (clean db)))) = true /\
  stored (committed (snd (update io e (clean db)))) = true /\
  stored (committed (snd (delete io e (clean db)))) = true /\
  (forall io_task now user_id k new_status hours_to_log r,
     move_and_log io io_task now user_id k new_status hours_to_log db = Some r ->
     stored (after r) = true).
Proof.
  intros Hs. destruct (writes_keep_stored io e (clean db) Hs) as (Hc & Hu & Hd).
  repeat split; try assumption.
  intros io_task now user_id k new_status hours_to_log r Hr.
  exact (move_and_log_stored _ _ _ _ _ _ _ _ _ Hr Hs).
Qed.

Lemma primary_keys_survive_writes_witness :
  stored (committed (snd (create EngineOk (EUser admin_again) (clean seeded)))) = true /\
  stored (committed (snd (update EngineOk (EUser admin_again) (clean seeded)))) = true /\
  stored (committed (snd (delete EngineOk (EUser admin_again) (clean seeded)))) = true /\
  (forall io_task now user_id k new_status hours_to_log r,
     move_and_log EngineOk io_task now user_id k new_status hours_to_log seeded = Some r ->
     stored (after r) = true).
Proof. exact (primary_keys_survive_writes EngineOk (EUser admin_again) seeded eq_refl). Defined.

Lemma clashes_sym a b : clashes a b = clashes b a.
Proof. unfold clashes. rewrite (String.eqb_sym (User.username a)), (String.eqb_sym (User.email a)). reflexivity. Qed.

Lemma unique_violation_clashes u rows :
  unique_violation None u rows = existsb (fun r => clashes r u) rows.
Proof. reflexivity. Qed.

Lemma existsb_insert_row {A : Type} `{Row A} (P : A -> bool) k x (rows : list A) :
  existsb P (insert_row k x rows) = P x || existsb P rows.
Proof.
  induction rows as [|y rows IH]; simpl.
  - reflexivity.
  - destruct (k <? default 0 (row_id y)); simpl; [reflexivity|].
    rewrite IH. destruct (P y), (P x); reflexivity.
Qed.

Lemma unique_users_insert_row k u rows :
  existsb (fun r => clashes r u) rows = false ->
  unique_users rows = true -> unique_users (insert_row k u rows) = true.
Proof.
  induction rows as [|y rows IH]; intros Hfree Hun; [reflexivity|].
  simpl in Hfree, Hun. apply orb_false_elim in Hfree as [Hy Hfree].
  apply andb_prop in Hun as [Hyfree Hun]. simpl.
  destruct (k <? default 0 (User.id y)).
  - assert (existsb (clashes u) rows = false) as Hu.
    { destruct (existsb (clashes u) rows) eqn:E; [|reflexivity].
      apply existsb_exists in E as (r & Hin & Hr). rewrite clashes_sym in Hr.
      assert (existsb (fun r => clashes r u) rows = true) by (apply existsb_exists; eauto).
      congruence. }
    simpl. rewrite (clashes_sym u y), Hy, Hu, Hyfree, Hun. reflexivity.
  - simpl. rewrite existsb_insert_row, Hy. simpl. rewrite Hyfree. exact (IH Hfree Hun).
Qed.

Lemma unique_users_filter (P : User.t -> bool) rows :
  unique_users rows = true -> unique_users (List.filter P rows) = true.
Proof.
  induction rows as [|y rows IH]; intros Hun; [reflexivity|].
  simpl in Hun. apply andb_prop in Hun as [Hy Hun]. simpl.
  destruct (P y); [|exact (IH Hun)]. simpl. rewrite (IH Hun), andb_true_r.
  apply negb_true_iff. apply negb_true_iff in Hy.
  destruct (existsb (clashes y) (List.filter P rows)) eqn:E; [|reflexivity].
  apply existsb_exists in E as (r & Hin & Hr). apply List.filter_In in Hin as [Hin _].
  assert (existsb (clashes y) rows = true) by (apply existsb_exists; eauto). congruence.
Qed.

Lemma replace_row_absent {A : Type} `{Row A} k x (rows : list A) :
  has_id k rows = false -> replace_row k x rows = rows.
Proof.
  intros Hno. unfold replace_row. rewrite <- (map_id rows) at 2. apply map_ext_in.
  intros r Hin. destruct (is_id k (row_id r)) eqn:E; [|reflexivity].
  apply is_id_true in E. exfalso. exact (proj1 (has_id_false k rows) Hno r Hin E).
Qed.

Lemma unique_users_replace_row k u rows :
  User.id u = Some k ->
  primary_key rows = true ->
  unique_violation (Some k) u rows = false ->
  unique_users rows = true -> unique_users (replace_row k u rows) = true.
Proof.
  intros Hu. induction rows as [|y rows IH]; intros Hpk Hfree Hun; [reflexivity|].
  simpl in Hpk. destruct (User.id y) as [j|] eqn:Ey; [|discriminate].
  apply andb_prop in Hpk as [Hj Hpk]. apply negb_true_iff in Hj.
  assert (has_id j rows = false) as Hj' by exact Hj. clear Hj. rename Hj' into Hj.
  simpl in Hun. apply andb_prop in Hun as [Hyfree Hun]. apply negb_true_iff in Hyfree.
  unfold unique_violation in Hfree. simpl in Hfree. rewrite Ey in Hfree. simpl in Hfree.
  apply orb_false_elim in Hfree as [Hyu Hfree].
  change (replace_row k u (y :: rows))
    with ((if is_id k (row_id y) then u else y) :: replace_row k u rows).
  change (row_id y) with (User.id y). rewrite Ey. cbn [is_id].
  destruct (Z.eqb_spec j k) as [->|Hne].
  - rewrite (replace_row_absent k u rows Hj). simpl. rewrite Hun, andb_true_r.
    apply negb_true_iff.
    destruct (existsb (clashes u) rows) eqn:E; [|reflexivity].
    apply existsb_exists in E as (r & Hin & Hr).
    assert (existsb (fun r => negb (is_id k (User.id r)) &&
                      (String.eqb (User.username r) (User.username u) ||
                       String.eqb (User.email r) (User.email u))) rows = true) as Hcontra.
    { apply existsb_exists. exists r. split; [exact Hin|].
      rewrite clashes_sym in Hr. unfold clashes in Hr. rewrite Hr, andb_true_r.
      apply negb_true_iff. destruct (is_id k (User.id r)) eqn:Ek; [|reflexivity].
      apply is_id_true in Ek. exfalso.
      exact (proj1 (has_id_false k rows) Hj r Hin Ek). }
    congruence.
  - simpl in Hyu.
    simpl. rewrite (IH Hpk Hfree Hun), andb_true_r. apply negb_true_iff.
    destruct (existsb (clashes y) (replace_row k u rows)) eqn:E; [|reflexivity].
    apply existsb_exists in E as (r & Hin & Hr).
    unfold replace_row in Hin. apply in_map_iff in Hin as (r0 & Hr0 & Hin0).
    destruct (is_id k (row_id r0)).
    + subst r. unfold clashes in Hr. congruence.
    + subst r. assert (existsb (clashes y) rows = true) by (apply existsb_exists; eauto).
      congruence.
Qed.

Lemma flush_one_unique db w db' :
  flush_one db w = inr db' ->
  stored db = true -> unique_users (users db) = true ->
  unique_users (users db') = true.
Proof.
  intros Hflush Hs Hun. apply stored_iff in Hs as (Hpk & _).
  destruct w as [e|e|e]; simpl in Hflush.
  - destruct e as [u|p|t|l|r|s]; unfold flush_insert in Hflush;
      try (match type of Hflush with
           | context [add_row ?x ?rows] => destruct (add_row x rows)
           end; [discriminate|]; injection Hflush as <-; exact Hun).
    destruct (unique_violation None u (users db)) eqn:Efree; [discriminate|].
    unfold add_row in Hflush. destruct (row_id u) as [k|].
    + destruct (has_id k (users db)); [discriminate|]. injection Hflush as <-.
      simpl. apply unique_users_insert_row; assumption.
    + injection Hflush as <-. simpl. apply unique_users_insert_row; assumption.
  - destruct e as [u|p|t|l|r|s]; unfold flush_update in Hflush;
      try (match type of Hflush with
           | context [save_row ?x ?rows] => destruct (save_row x rows)
           end; [discriminate|]; injection Hflush as <-; exact Hun).
    destruct (unique_violation (User.id u) u (users db)) eqn:Efree; [discriminate|].
    unfold save_row in Hflush. destruct (row_id u) as [k|] eqn:Ek; [|discriminate].
    destruct (has_id k (users db)); [|discriminate]. injection Hflush as <-.
    simpl. simpl in Ek. rewrite Ek in Efree.
    apply unique_users_replace_row; assumption.
  - unfold flush_delete in Hflush. destruct (entity_id e) as [k|]; [|discriminate].
    injection Hflush as <-. destruct e as [u|p|t|l|r|s]; try exact Hun.
    unfold delete_user. simpl. apply unique_users_filter. exact Hun.
Qed.

Lemma flush_constrained ws db db' :
  flush ws db = inr db' -> constrained db = true -> constrained db' = true.
Proof.
  revert db. induction ws as [|w ws IH]; intros db Hflush Hc.
  - injection Hflush as <-. exact Hc.
  - simpl in Hflush. destruct (flush_one db w) as [err|db1] eqn:E1; [discriminate|].
    apply (IH db1 Hflush). unfold constrained in *.
    apply andb_prop in Hc as [Hs Hun]. apply andb_true_intro. split.
    + exact (flush_stored [w] db db1 ltac:(simpl; rewrite E1; reflexivity) Hs).
    + exact (flush_one_unique db w db1 E1 Hs Hun).
Qed.

Lemma commit_constrained io s s' :
  commit io s = inr s' -> constrained (committed s) = true ->
  constrained (committed s') = true.
Proof.
  unfold commit. destruct io; [|discriminate].
  destruct (flush (work s) (committed s)) as [err|db'] eqn:E; [discriminate|].
  intros [= <-]. exact (flush_constrained _ _ _ E).
Qed.

(** X6.  From a store that obeys its primary keys and in which no two users
    share a username or an e-mail address, every [create], [update] and
    [delete], successful or not, leads to such a store again. *)
Theorem unique_users_survive_writes (io : engine) (e : entity) (s : Session) :
  constrained (committed s) = true ->
  constrained (committed (snd (create io e s))) = true /\
  constrained (committed (snd (update io e s))) = true /\
  constrained (committed (snd (delete io e s))) = true.
Proof.
  intros Hc. repeat split.
  - unfold create. destruct (commit io (session_add e s)) as [[| | |]|s'] eqn:E;
      try exact Hc. exact (commit_constrained _ _ _ E Hc).
  - unfold update. destruct (commit io (session_merge e s)) as [err|s'] eqn:E;
      [exact Hc|]. apply (commit_constrained _ _ _ E).
    unfold session_merge. destruct (persisted e (committed s)); exact Hc.
  - unfold delete. destruct (session_delete e s) as [err|s1] eqn:E1; [exact Hc|].
    simpl. destruct (commit io s1) as [err|s'] eqn:E; [exact Hc|].
    apply (commit_constrained _ _ _ E). unfold session_delete in E1.
    destruct (entity_id e); [|discriminate]. injection E1 as <-. exact Hc.
Qed.

Lemma unique_users_survive_writes_witness :
  constrained (committed (snd (create EngineOk (EUser dana) (clean seeded)))) = true /\
  constrained (committed (snd (update EngineOk (EUser dana) (clean seeded)))) = true /\
  constrained (committed (snd (delete EngineOk (EUser dana) (clean seeded)))) = true.
Proof. exact (unique_users_survive_writes EngineOk (EUser dana) (clean seeded) eq_refl). Defined.

(** ** Dictionaries by name *)

Section DictFacts.
Context {A : Type} (key : A -> string) (val : A -> option Z).

(** A dict comprehension keeps, for each key, the value of the last item
    with that key. *)
Lemma dict_lookup_last (rows : list A) (name : string) :
  fold_left (fun m x => <[key x := val x]> m) rows (∅ : gmap string (option Z)) !! name =
    val <$> last (List.filter (fun x => String.eqb (key x) name) rows).
Proof.
  induction rows as [|x rows IH] using rev_ind; [reflexivity|].
  rewrite fold_left_app, List.filter_app. simpl.
  destruct (String.eqb_spec (key x) name) as [<-|Hne].
  - rewrite lookup_insert_eq, last_snoc. reflexivity.
  - rewrite lookup_insert_ne by exact Hne. rewrite app_nil_r. exact IH.
Qed.
End DictFacts.

(** X8.  The pages that start from a project name work on the last project
    of that name: [project_options] maps a name to the key of the last
    project so called, and has no entry for a name no project has.  A
    project created under the name of an existing one therefore takes the
    name over. *)
Theorem project_options_last_wins (db : Store) (name : string) :
  project_options db !! name =
    Project.id <$> last (List.filter (fun p => String.eqb (Project.name p) name)
                           (projects db)) /\
  (forall p, Project.id p = None -> Project.name p = name ->
     project_options (committed (snd (create EngineOk (EProject p) (clean db)))) !! name =
       Some (Some (next_id (projects db)))).
Proof.
  split; [apply (dict_lookup_last Project.name Project.id)|].
  intros p Hid Hname.
  rewrite (create_new_row db (EProject p) Hid eq_refl). cbn [snd]. unfold clean. cbn [committed].
  unfold project_options, set_projects. cbn [projects].
  rewrite (dict_lookup_last Project.name Project.id), List.filter_app. simpl.
  rewrite Hname, String.eqb_refl, last_snoc. reflexivity.
Qed.

Lemma unique_users_snoc rows u :
  unique_users (rows ++ [u]) = true ->
  unique_users rows = true /\ existsb (fun r => clashes r u) rows = false.
Proof.
  induction rows as [|y rows IH]; simpl; [auto|].
  intros Hun. apply andb_prop in Hun as [Hy Hun]. destruct (IH Hun) as [Hrows Hfree].
  rewrite existsb_app in Hy. simpl in Hy. rewrite orb_false_r in Hy.
  apply negb_true_iff, orb_false_elim in Hy as [Hy1 Hy2].
  rewrite Hy1, Hrows, Hy2, Hfree. auto.
Qed.

Lemma find_username_snoc rows u name :
  existsb (fun r => clashes r u) rows = false ->
  List.find (fun r => String.eqb (User.username r) name) (rows ++ [u]) =
    if String.eqb (User.username u) name then Some u
    else List.find (fun r => String.eqb (User.username r) name) rows.
Proof.
  intros Hfree. induction rows as [|y rows IH]; simpl.
  - destruct (String.eqb (User.username u) name); reflexivity.
  - simpl in Hfree. apply orb_false_elim in Hfree as [Hy Hfree].
    unfold clashes in Hy. apply orb_false_elim in Hy as [Hy _].
    destruct (String.eqb_spec (User.username y) name) as [Ey|Ey].
    + destruct (String.eqb_spec (User.username u) name) as [Eu|Eu]; [|reflexivity].
      apply String.eqb_neq in Hy. congruence.
    + exact (IH Hfree).
Qed.

Lemma users_dict_lookup rows name :
  unique_users rows = true ->
  fold_left (fun m user => <[User.username user := User.id user]> m) rows
      (∅ : gmap string (option Z)) !! name =
    User.id <$> List.find (fun r => String.eqb (User.username r) name) rows.
Proof.
  induction rows as [|u rows IH] using rev_ind; intros Hun; [reflexivity|].
  destruct (unique_users_snoc rows u Hun) as [Hrows Hfree].
  rewrite fold_left_app, (find_username_snoc rows u name Hfree). simpl.
  destruct (String.eqb_spec (User.username u) name) as [<-|Hne].
  - apply lookup_insert_eq.
  - rewrite lookup_insert_ne by exact Hne. exact (IH Hrows).
Qed.

Lemma users_dict_size rows :
  unique_users rows = true ->
  size (fold_left (fun m user => <[User.username user := User.id user]> m) rows
          (∅ : gmap string (option Z))) = length rows.
Proof.
  induction rows as [|u rows IH] using rev_ind; intros Hun; [reflexivity|].
  destruct (unique_users_snoc rows u Hun) as [Hrows Hfree].
  rewrite fold_left_app, length_app. simpl.
  rewrite map_size_insert_None.
  - rewrite (IH Hrows). lia.
  - rewrite (users_dict_lookup rows (User.username u) Hrows).
    destruct (List.find _ rows) as [r|] eqn:E; [|reflexivity].
    apply find_some in E as [Hin Hr].
    assert (existsb (fun r => clashes r u) rows = true) as Hcontra.
    { apply existsb_exists. exists r. split; [exact Hin|]. unfold clashes. rewrite Hr. reflexivity. }
    congruence.
Qed.

(** X7.  While no two users share a username, the dictionary of the
    assignment forms has one entry per user, and what it holds for a name
    is the key of the user [get_user_by_username] finds, that is what
    [get_user_id_by_username] returns. *)
Theorem users_for_assignment_complete (db : Store) :
  unique_users (users db) = true ->
  size (get_users_for_assignment db) = length (users db) /\
  (forall u, In u (users db) ->
     get_users_for_assignment db !! User.username u = Some (User.id u)) /\
  (forall name,
     get_users_for_assignment db !! name = User.id <$> get_user_by_username name db /\
     default None (get_users_for_assignment db !! name) = get_user_id_by_username name db).
Proof.
  intros Hun. unfold get_users_for_assignment, get_user_id_by_username, get_user_by_username.
  split; [exact (users_dict_size (users db) Hun)|].
  assert (forall name,
            fold_left (fun m user => <[User.username user := User.id user]> m) (users db)
              (∅ : gmap string (option Z)) !! name =
            User.id <$> List.find (fun r => String.eqb (User.username r) name) (users db)) as Hl
    by (intros name; exact (users_dict_lookup (users db) name Hun)).
  split.
  - intros u Hin. rewrite Hl.
    destruct (List.find _ (users db)) as [r|] eqn:E.
    + apply find_some in E as [Hr Hname]. apply String.eqb_eq in Hname. simpl. f_equal. f_equal.
      clear Hl. induction (users db) as [|y rows IH]; [contradiction|].
      simpl in Hun. apply andb_prop in Hun as [Hy Hun]. apply negb_true_iff in Hy.
      assert (forall a, In a rows -> User.username y <> User.username a) as Hdiff.
      { intros a Ha Heq.
        assert (existsb (clashes y) rows = true) as Hcontra.
        { apply existsb_exists. exists a. split; [exact Ha|]. unfold clashes.
          rewrite Heq, String.eqb_refl. reflexivity. }
        congruence. }
      destruct Hin as [->|Hin], Hr as [->|Hr]; [reflexivity| | |exact (IH Hun Hin Hr)].
      * exfalso. exact (Hdiff r Hr (eq_sym Hname)).
      * exfalso. exact (Hdiff u Hin Hname).
    + exfalso. apply (find_none _ _ E u) in Hin. rewrite String.eqb_refl in Hin. discriminate.
  - intros name. split; [exact (Hl name)|]. rewrite Hl.
    destruct (List.find _ (users db)); reflexivity.
Qed.

Lemma users_for_assignment_complete_witness :
  size (get_users_for_assignment seeded) = length (users seeded) /\
  (forall u, In u (users seeded) ->
     get_users_for_assignment seeded !! User.username u = Some (User.id u)) /\
  (forall name,
     get_users_for_assignment seeded !! name = User.id <$> get_user_by_username name seeded /\
     default None (get_users_for_assignment seeded !! name) =
       get_user_id_by_username name seeded).
Proof. exact (users_for_assignment_complete seeded eq_refl). Defined.

(** ** Registration, login, logout *)

Lemma register_outcomes hash_password io now u e p c role db :
  register hash_password io now u e p c role db =
    if negb (forallb nonempty [u; e; p; c]) then (AllFieldsRequired, db)
    else if negb (String.eqb p c) then (PasswordsDoNotMatch, db)
    else match io with
         | EngineFails => (AlreadyExists, db)
         | EngineOk =>
             if unique_violation None (User.mk None u e (hash_password p) role now) (users db)
             then (AlreadyExists, db)
             else (Registered,
                   set_users (fun rows =>
                     rows ++ [User.mk (Some (next_id rows)) u e (hash_password p) role now]) db)
         end.
Proof.
  unfold register.
  destruct (negb (forallb nonempty [u; e; p; c])); [reflexivity|].
  destruct (negb (String.eqb p c)); [reflexivity|].
  set (new_user := User.mk None u e (hash_password p) role now).
  destruct io; [|reflexivity].
  destruct (unique_violation None new_user (users db)) eqn:E.
  - rewrite (create_user_taken EngineOk db new_user E). reflexivity.
  - rewrite (create_user_free db new_user eq_refl E). reflexivity.
Qed.

(** X9.  The "Register" button changes the store only when it reports
    success, and then the new user can log in at once: [authenticate] with
    the chosen name and password returns True and puts the name, the chosen
    role and the key of the new user into the session state. *)
Theorem register_then_login (hash_password : string -> string) (io : engine)
    (now : datetime) (u e p c role : string) (db db' : Store)
    (outcome : registration) (st : session_state) :
  register hash_password io now u e p c role db = (outcome, db') ->
  (outcome <> Registered -> db' = db) /\
  (outcome = Registered ->
     p = c /\
     users db' = users db ++ [User.mk (Some (next_id (users db))) u e (hash_password p) role now] /\
     authenticate hash_password u p db' st =
       (true,
        mk_state true (Some u) (Some role) (Some (next_id (users db))) "Dashboard",
        ["Welcome back, " ++ u ++ " (" ++ role ++ ")!"]%string)).
Proof.
  rewrite register_outcomes.
  destruct (negb (forallb nonempty [u; e; p; c])); [intros [= <- <-]; split; [reflexivity|discriminate]|].
  destruct (String.eqb_spec p c) as [<-|Hpc]; simpl;
    [|intros [= <- <-]; split; [reflexivity|discriminate]].
  destruct io; [|intros [= <- <-]; split; [reflexivity|discriminate]].
  set (new_user := User.mk None u e (hash_password p) role now).
  destruct (unique_violation None new_user (users db)) eqn:E;
    [intros [= <- <-]; split; [reflexivity|discriminate]|].
  intros [= <- <-]. split; [intros H; contradiction|]. intros _.
  split; [reflexivity|]. split; [reflexivity|].
  unfold authenticate, get_user_by_username, set_users. cbn [users].
  rewrite (find_username_snoc (users db) (User.mk (Some (next_id (users db))) u e
                                             (hash_password p) role now) u).
  - cbn [User.username]. rewrite String.eqb_refl. cbn [User.password_hash].
    rewrite String.eqb_refl. reflexivity.
  - exact E.
Qed.

Lemma register_then_login_witness :
  (Registered <> Registered ->
   committed (snd (create EngineOk (EUser dana) (clean seeded))) = seeded) /\
  (Registered = Registered ->
     "danapass" = "danapass" /\
     users (committed (snd (create EngineOk (EUser dana) (clean seeded)))) =
       users seeded ++ [User.mk (Some (next_id (users seeded))) "dana" "dana@tool.com"
                          (demo_hash "danapass") "Team Member" boot] /\
     authenticate demo_hash "dana" "danapass"
         (committed (snd (create EngineOk (EUser dana) (clean seeded)))) initial_state =
       (true,
        mk_state true (Some "dana") (Some "Team Member") (Some (next_id (users seeded)))
          "Dashboard",
        ["Welcome back, " ++ "dana" ++ " (" ++ "Team Member" ++ ")!"]%string)).
Proof.
  exact (register_then_login demo_hash EngineOk boot "dana" "dana@tool.com" "danapass"
           "danapass" "Team Member" seeded _ Registered initial_state eq_refl).
Defined.

Lemma logout_keys (d : gmap string state_value) (key : string) :
  is_Some (logout d !! key) <-> key = "is_authenticated" \/ key = "current_page".
Proof.
  unfold logout.
  destruct (decide (key = "current_page")) as [->|Hpage].
  - rewrite lookup_insert_eq. split; [right; reflexivity|eauto].
  - rewrite lookup_insert_ne by congruence.
    destruct (decide (key = "is_authenticated")) as [->|Hauth].
    + rewrite lookup_insert_eq. split; [left; reflexivity|eauto].
    + rewrite lookup_insert_ne by congruence. rewrite lookup_empty.
      split; [intros [x Hx]; discriminate|intros [H|H]; contradiction].
Qed.

(** X10.  After a login that succeeded, a role check passes exactly for the
    lists that hold the role stored for the user.  [logout] leaves a
    dictionary with two keys, [is_authenticated] and [current_page];
    [init_session_state] finds the first and sets nothing, so the keys of
    the user and [show_task_form], which a new session has, stay unset.
    What the pages read from it is an unauthenticated session without
    role: no role check passes and the application shows the login page
    whatever the navigation holds. *)
Theorem role_access_follows_login (hash_password : string -> string)
    (username password : string) (db : Store) (st st' : session_state)
    (toasts : list string) (required_roles : list string) (choice : string)
    (d : gmap string state_value) :
  authenticate hash_password username password db st = (true, st', toasts) ->
  (exists user,
     get_user_by_username username db = Some user /\
     check_role_access required_roles st' =
       existsb (String.eqb (User.role user)) required_roles) /\
  (forall key, is_Some (logout d !! key) <->
               key = "is_authenticated" \/ key = "current_page") /\
  init_session_state (logout d) = logout d /\
  init_session_state ∅ !! "show_task_form" = Some (VBool false) /\
  read_state (init_session_state ∅) = Some initial_state /\
  read_state (logout d) = Some (mk_state false None None None "Login") /\
  check_role_access required_roles (mk_state false None None None "Login") = false /\
  main_app (mk_state false None None None "Login") choice = LoginPage.
Proof.
  unfold authenticate. destruct (get_user_by_username username db) as [user|]; [|discriminate].
  destruct (String.eqb (User.password_hash user) (hash_password password)); [|discriminate].
  intros [= <- _]. split; [exists user; split; reflexivity|].
  split; [exact (logout_keys d)|].
  repeat split; vm_compute; reflexivity.
Qed.

Lemma role_access_follows_login_witness :
  (exists user,
     get_user_by_username "admin" seeded = Some user /\
     check_role_access ["Admin"; "Project Manager"]
       (mk_state true (Some "admin") (Some "Admin") (Some 1) "Dashboard") =
       existsb (String.eqb (User.role user)) ["Admin"; "Project Manager"]) /\
  (forall key, is_Some (logout ∅ !! key) <->
               key = "is_authenticated" \/ key = "current_page") /\
  init_session_state (logout ∅) = logout ∅ /\
  init_session_state ∅ !! "show_task_form" = Some (VBool false) /\
  read_state (init_session_state ∅) = Some initial_state /\
  read_state (logout ∅) = Some (mk_state false None None None "Login") /\
  check_role_access ["Admin"; "Project Manager"] (mk_state false None None None "Login") =
    false /\
  main_app (mk_state false None None None "Login") "Administration" = LoginPage.
Proof.
  exact (role_access_follows_login demo_hash "admin" "adminpass" seeded initial_state
           (mk_state true (Some "admin") (Some "Admin") (Some 1) "Dashboard")
           ["Welcome back, admin (Admin)!"] ["Admin"; "Project Manager"] "Administration"
           ∅ eq_refl).
Defined.

(** X11.  The administration page is shown only to an authenticated user
    whose role is Admin: nobody else is offered it in the navigation, a
    session that is not authenticated gets the login page, and a user of
    another role who reaches the page is denied. *)
Theorem administration_only_for_admin (st : session_state) (choice : string) :
  (main_app st choice = AdministrationPage ->
     is_authenticated st = true /\ st_user_role st = Some "Admin") /\
  (is_authenticated st = false -> main_app st choice = LoginPage) /\
  (In "Administration" (main_pages st) <-> st_user_role st = Some "Admin") /\
  (is_authenticated st = true -> st_user_role st <> Some "Admin" ->
     main_app st "Administration" = AccessDenied).
Proof.
  assert (is_admin st = true <-> st_user_role st = Some "Admin") as Hadmin.
  { unfold is_admin. destruct (st_user_role st) as [role|]; [|split; discriminate].
    rewrite String.eqb_eq. split; [intros ->; reflexivity|intros [= ->]; reflexivity]. }
  split; [|split; [|split]].
  - unfold main_app, administration_page. destruct (is_authenticated st); [|discriminate].
    cbn [negb].
    repeat match goal with
           | |- context [String.eqb choice ?s] => destruct (String.eqb choice s); [discriminate|]
           end.
    destruct (String.eqb choice "Administration"); [|discriminate].
    destruct (is_admin st) eqn:E; [|discriminate]. intros _. split; [reflexivity|].
    apply Hadmin. reflexivity.
  - intros Hno. unfold main_app. rewrite Hno. reflexivity.
  - rewrite <- Hadmin. unfold main_pages. destruct (is_admin st); simpl.
    + split; [reflexivity|]. intros _. do 7 right. left. reflexivity.
    + split; [|discriminate].
      intros [H|[H|[H|[H|[H|[H|[H|[]]]]]]]]; discriminate.
  - intros Hauth Hrole. unfold main_app, administration_page. rewrite Hauth. simpl.
    destruct (is_admin st) eqn:E; [|reflexivity]. exfalso. apply Hrole, Hadmin. reflexivity.
Qed.

(** ** The kanban board *)

Lemma kanban_columns_empty (status : string) :
  fold_left (fun m status => <[status := []]> m) KANBAN_STATUSES
      (∅ : gmap string (list Task.t)) !! status =
    if existsb (String.eqb status) KANBAN_STATUSES then Some [] else None.
Proof.
  simpl. rewrite !lookup_insert, lookup_empty.
  repeat match goal with
         | |- context [decide (?a = status)] =>
             destruct (decide (a = status)) as [<-|?]; [reflexivity|]
         end.
  repeat match goal with
         | H : ?a <> status |- _ =>
             let E := fresh in
             assert (String.eqb status a = false) as E by (apply String.eqb_neq; congruence);
             rewrite E; clear H E
         end.
  reflexivity.
Qed.

(** X12.  The board shows a task exactly when its status is one of the four
    kanban statuses, in the column of that status, and the columns keep
    the order of the task list: the column of a kanban status holds the
    tasks of that status, and there is no column for any other status. *)
Theorem tasks_by_status_columns (tasks : list Task.t) (status : string) :
  tasks_by_status tasks !! status =
    if existsb (String.eqb status) KANBAN_STATUSES
    then Some (List.filter (fun t => String.eqb (Task.status t) status) tasks)
    else None.
Proof.
  unfold tasks_by_status.
  induction tasks as [|t tasks IH] using rev_ind; [apply kanban_columns_empty|].
  rewrite fold_left_app, List.filter_app. cbn [fold_left List.filter].
  destruct (String.eqb_spec (Task.status t) status) as [<-|Hne].
  - destruct (existsb (String.eqb (Task.status t)) KANBAN_STATUSES) eqn:Ek.
    + rewrite lookup_insert_eq, IH. reflexivity.
    + rewrite IH. reflexivity.
  - rewrite app_nil_r.
    destruct (existsb (String.eqb (Task.status t)) KANBAN_STATUSES); [|exact IH].
    rewrite lookup_insert_ne by exact Hne. exact IH.
Qed.

(** ** The dependency option of the "Create Task" form *)

Lemma append_cons c (s1 s2 : string) : (String c s1 ++ s2 = String c (s1 ++ s2))%string.
Proof. reflexivity. Qed.

Lemma append_nil (s : string) : ("" ++ s = s)%string.
Proof. reflexivity. Qed.

Lemma digit_cases c :
  digit c = true -> Ascii.eqb c ":" = false /\ c <> "T"%char.
Proof.
  unfold digit. rewrite existsb_exists. intros (d & Hd & E).
  apply Ascii.eqb_eq in E. subst d.
  simpl in Hd. repeat (destruct Hd as [<-|Hd]; [split; [reflexivity|discriminate]|]).
  destruct Hd.
Qed.

Lemma numeric_string_of_uint d :
  numeric (DecimalString.NilEmpty.string_of_uint d) = true.
Proof. induction d; simpl; auto. Qed.

Lemma numeric_str_int k : numeric (str_int k) = true.
Proof.
  unfold str_int. destruct (Z.to_int k); simpl; apply numeric_string_of_uint.
Qed.

Lemma before_colon_numeric s rest :
  numeric s = true -> before_colon (s ++ String ":" rest) = s.
Proof.
  induction s as [|c s IH]; simpl; [reflexivity|].
  intros [Hc Hs]%andb_true_iff. destruct (digit_cases c Hc) as [-> _].
  rewrite IH by exact Hs. reflexivity.
Qed.

Lemma replace_from_numeric s :
  numeric s = true -> replace_from "Task #" "" 0 s = s.
Proof.
  induction s as [|c s IH]; [reflexivity|].
  cbn [numeric]. intros [Hc Hs]%andb_true_iff. destruct (digit_cases c Hc) as [_ Hne].
  cbn [replace_from String.prefix].
  destruct (ascii_dec "T" c) as [E|_]; [symmetry in E; contradiction|].
  rewrite IH by exact Hs. reflexivity.
Qed.

Lemma replace_label s :
  replace "Task #" "" (String "T" (String "a" (String "s" (String "k" (String " " (String "#" s)))))) =
    replace_from "Task #" "" 0 s.
Proof. destruct s; reflexivity. Qed.

Lemma py_int_str_int k : py_int (str_int k) = Some k.
Proof.
  unfold py_int, str_int. rewrite DecimalString.NilEmpty.isi.
  rewrite <- (DecimalZ.of_to k) at 2.
  destruct k as [|p|p]; [reflexivity| |]; cbn [Z.to_int];
    pose proof (DecimalPos.Unsigned.to_uint_nonnil p) as Hn;
    destruct (Pos.to_uint p); (contradiction || reflexivity).
Qed.

(** X13.  An option of "Depends on" is read back to the key of its task:
    for a stored task [t] with key [k], the label [Task #k: title] gives
    [k] again, whatever the title is (a colon or the words [Task #] in it
    do no harm), and the "Create Task" button with this option stores,
    under the next key, a task whose [dependency_task_id] is [k]. *)
Theorem dependency_option_round_trip (t : Task.t) (k : Z) (now : datetime)
    (task_title task_desc task_priority : string) (task_estimate : Q)
    (selected_project_id assigned_to_id sprint_id : option Z) (db : Store) :
  Task.id t = Some k ->
  task_title <> "" ->
  let r := create_task EngineOk now task_title task_desc task_priority task_estimate
             selected_project_id assigned_to_id sprint_id (dependency_label t) db in
  dependency_id (dependency_label t) = Some (Some k) /\
  fst r = TaskCreated /\
  read_by_id MTask (next_id (tasks db)) (snd r) =
    Some (ETask (Task.mk (Some (next_id (tasks db))) task_title (Some task_desc) "To Do"
                   task_priority task_estimate (Some k) sprint_id selected_project_id
                   assigned_to_id now)).
Proof.
  intros Hid Htitle r.
  assert (dependency_id (dependency_label t) = Some (Some k)) as Hdep.
  { unfold dependency_id, dependency_label. rewrite Hid.
    rewrite !append_cons, !append_nil.
    cbn [String.eqb Ascii.eqb Bool.eqb negb andb].
    cbn [before_colon Ascii.eqb Bool.eqb andb].
    rewrite before_colon_numeric by apply numeric_str_int.
    rewrite replace_label.
    rewrite replace_from_numeric by apply numeric_str_int.
    rewrite py_int_str_int. reflexivity. }
  split; [exact Hdep|].
  subst r. unfold create_task. rewrite Hdep.
  assert (nonempty task_title = true) as ->.
  { unfold nonempty. apply negb_true_iff, String.eqb_neq, Htitle. }
  cbn [negb]. rewrite create_new_row by reflexivity.
  unfold clean. cbn [fst snd committed].
  split; [reflexivity|].
  rewrite read_by_id_get. simpl.
  rewrite get_app_fresh; [reflexivity|reflexivity|apply next_id_fresh].
Qed.

Lemma dependency_option_round_trip_witness :
  let r := create_task EngineOk boot "Review follow-up" "" "Low" 1
             (Some 1) (Some 3) None (dependency_label follow_up) seeded in
  dependency_id (dependency_label follow_up) = Some (Some 12) /\
  fst r = TaskCreated /\
  read_by_id MTask (next_id (tasks seeded)) (snd r) =
    Some (ETask (Task.mk (Some (next_id (tasks seeded))) "Review follow-up" (Some "") "To Do"
                   "Low" 1 (Some 12) None (Some 1) (Some 3) boot)).
Proof.
  exact (dependency_option_round_trip follow_up 12 boot "Review follow-up" "" "Low" 1
           (Some 1) (Some 3) None seeded eq_refl ltac:(discriminate)).
Defined.

(** ** The demo data of a first start *)

Lemma flush_one_leaves m db w db' :
  flush_one db w = inr db' -> leaves m w -> table m db' = table m db.
Proof.
  intros Hflush Hw. destruct w as [e|e|e]; simpl in Hflush, Hw; [| |contradiction].
  - destruct e as [u|p|t|l|r|s]; unfold flush_insert in Hflush;
      try destruct (unique_violation None u (users db)); try discriminate;
      match type of Hflush with
      | context [add_row ?x ?rows] => destruct (add_row x rows)
      end; try discriminate; injection Hflush as <-;
      destruct m; try reflexivity; contradiction.
  - destruct e as [u|p|t|l|r|s]; unfold flush_update in Hflush;
      try destruct (unique_violation (User.id u) u (users db)); try discriminate;
      match type of Hflush with
      | context [save_row ?x ?rows] => destruct (save_row x rows)
      end; try discriminate; injection Hflush as <-;
      destruct m; try reflexivity; contradiction.
Qed.

Lemma flush_leaves m ws db db' :
  flush ws db = inr db' -> Forall (leaves m) ws -> table m db' = table m db.
Proof.
  revert db. induction ws as [|w ws IH]; intros db Hflush Hws; simpl in Hflush.
  - injection Hflush as <-. reflexivity.
  - destruct (flush_one db w) as [e|db1] eqn:E1; [discriminate|]. simpl in Hflush.
    inversion Hws as [|? ? Hw Hws']; subst.
    rewrite (IH db1 Hflush Hws'). exact (flush_one_leaves m db w db1 E1 Hw).
Qed.

Lemma seed_commit_leaves m io ws db db' :
  seed_commit io ws db = inr db' -> Forall (leaves m) ws -> table m db' = table m db.
Proof.
  unfold seed_commit, commit. destruct io; [|discriminate]. cbn [work committed].
  destruct (flush ws db) as [e|db1] eqn:E; [discriminate|]. cbn [bind_raises clean committed].
  intros [= <-]. exact (flush_leaves m ws db db1 E).
Qed.

Lemma seed_commit_raises io ws db e db' :
  seed_commit io ws db = inl (e, db') -> db' = db.
Proof.
  unfold seed_commit. destruct (commit io _); [|discriminate]. intros [= _ <-]. reflexivity.
Qed.

Lemma map_entity_inj {A : Type} (E : A -> entity) (l1 l2 : list A) :
  (forall a b, E a = E b -> a = b) -> map E l1 = map E l2 -> l1 = l2.
Proof.
  intros Hinj. revert l2. induction l1 as [|a l1 IH]; intros [|b l2]; simpl; try discriminate.
  - reflexivity.
  - intros [= Hab Hl]. f_equal; [exact (Hinj a b Hab)|exact (IH l2 Hl)].
Qed.

Lemma table_users db db' : table MUser db' = table MUser db -> users db' = users db.
Proof. apply map_entity_inj. intros a b [= ->]. reflexivity. Qed.


Lemma find_app_none {A : Type} (P : A -> bool) (l1 l2 : list A) :
  List.find P l1 = None -> List.find P (l1 ++ l2) = List.find P l2.
Proof.
  induction l1 as [|a l1 IH]; simpl; [reflexivity|].
  destruct (P a); [discriminate|exact IH].
Qed.

Lemma seed_users_outcome hash_password now io db :
  match seed_users hash_password now io db with
  | inr db' =>
      get_user_by_username "admin" db' <> None /\ projects db' = projects db
  | inl (_, db') => db' = db
  end.
Proof.
  unfold seed_users. destruct (get_user_by_username "admin" db) eqn:Eadmin.
  - split; [rewrite Eadmin; discriminate|reflexivity].
  - unfold seed_commit, commit. destruct (io 0%nat); [|reflexivity].
    cbn [work committed flush flush_one]. unfold flush_insert at 1.
    destruct (unique_violation None _ (users db)); [reflexivity|].
    rewrite add_row_new by reflexivity. cbn [bind_raises].
    unfold flush_insert at 1.
    destruct (unique_violation None _ _); [reflexivity|].
    rewrite add_row_new by reflexivity. cbn [bind_raises].
    unfold flush_insert at 1.
    destruct (unique_violation None _ _); [reflexivity|].
    rewrite add_row_new by reflexivity. cbn [bind_raises clean committed].
    split; [|reflexivity].
    unfold get_user_by_username in *. cbn [users set_users].
    rewrite <- !app_assoc. rewrite find_app_none by exact Eadmin.
    simpl. discriminate.
Qed.

Ltac seed_id_step :=
  lazymatch goal with
  | |- context [bind_seeding (id_of ?u ?db) _] =>
      destruct u; cbn [id_of bind_seeding store_after]
  end.

Ltac seed_commit_step m :=
  lazymatch goal with
  | |- context [bind_seeding (seed_commit ?io ?ws ?db) _] =>
      let E := fresh "E" in
      let e := fresh "e" in
      let d := fresh "d" in
      destruct (seed_commit io ws db) as [[e d]|d] eqn:E; cbn [bind_seeding store_after];
      [apply seed_commit_raises in E; subst d
      |apply (seed_commit_leaves m) in E; [|repeat constructor; simpl; discriminate]]
  end.

Ltac seed_last_step m :=
  lazymatch goal with
  | |- context [seed_commit ?io ?ws ?db] =>
      let E := fresh "E" in
      let e := fresh "e" in
      let d := fresh "d" in
      destruct (seed_commit io ws db) as [[e d]|d] eqn:E; cbn [store_after];
      [apply seed_commit_raises in E; subst d
      |apply (seed_commit_leaves m) in E; [|repeat constructor; simpl; discriminate]]
  end.

Lemma seed_demo_users now io db :
  users (store_after (seed_demo now io db)) = users db.
Proof.
  unfold seed_demo. destruct (projects db) eqn:Eprojects; [|reflexivity].
  unfold inserted. cbn zeta.
  seed_id_step; [|reflexivity].
  seed_id_step; [|reflexivity].
  seed_commit_step MUser; [reflexivity|]. apply table_users in E.
  seed_commit_step MUser; [exact E|]. apply table_users in E0. rewrite E in E0.
  seed_id_step; [|exact E0].
  seed_commit_step MUser; [exact E0|]. apply table_users in E1. rewrite E0 in E1.
  seed_commit_step MUser; [exact E1|]. apply table_users in E2. rewrite E1 in E2.
  seed_last_step MUser; [exact E2|]. apply table_users in E3. rewrite E2 in E3.
  exact E3.
Qed.








Ltac seed_raise_step H :=
  lazymatch type of H with
  | table ?m _ = _ =>
      lazymatch goal with
      | |- context [bind_seeding (seed_commit ?io ?ws ?db) _] =>
          let E := fresh "E" in
          let e := fresh "e" in
          let d := fresh "d" in
          destruct (seed_commit io ws db) as [[e d]|d] eqn:E; cbn [bind_seeding];
          [apply seed_commit_raises in E; subst d; intros [= _ <-]; exact H
          |apply (seed_commit_leaves m) in E; [|repeat constructor; simpl; discriminate];
           apply (fun E => eq_trans E H) in E; clear H; rename E into H]
      | |- context [bind_seeding (id_of ?u ?db) _] =>
          destruct u; cbn [id_of bind_seeding]; [|intros [= _ <-]; exact H]
      end
  end.

Lemma seed_demo_raised m now io db e db' :
  m = MRisk \/ m = MTimeLog ->
  seed_demo now io db = inl (e, db') -> table m db' = table m db.
Proof.
  intros Hm. unfold seed_demo. destruct (projects db) eqn:Eprojects; [|discriminate].
  unfold inserted. cbn zeta.
  assert (table m db = table m db) as H by reflexivity.
  destruct Hm as [-> | ->]; do 7 seed_raise_step H;
    intros E; apply seed_commit_raises in E; subst db'; exact H.
Qed.

Lemma seed_users_leaves m hash_password now io db db' :
  m <> MUser -> seed_users hash_password now io db = inr db' -> table m db' = table m db.
Proof.
  intros Hm. unfold seed_users. destruct (get_user_by_username "admin" db).
  - intros [= <-]. reflexivity.
  - intros E. apply (seed_commit_leaves m) in E; [exact E|].
    repeat constructor; simpl; congruence.
Qed.

Lemma table_risks db db' : table MRisk db' = table MRisk db -> risks db' = risks db.
Proof. apply map_entity_inj. intros a b [= ->]. reflexivity. Qed.

Lemma table_time_logs db db' :
  table MTimeLog db' = table MTimeLog db -> time_logs db' = time_logs db.
Proof. apply map_entity_inj. intros a b [= ->]. reflexivity. Qed.

(** X15.  A first start that raises after the projects are committed is
    never made good: every later run of the seed sees the projects, adds
    nothing and returns the store as it is, so that the risk and the time
    log of the demo data, which the last commit would have added, are
    never stored. *)
Theorem seed_is_not_resumed (hash_password hash_password' : string -> string)
    (now now' : nat -> datetime) (io io' : nat -> engine) (db db' : Store)
    (e : seed_error) :
  projects db = [] ->
  _seed_initial_data hash_password now io db = inl (e, db') ->
  projects db' <> [] ->
  _seed_initial_data hash_password' now' io' db' = inr db' /\
  risks db' = risks db /\
  time_logs db' = time_logs db.
Proof.
  unfold _seed_initial_data. intros Hfresh Hrun Hprojects.
  pose proof (seed_users_outcome hash_password now io db) as Husers.
  destruct (seed_users hash_password now io db) as [[e1 d1]|db1] eqn:Eusers.
  - cbn [bind_seeding] in Hrun. injection Hrun as _ <-. subst d1. contradiction.
  - cbn [bind_seeding] in Hrun. destruct Husers as [Hadmin _].
    pose proof (seed_demo_users now io db1) as Hkept. rewrite Hrun in Hkept.
    cbn [store_after] in Hkept.
    split.
    + unfold seed_users, get_user_by_username. rewrite Hkept.
      unfold get_user_by_username in Hadmin.
      destruct (List.find _ (users db1)); [|contradiction].
      cbn [bind_seeding]. unfold seed_demo. destruct (projects db'); [contradiction|reflexivity].
    + split.
      * apply table_risks.
        rewrite (seed_demo_raised MRisk now io db1 e db' (or_introl eq_refl) Hrun).
        apply (seed_users_leaves MRisk hash_password now io db db1); [discriminate|exact Eusers].
      * apply table_time_logs.
        rewrite (seed_demo_raised MTimeLog now io db1 e db' (or_intror eq_refl) Hrun).
        apply (seed_users_leaves MTimeLog hash_password now io db db1); [discriminate|exact Eusers].
Qed.

Lemma seed_is_not_resumed_witness :
  _seed_initial_data demo_hash (fun _ => boot) tasks_commit_fails empty_store =
    inl (CommitRaises OperationalError, half_seeded) /\
  _seed_initial_data demo_hash (fun _ => boot) (fun _ => EngineOk) half_seeded =
    inr half_seeded /\
  risks half_seeded = risks empty_store /\
  time_logs half_seeded = time_logs empty_store.
Proof.
  split; [reflexivity|].
  exact (seed_is_not_resumed demo_hash demo_hash (fun _ => boot) (fun _ => boot)
           tasks_commit_fails (fun _ => EngineOk) empty_store half_seeded
           (CommitRaises OperationalError) eq_refl eq_refl ltac:(discriminate)).
Defined.

(** ** Move & Log: the other cases *)

Lemma replace_row_same {A : Type} `{Row A} k x (rows : list A) :
  primary_key rows = true -> get k rows = Some x -> replace_row k x rows = rows.
Proof.
  intros Hpk Hget. destruct (get_Some k rows x Hget) as [Hid Hin].
  unfold replace_row. rewrite <- (map_id rows) at 2. apply map_ext_in.
  intros r Hr. destruct (is_id k (row_id r)) eqn:E; [|reflexivity].
  apply is_id_true in E. apply (primary_key_unique rows x r Hpk Hin Hr). congruence.
Qed.

Lemma set_tasks_same db : set_tasks (fun _ => tasks db) db = db.
Proof. destruct db; reflexivity. Qed.

Lemma Qlt_Qle_bool (q : Q) : (0 < q)%Q -> Qle_bool q 0 = false.
Proof. apply Qle_bool_false_lt. Qed.

(** X16.  When the engine fails during the insert of the TimeLog, the
    rollback of [create] also drops the pending status of the card's task;
    the [update] that follows then has nothing to write and returns True.
    The page reports the move and the hours as done, and the store is
    exactly what it was: nothing has moved and nothing is logged. *)
Theorem move_reported_though_nothing_written (now : datetime) (user_id : option Z)
    (k : Z) (new_status : string) (hours_to_log : Q) (task : Task.t) (db : Store) :
  stored db = true ->
  get k (tasks db) = Some task ->
  (0 < hours_to_log)%Q ->
  exists r,
    move_and_log EngineFails EngineOk now user_id k new_status hours_to_log db = Some r /\
    logged r = Some false /\ updated r = true /\ after r = db.
Proof.
  intros Hs Hget Hpos. apply Qlt_Qle_bool in Hpos.
  apply stored_iff in Hs as (_ & _ & Hpk & _).
  destruct (get_Some k (tasks db) task Hget) as [Hid _].
  pose proof (get_has_id k (tasks db) task Hget) as Hhas.
  unfold move_and_log. rewrite Hget, Hpos. cbn [negb].
  unfold create, commit, rollback, session_modify, clean. cbn [committed].
  unfold task_object. cbn [work rev List.find committed]. rewrite Hget.
  unfold update, session_merge, persisted, known. cbn [committed].
  rewrite Hid, Hhas. unfold commit, session_modify. cbn [work committed app flush flush_one].
  unfold flush_update, save_row. rewrite Hid, Hhas. cbn [bind_raises].
  eexists. split; [reflexivity|]. cbn [logged updated after clean committed].
  split; [reflexivity|]. split; [reflexivity|].
  rewrite (replace_row_same k task (tasks db) Hpk Hget). apply set_tasks_same.
Qed.

Lemma move_reported_though_nothing_written_witness :
  exists r,
    move_and_log EngineFails EngineOk boot (Some 3) 1 "Done" (5 # 2) seeded = Some r /\
    logged r = Some false /\ updated r = true /\ after r = seeded.
Proof.
  exact (move_reported_though_nothing_written boot (Some 3) 1 "Done" (5 # 2) task1 seeded
           eq_refl eq_refl eq_refl).
Defined.

Lemma move_and_log_no_hours (io_log io_task : engine) (now : datetime)
    (user_id : option Z) (k : Z) (new_status : string) (hours_to_log : Q)
    (task : Task.t) (db : Store) :
  get k (tasks db) = Some task ->
  Qle_bool hours_to_log 0 = true ->
  move_and_log io_log io_task now user_id k new_status hours_to_log db =
    Some match io_task with
         | EngineOk =>
             mk_moved None true (set_tasks (replace_row k (with_status new_status task)) db)
         | EngineFails => mk_moved None false db
         end.
Proof.
  intros Hget Hle.
  destruct (get_Some k (tasks db) task Hget) as [Hid _]. simpl in Hid.
  pose proof (get_has_id k (tasks db) task Hget) as Hhas.
  set (task' := with_status new_status task).
  assert (row_id task' = Some k) as Hid' by exact Hid.
  unfold move_and_log. rewrite Hget, Hle. cbn [negb]. fold task'.
  unfold task_object, session_modify, clean. cbn [work committed app rev List.find].
  assert (Task.id task' = Some k) as Hkey by exact Hid.
  rewrite Hkey. cbn [is_id]. rewrite Z.eqb_refl.
  unfold update, session_merge, persisted, known. cbn [committed].
  rewrite Hid', Hhas. unfold commit, session_modify, rollback. cbn [work committed app].
  destruct io_task; [|reflexivity].
  cbn [flush flush_one]. unfold flush_update, save_row. rewrite Hid', Hhas. cbn [bind_raises].
  unfold set_tasks at 1. cbn [tasks].
  rewrite (has_id_replace_row k k task' (tasks db) Hid'), Hhas. cbn [bind_raises].
  cbn [clean committed]. unfold set_tasks. cbn [users projects tasks time_logs risks sprints].
  rewrite (replace_row_again k task' (tasks db) Hid'). reflexivity.
Qed.

(** X17.  A move with no hours to log (the default of the card) creates no
    TimeLog.  When the engine works the task gets the new status and every
    other table is as before; when the engine fails during the update the
    page shows the error and the store is unchanged. *)
Theorem move_without_hours (io_log io_task : engine) (now : datetime)
    (user_id : option Z) (k : Z) (new_status : string) (hours_to_log : Q)
    (task : Task.t) (db : Store) :
  get k (tasks db) = Some task ->
  (hours_to_log <= 0)%Q ->
  exists r,
    move_and_log io_log io_task now user_id k new_status hours_to_log db = Some r /\
    logged r = None /\
    match io_task with
    | EngineOk =>
        updated r = true /\
        after r = set_tasks (replace_row k (with_status new_status task)) db
    | EngineFails => updated r = false /\ after r = db
    end.
Proof.
  intros Hget Hle. apply Qle_bool_iff in Hle.
  eexists. split.
  - exact (move_and_log_no_hours io_log io_task now user_id k new_status hours_to_log
             task db Hget Hle).
  - destruct io_task; cbn [logged updated after]; split; [reflexivity|split; reflexivity
                                                         |reflexivity|split; reflexivity].
Qed.

Lemma move_without_hours_witness :
  exists r,
    move_and_log EngineOk EngineOk boot (Some 3) 1 "In Review" 0 seeded = Some r /\
    logged r = None /\
    updated r = true /\
    after r = set_tasks (replace_row 1 (with_status "In Review" task1)) seeded.
Proof.
  exact (move_without_hours EngineOk EngineOk boot (Some 3) 1 "In Review" 0 task1 seeded
           eq_refl ltac:(discriminate)).
Defined.

(** ** Work breakdown structure: what is shown *)

Lemma dependent_ids_none project_tasks k :
  forallb (fun t => negb (truthy (Task.dependency_task_id t))) project_tasks = true ->
  k ∉ dependent_ids project_tasks.
Proof.
  intros Hfree Hin. apply in_dependent_ids in Hin as (Hnz & t & Ht & Hdep).
  rewrite forallb_forall in Hfree. specialize (Hfree t Ht).
  rewrite Hdep in Hfree. simpl in Hfree. apply negb_true_iff in Hfree.
  apply negb_false_iff in Hfree. apply Z.eqb_eq in Hfree. contradiction.
Qed.

Lemma filter_everything {A : Type} (P : A -> bool) (l : list A) :
  (forall x, In x l -> P x = true) -> List.filter P l = l.
Proof.
  induction l as [|a l IH]; intros Hall; [reflexivity|]. simpl.
  rewrite (Hall a (or_introl eq_refl)). f_equal. apply IH. intros x Hx. apply Hall. right. exact Hx.
Qed.

(** X18.  Tasks without any dependency are all shown: when no task of the
    project refers to another, every task is a top-level line, in the
    order of the list and without children. *)
Theorem wbs_of_independent_tasks (fuel : nat) (project_tasks : list Task.t) :
  project_tasks <> [] ->
  forallb (fun t => truthy (Task.id t)) project_tasks = true ->
  forallb (fun t => negb (truthy (Task.dependency_task_id t))) project_tasks = true ->
  wbs (S fuel) project_tasks = Some (WbsForest (map (fun t => Node 0 t []) project_tasks)).
Proof.
  intros Hne Hkeys Hfree. rewrite (wbs_flat fuel project_tasks Hkeys). unfold flat_view.
  assert (top_level_tasks project_tasks = project_tasks) as ->.
  { unfold top_level_tasks. apply filter_everything. intros t Ht.
    rewrite forallb_forall in Hfree. rewrite (Hfree t Ht), andb_true_r.
    apply negb_true_iff. unfold in_ids. destruct (Task.id t) as [k|]; [|reflexivity].
    apply bool_decide_eq_false. apply dependent_ids_none. apply forallb_forall. exact Hfree. }
  destruct project_tasks; [contradiction|reflexivity].
Qed.

Lemma wbs_of_independent_tasks_witness :
  wbs 1 [task2; task3] = Some (WbsForest [Node 0 task2 []; Node 0 task3 []]).
Proof.
  exact (wbs_of_independent_tasks 0 [task2; task3] ltac:(discriminate) eq_refl eq_refl).
Defined.

(** X19.  The warning "No clear top-level tasks or dependencies found" is
    shown exactly when the project has tasks and each of them takes part
    in a dependency: it refers to a task, or its key is referred to. *)
Theorem wbs_warning_iff (fuel : nat) (project_tasks : list Task.t) :
  wbs fuel project_tasks = Some WbsNoTopLevel <->
  project_tasks <> [] /\
  forall t, In t project_tasks ->
    truthy (Task.dependency_task_id t) = true \/
    in_ids (Task.id t) (dependent_ids project_tasks) = true.
Proof.
  assert (top_level_tasks project_tasks = [] <->
          forall t, In t project_tasks ->
            truthy (Task.dependency_task_id t) = true \/
            in_ids (Task.id t) (dependent_ids project_tasks) = true) as Htop.
  { split.
    - intros Hnone t Ht.
      destruct (truthy (Task.dependency_task_id t)) eqn:Edep; [left; reflexivity|].
      destruct (in_ids (Task.id t) (dependent_ids project_tasks)) eqn:Eids; [right; reflexivity|].
      exfalso. assert (In t (top_level_tasks project_tasks)) as Hin.
      { apply top_level_tasks_spec. auto. }
      rewrite Hnone in Hin. exact Hin.
    - intros Hall. destruct (top_level_tasks project_tasks) as [|t tops] eqn:E; [reflexivity|].
      exfalso. assert (In t (top_level_tasks project_tasks)) as Hin by (rewrite E; left; reflexivity).
      apply top_level_tasks_spec in Hin as (Ht & Hids & Hdep).
      destruct (Hall t Ht) as [H|H]; congruence. }
  rewrite <- Htop. split.
  - unfold wbs. destruct project_tasks as [|t0 rest] eqn:E; [discriminate|]. rewrite <- E in *.
    destruct (top_level_tasks project_tasks) as [|t tops].
    + intros _. split; [rewrite E; discriminate|reflexivity].
    + destruct (mapM _ _); discriminate.
  - intros [Hne Hnone]. apply wbs_no_top_level; assumption.
Qed.

(** ** From the card to the time report *)

Lemma log_row_of_moved now user_id k new_status hours_to_log task db log :
  get k (tasks db) = Some task ->
  log_row_of (moved_store now user_id k new_status hours_to_log task db) log =
    log_row_of db log.
Proof.
  intros Hget. destruct (get_Some k (tasks db) task Hget) as [Hid _].
  pose proof (get_has_id k (tasks db) task Hget) as Hhas.
  set (task' := with_status new_status task).
  assert (row_id task' = Some k) as Hid' by exact Hid.
  unfold log_row_of, moved_store. fold task'. cbn [users projects tasks set_time_logs set_tasks].
  destruct (TimeLog.user_id log ≫= _) as [user|]; [|reflexivity]. cbn [mbind option_bind].
  destruct (TimeLog.task_id log) as [j|]; [|reflexivity]. cbn [mbind option_bind].
  destruct (Z.eq_dec j k) as [->|Hne].
  - rewrite (get_replace_row k task' (tasks db) Hid' Hhas), Hget. reflexivity.
  - rewrite (get_replace_row_other j k task' (tasks db) Hid' Hne). reflexivity.
Qed.

Lemma mapM_snoc {A B : Type} (f : A -> option B) (l : list A) (x : A) ys y :
  mapM f l = Some ys -> f x = Some y -> mapM f (l ++ [x]) = Some (ys ++ [y]).
Proof.
  rewrite !mapM_Some. intros Hl Hx. apply Forall2_app; [exact Hl|].
  constructor; [exact Hx|constructor].
Qed.

(** X20.  Hours logged on a card show up in the time report.  For a task
    of an existing project and a logged-in user of the store, after a Move
    & Log with hours the report has one more row, with the user's name,
    the task and its project, the hours and the day; the rows it had are
    the same (the new status of the task does not change them), and the
    weekly total of that user for that week has grown by the hours. *)
Theorem logged_hours_reach_the_report (now : datetime) (u k p : Z)
    (new_status : string) (hours_to_log : Q) (task : Task.t) (user : User.t)
    (project : Project.t) (rows : list log_row) (db : Store) :
  get k (tasks db) = Some task ->
  Task.project_id task = Some p ->
  get p (projects db) = Some project ->
  get u (users db) = Some user ->
  (0 < hours_to_log)%Q ->
  log_data db = Some rows ->
  let row := mk_log_row (User.username user) (Some k) (Task.title task)
               (Project.name project) hours_to_log (dt_ordinal now) in
  exists r,
    move_and_log EngineOk EngineOk now (Some u) k new_status hours_to_log db = Some r /\
    log_data (after r) = Some (rows ++ [row]) /\
    weekly_logged_hours (after r) =
      WeeklyHours
        (<[week_key row :=
             (default 0%Q (weekly_summary rows !! week_key row) + hours_to_log)%Q]>
           (weekly_summary rows)).
Proof.
  intros Hget Hproject Hp Hu Hpos Hrows row.
  apply Qle_bool_false_lt in Hpos.
  destruct (get_Some k (tasks db) task Hget) as [Hid _]. simpl in Hid.
  pose proof (get_has_id k (tasks db) task Hget) as Hhas.
  assert (row_id (with_status new_status task) = Some k) as Hid' by exact Hid.
  eexists. split; [exact (move_and_log_logged EngineOk now (Some u) k new_status
                            hours_to_log task db Hget Hpos)|].
  cbn [after].
  set (db' := moved_store now (Some u) k new_status hours_to_log task db).
  assert (log_data db' = Some (rows ++ [row])) as Hdata.
  { unfold log_data. unfold db' at 2, moved_store. cbn [time_logs set_time_logs set_tasks].
    apply mapM_snoc.
    - rewrite <- Hrows. unfold log_data. apply mapM_ext. intros log.
      apply log_row_of_moved. exact Hget.
    - unfold log_row_of, db', moved_store.
      cbn [users projects tasks set_time_logs set_tasks TimeLog.user_id TimeLog.task_id
           TimeLog.hours TimeLog.log_date mbind option_bind].
      rewrite Hu. cbn [mbind option_bind].
      rewrite (get_replace_row k (with_status new_status task) (tasks db) Hid' Hhas).
      cbn [mbind option_bind with_status Task.project_id]. rewrite Hproject.
      cbn [mbind option_bind]. rewrite Hp. cbn [mbind option_bind with_status Task.id Task.title].
      rewrite Hid. reflexivity. }
  split; [exact Hdata|].
  unfold weekly_logged_hours. rewrite Hdata.
  unfold db' at 1, moved_store. cbn [time_logs set_time_logs set_tasks].
  destruct (time_logs db ++ _) eqn:E; [destruct (time_logs db); discriminate|].
  rewrite weekly_summary_snoc. reflexivity.
Qed.

Lemma logged_hours_reach_the_report_witness :
  let rows := default [] (log_data seeded) in
  let row := mk_log_row "member" (Some 1) "Implement Kanban View" "Tool Core Development"
               (5 # 2) 738886 in
  exists r,
    move_and_log EngineOk EngineOk boot (Some 3) 1 "Done" (5 # 2) seeded = Some r /\
    log_data (after r) = Some (rows ++ [row]) /\
    weekly_logged_hours (after r) =
      WeeklyHours
        (<[week_key row := (default 0%Q (weekly_summary rows !! week_key row) + (5 # 2))%Q]>
           (weekly_summary rows)).
Proof.
  exact (logged_hours_reach_the_report boot 3 1 1 "Done" (5 # 2) task1 member proj_core
           (default [] (log_data seeded)) seeded eq_refl eq_refl eq_refl eq_refl eq_refl
           eq_refl).
Defined.

(** ** Move & Log touches its own card only *)

(** The stores a Move & Log can leave. *)
Lemma move_and_log_outcomes io_log io_task now user_id k new_status hours_to_log db r :
  move_and_log io_log io_task now user_id k new_status hours_to_log db = Some r ->
  exists task,
    get k (tasks db) = Some task /\
    (after r = db \/
     after r = set_tasks (replace_row k task) db \/
     after r = set_tasks (replace_row k (with_status new_status task)) db \/
     after r = moved_store now user_id k new_status hours_to_log task db).
Proof.
  intros Hr. destruct (get k (tasks db)) as [task|] eqn:Hget.
  2:{ unfold move_and_log in Hr. rewrite Hget in Hr. discriminate. }
  exists task. split; [reflexivity|].
  destruct (Qle_bool hours_to_log 0) eqn:Hle.
  - rewrite (move_and_log_no_hours io_log io_task now user_id k new_status hours_to_log
               task db Hget Hle) in Hr.
    injection Hr as <-. destruct io_task; cbn [after]; auto.
  - destruct io_log.
    + rewrite (move_and_log_logged io_task now user_id k new_status hours_to_log task db
                 Hget Hle) in Hr.
      injection Hr as <-. cbn [after]. auto.
    + destruct io_task.
      * rewrite (move_and_log_log_fails now user_id k new_status hours_to_log task db
                   Hget Hle) in Hr.
        injection Hr as <-. auto.
      * rewrite (move_and_log_both_fail now user_id k new_status hours_to_log task db
                   Hget Hle) in Hr.
        injection Hr as <-. auto.
Qed.

(** X21.  Whatever becomes of the two writes of a Move & Log, it touches
    its own card only: every other task keeps its row, and the hours
    logged against every other task are what they were. *)
Theorem move_and_log_leaves_other_tasks (io_log io_task : engine) (now : datetime)
    (user_id : option Z) (k j : Z) (new_status : string) (hours_to_log : Q)
    (db : Store) (r : moved) :
  move_and_log io_log io_task now user_id k new_status hours_to_log db = Some r ->
  j <> k ->
  get j (tasks (after r)) = get j (tasks db) /\
  get_total_logged_hours j (after r) = get_total_logged_hours j db.
Proof.
  intros Hr Hne.
  destruct (move_and_log_outcomes _ _ _ _ _ _ _ _ _ Hr) as (task & Hget & Hafter).
  destruct (get_Some k (tasks db) task Hget) as [Hid _].
  assert (row_id (with_status new_status task) = Some k) as Hid' by exact Hid.
  destruct Hafter as [-> | [-> | [-> | ->]]].
  - split; reflexivity.
  - split; [|reflexivity]. cbn [tasks set_tasks].
    exact (get_replace_row_other j k task (tasks db) Hid Hne).
  - split; [|reflexivity]. cbn [tasks set_tasks].
    exact (get_replace_row_other j k _ (tasks db) Hid' Hne).
  - unfold moved_store. split.
    + cbn [tasks set_tasks set_time_logs].
      exact (get_replace_row_other j k _ (tasks db) Hid' Hne).
    + unfold get_total_logged_hours. cbn [time_logs set_tasks set_time_logs].
      rewrite List.filter_app. cbn [List.filter TimeLog.task_id is_id].
      destruct (Z.eqb_spec k j) as [->|_]; [contradiction|]. rewrite app_nil_r. reflexivity.
Qed.

Lemma move_and_log_leaves_other_tasks_witness :
  get 2 (tasks (moved_store boot (Some 3) 1 "Done" (5 # 2) task1 seeded)) = get 2 (tasks seeded) /\
  get_total_logged_hours 2 (moved_store boot (Some 3) 1 "Done" (5 # 2) task1 seeded) =
    get_total_logged_hours 2 seeded.
Proof.
  exact (move_and_log_leaves_other_tasks EngineOk EngineOk boot (Some 3) 1 2 "Done" (5 # 2)
           seeded (mk_moved (Some true) true (moved_store boot (Some 3) 1 "Done" (5 # 2) task1 seeded))
           eq_refl ltac:(discriminate)).
Defined.

(** ** The Gantt chart *)

(** X22.  For a task created on a day of the calendar, an estimate of a
    whole number [n > 0] of hours puts the end of the bar [n / 24] days
    (rounded down) after that day, when this is a day of the calendar, and
    raises OverflowError when it is not; with fewer than 24 hours the bar
    ends on the day it starts. *)
Theorem timeline_of_whole_hours (task : Task.t) (n : Z) :
  let start := dt_ordinal (Task.created_at task) in
  Task.estimate_hours task = inject_Z n ->
  0 < n ->
  0 < start <= MAXORDINAL ->
  timeline_dates task =
    (if start + n / 24 <=? MAXORDINAL then inr (start, start + n / 24)
     else inl OverflowError) /\
  (n < 24 -> timeline_dates task = inr (start, start)).
Proof.
  intros start Hest Hpos Hstart.
  assert (timeline_dates task =
          if start + n / 24 <=? MAXORDINAL then inr (start, start + n / 24)
          else inl OverflowError) as Hdates.
  { apply (timeline_dates_eval task (n / 24) Hstart); [apply Z.div_pos; lia|].
    rewrite Hest.
    assert (Qle_bool (inject_Z n) 0 = false) as ->.
    { apply Qle_bool_false_lt. unfold Qlt, inject_Z. simpl. lia. }
    cbn [negb]. apply timedelta_whole_hours. }
  split; [exact Hdates|].
  intros Hday. rewrite Hdates. rewrite Z.div_small by lia. rewrite Z.add_0_r.
  destruct (Z.leb_spec start MAXORDINAL); [reflexivity|lia].
Qed.

Lemma timeline_of_whole_hours_witness :
  timeline_dates task1 =
    (if 738886 + 8 / 24 <=? MAXORDINAL then inr (738886, 738886 + 8 / 24)
     else inl OverflowError) /\
  (8 < 24 -> timeline_dates task1 = inr (738886, 738886)).
Proof.
  exact (timeline_of_whole_hours task1 8 eq_refl eq_refl ltac:(vm_compute; split; congruence)).
Defined.

(** X23.  The chart of a project is never drawn: without tasks the
    function returns [None] (the page says there are no tasks), and with
    tasks it raises while it builds the row of the first one: the
    OverflowError of line 331 when the end of that task lies past the
    calendar, otherwise the AttributeError of [end.date()] on line 336. *)
Theorem gantt_chart_is_never_drawn (db : Store) (tasks : list Task.t) :
  get_gantt_chart db tasks =
    match tasks with
    | [] => None
    | task :: _ =>
        Some (inl match timeline_dates task with
                  | inl e => e
                  | inr _ => AttributeError "'datetime.date' object has no attribute 'date'"
                  end)
    end /\
  (forall rows, get_gantt_chart db tasks <> Some (inr rows)).
Proof.
  assert (get_gantt_chart db tasks =
          match tasks with
          | [] => None
          | task :: _ =>
              Some (inl match timeline_dates task with
                        | inl e => e
                        | inr _ =>
                            AttributeError "'datetime.date' object has no attribute 'date'"
                        end)
          end) as Hchart.
  { destruct tasks as [|task tasks]; [reflexivity|].
    unfold get_gantt_chart. cbn [fold_right]. rewrite gantt_row_of_raises. reflexivity. }
  split; [exact Hchart|].
  intros rows. rewrite Hchart. destruct tasks; discriminate.
Qed.

(** ** Sprint page *)

Lemma the_tasks_map (rows : list Task.t) : the_tasks (map ETask rows) = rows.
Proof. unfold the_tasks. induction rows as [|t rows IH]; simpl; [reflexivity|]. f_equal. exact IH. Qed.

Lemma the_tasks_filter (P : entity -> bool) (rows : list Task.t) :
  the_tasks (List.filter P (map ETask rows)) = List.filter (fun t => P (ETask t)) rows.
Proof.
  unfold the_tasks. induction rows as [|t rows IH]; simpl; [reflexivity|].
  destruct (P (ETask t)); simpl; [f_equal|]; exact IH.
Qed.

Lemma backlog_tasks_filter selected_project_id db :
  exists P : Task.t -> bool,
    (forall t target, P (with_sprint target t) = P t) /\
    forall db', sprints db' = sprints db ->
      backlog_tasks selected_project_id db' =
        List.filter (fun t => match task_sprint db t with Some _ => false | None => true end)
          (List.filter P (tasks db')).
Proof.
  unfold backlog_tasks, read_all.
  destruct (truthy selected_project_id && has_project_id MTask).
  - exists (fun t => match selected_project_id with
                     | Some k => is_id k (Task.project_id t)
                     | None => false
                     end).
    split; [reflexivity|]. intros db' Hs. cbn [table]. rewrite the_tasks_filter.
    unfold task_sprint. rewrite Hs. reflexivity.
  - exists (fun _ => true). split; [reflexivity|]. intros db' Hs. cbn [table].
    rewrite the_tasks_map. unfold task_sprint. rewrite Hs.
    rewrite (filter_everything (fun _ => true)) by reflexivity. reflexivity.
Qed.

Lemma assign_task_store task_to_assign target_sprint task db :
  get task_to_assign (tasks db) = Some task ->
  assign_task EngineOk task_to_assign target_sprint db =
    Some (true, set_tasks (replace_row task_to_assign (with_sprint target_sprint task)) db).
Proof.
  intros Hget. destruct (get_Some _ _ _ Hget) as [Hid _].
  pose proof (get_has_id _ _ _ Hget) as Hhas.
  set (task' := with_sprint target_sprint task).
  assert (row_id task' = Some task_to_assign) as Hid' by exact Hid.
  unfold assign_task. rewrite read_by_id_get, Hget. cbn [fmap option_fmap option_map]. fold task'.
  unfold update, session_merge, persisted, known, session_modify, clean. cbn [committed work].
  rewrite Hid', Hhas. unfold commit. cbn [work committed app flush flush_one].
  unfold flush_update, save_row. rewrite Hid', Hhas. cbn [bind_raises].
  unfold set_tasks at 1. cbn [tasks].
  rewrite (has_id_replace_row task_to_assign task_to_assign task' (tasks db) Hid'), Hhas.
  cbn [bind_raises clean committed]. unfold set_tasks.
  cbn [users projects tasks time_logs risks sprints].
  rewrite (replace_row_again task_to_assign task' (tasks db) Hid'). reflexivity.
Qed.

Lemma filter_replace_row_dropped (P N : Task.t -> bool) k x (rows : list Task.t) :
  N x = false ->
  List.filter N (List.filter P (replace_row k x rows)) =
    List.filter (fun t => negb (is_id k (Task.id t))) (List.filter N (List.filter P rows)).
Proof.
  intros Hx. unfold replace_row. induction rows as [|r rows IH]; [reflexivity|].
  cbn [map List.filter]. change (row_id r) with (Task.id r).
  destruct (is_id k (Task.id r)) eqn:Er.
  - destruct (P x); cbn [List.filter]; rewrite ?Hx;
      (destruct (P r); cbn [List.filter];
       [destruct (N r); cbn [List.filter]; rewrite ?Er; cbn [negb]|]); exact IH.
  - destruct (P r); cbn [List.filter]; [|exact IH].
    destruct (N r); cbn [List.filter]; [|exact IH].
    rewrite Er. cbn [negb]. f_equal. exact IH.
Qed.

(** X24.  "Move to Sprint" takes the task out of the backlog: for a stored
    task and an existing target sprint, while the engine works, the update
    returns True, the backlog of every project is afterwards the backlog
    it was without that task (the other tasks in their order), and the
    task, now referring to the sprint, is among the tasks of the sprint. *)
Theorem move_to_sprint_leaves_backlog (selected_project_id : option Z)
    (task_to_assign target_sprint : Z) (task : Task.t) (sprint : Sprint.t) (db : Store) :
  get task_to_assign (tasks db) = Some task ->
  get target_sprint (sprints db) = Some sprint ->
  exists db',
    assign_task EngineOk task_to_assign target_sprint db = Some (true, db') /\
    backlog_tasks selected_project_id db' =
      List.filter (fun t => negb (is_id task_to_assign (Task.id t)))
        (backlog_tasks selected_project_id db) /\
    In (with_sprint target_sprint task) (sprint_tasks db' sprint).
Proof.
  intros Hget Hsprint.
  destruct (get_Some _ _ _ Hget) as [Hid _].
  pose proof (get_has_id _ _ _ Hget) as Hhas.
  destruct (get_Some _ _ _ Hsprint) as [Hsid _].
  set (task' := with_sprint target_sprint task).
  assert (row_id task' = Some task_to_assign) as Hid' by exact Hid.
  eexists. split; [exact (assign_task_store task_to_assign target_sprint task db Hget)|].
  fold task'. split.
  - destruct (backlog_tasks_filter selected_project_id db) as (P & _ & Hbacklog).
    rewrite (Hbacklog db eq_refl), (Hbacklog (set_tasks (replace_row task_to_assign task') db) eq_refl).
    cbn [tasks set_tasks]. apply filter_replace_row_dropped.
    unfold task_sprint, task'. cbn [with_sprint Task.sprint_id]. rewrite Hsprint. reflexivity.
  - unfold sprint_tasks. change (Sprint.id sprint) with (row_id sprint). rewrite Hsid.
    cbn [tasks set_tasks]. apply List.filter_In. split.
    + pose proof (get_replace_row task_to_assign task' (tasks db) Hid' Hhas) as Hnew.
      apply get_Some in Hnew as [_ Hin]. exact Hin.
    + unfold task'. cbn [with_sprint Task.sprint_id is_id]. apply Z.eqb_refl.
Qed.

Lemma move_to_sprint_leaves_backlog_witness :
  exists db',
    assign_task EngineOk 2 1 seeded = Some (true, db') /\
    backlog_tasks (Some 1) db' =
      List.filter (fun t => negb (is_id 2 (Task.id t))) (backlog_tasks (Some 1) seeded) /\
    In (with_sprint 1 task2) (sprint_tasks db' sprint_1).
Proof.
  exact (move_to_sprint_leaves_backlog (Some 1) 2 1 task2 sprint_1 seeded eq_refl eq_refl).
Defined.

(** ** Administration page *)

Lemma get_In {A : Type} `{Row A} k x (rows : list A) :
  primary_key rows = true -> In x rows -> row_id x = Some k -> get k rows = Some x.
Proof.
  intros Hpk Hin Hid. destruct (get k rows) as [y|] eqn:E.
  - destruct (get_Some k rows y E) as [Hy Hiny].
    f_equal. apply (primary_key_unique rows y x Hpk Hiny Hin). congruence.
  - exfalso. apply get_None in E. exact (proj1 (has_id_false k rows) E x Hin Hid).
Qed.

Lemma unique_users_pairwise rows a b :
  unique_users rows = true -> In a rows -> In b rows -> clashes a b = true -> a = b.
Proof.
  induction rows as [|y rows IH]; simpl; [contradiction|].
  intros Hun Ha Hb Hclash. apply andb_prop in Hun as [Hy Hun]. apply negb_true_iff in Hy.
  assert (forall r, In r rows -> clashes y r = false) as Hfree.
  { intros r Hr. destruct (clashes y r) eqn:E; [|reflexivity].
    assert (existsb (clashes y) rows = true) as Hcontra
      by (apply existsb_exists; exists r; auto).
    congruence. }
  destruct Ha as [->|Ha], Hb as [->|Hb]; [reflexivity| | |exact (IH Hun Ha Hb Hclash)].
  - rewrite (Hfree b Hb) in Hclash. discriminate.
  - rewrite clashes_sym, (Hfree a Ha) in Hclash. discriminate.
Qed.

Lemma with_role_allowed new_role k user rows :
  primary_key rows = true -> unique_users rows = true ->
  In user rows -> User.id user = Some k ->
  unique_violation (Some k) (with_role new_role user) rows = false.
Proof.
  intros Hpk Hun Hin Hid. unfold unique_violation.
  destruct (existsb _ rows) eqn:E; [|reflexivity]. exfalso.
  apply existsb_exists in E as (r & Hr & Hc). apply andb_prop in Hc as [Hskip Hclash].
  apply negb_true_iff in Hskip.
  assert (r = user) as -> by (apply (unique_users_pairwise rows r user Hun Hr Hin); exact Hclash).
  rewrite Hid in Hskip. simpl in Hskip. rewrite Z.eqb_refl in Hskip. discriminate.
Qed.

Lemma unique_violation_replace_row k u rows :
  User.id u = Some k ->
  unique_violation (Some k) u (replace_row k u rows) = unique_violation (Some k) u rows.
Proof.
  intros Hid. unfold unique_violation, replace_row.
  induction rows as [|r rows IH]; [reflexivity|]. cbn [map existsb]. rewrite IH. f_equal.
  change (row_id r) with (User.id r). cbv beta.
  destruct (is_id k (User.id r)) eqn:E; [|rewrite E; reflexivity].
  rewrite Hid. cbn [is_id]. rewrite Z.eqb_refl. reflexivity.
Qed.

Lemma find_username_replace_row new_role k name user rows :
  primary_key rows = true ->
  User.id user = Some k ->
  List.find (fun r => String.eqb (User.username r) name) rows = Some user ->
  List.find (fun r => String.eqb (User.username r) name)
    (replace_row k (with_role new_role user) rows) = Some (with_role new_role user).
Proof.
  intros Hpk Hid. unfold replace_row. induction rows as [|r rows IH]; [discriminate|].
  cbn [List.find map]. change (row_id r) with (User.id r).
  destruct (String.eqb (User.username r) name) eqn:Er.
  - intros [= ->]. rewrite Hid. cbn [is_id]. rewrite Z.eqb_refl.
    cbn [with_role User.username]. rewrite Er. reflexivity.
  - intros Hfind. 
    assert (is_id k (User.id r) = false) as ->.
    { destruct (is_id k (User.id r)) eqn:E; [|reflexivity]. exfalso.
      apply is_id_true in E. apply find_some in Hfind as [Hin Hname].
      assert (r = user) as ->.
      { apply (primary_key_unique (r :: rows) r user Hpk); [left; reflexivity|right; exact Hin|].
        simpl. congruence. }
      congruence. }
    rewrite Er. apply IH; [|exact Hfind].
    simpl in Hpk. destruct (User.id r); [|discriminate].
    apply andb_prop in Hpk as [_ Hpk]. exact Hpk.
Qed.

Lemma update_role_store new_role k name user db :
  constrained db = true ->
  get_user_by_username name db = Some user ->
  User.id user = Some k ->
  name <> "" ->
  existsb (String.eqb (User.role user)) role_options = true ->
  update_role EngineOk name new_role db =
    (RoleUpdated, set_users (replace_row k (with_role new_role user)) db).
Proof.
  intros Hc Hfind Hid Hname Hrole.
  apply andb_prop in Hc as [Hs Hun]. apply stored_iff in Hs as (Hpk & _).
  assert (In user (users db)) as Hin by (apply find_some in Hfind as [Hin _]; exact Hin).
  assert (get k (users db) = Some user) as Hget by (apply get_In; assumption).
  pose proof (get_has_id k (users db) user Hget) as Hhas.
  set (user' := with_role new_role user).
  assert (row_id user' = Some k) as Hid' by exact Hid.
  assert (User.id user' = Some k) as Hkey by exact Hid.
  pose proof (with_role_allowed new_role k user (users db) Hpk Hun Hin Hid) as Hfree.
  fold user' in Hfree.
  unfold update_role.
  assert (nonempty name = true) as -> by (apply negb_true_iff, String.eqb_neq; exact Hname).
  cbn [negb]. unfold get_users_for_assignment.
  rewrite (users_dict_lookup (users db) name Hun).
  unfold get_user_by_username in Hfind. rewrite Hfind. cbn [fmap option_fmap option_map].
  rewrite Hid. cbn [mbind option_bind]. rewrite read_by_id_get, Hget.
  cbn [fmap option_fmap option_map]. rewrite Hrole. cbn [negb]. fold user'.
  unfold update, session_merge, persisted, known, session_modify, clean. cbn [committed work].
  rewrite Hid', Hhas. unfold commit. cbn [work committed app flush flush_one].
  unfold flush_update at 1. rewrite Hkey, Hfree. unfold save_row. rewrite Hid', Hhas.
  cbn [bind_raises]. unfold flush_update. cbn [users set_users]. rewrite Hkey.
  rewrite (unique_violation_replace_row k user' (users db) Hkey), Hfree.
  unfold save_row. rewrite Hid', (has_id_replace_row k k user' (users db) Hid'), Hhas.
  cbn [bind_raises clean committed]. unfold set_users.
  cbn [users projects tasks time_logs risks sprints].
  rewrite (replace_row_again k user' (users db) Hid'). reflexivity.
Qed.

(** X25.  A role set on the administration page is the role of the next
    login.  In a store that obeys its constraints, for a user whose role is
    one of the four options: "Update Role" succeeds while the engine works,
    and when the user then logs in (with the password, which is unchanged)
    the session carries the new role; the administration page opens for
    this session exactly when the new role is Admin. *)
Theorem role_change_shows_at_next_login (hash_password : string -> string)
    (name password new_role : string) (user : User.t) (db : Store) (st : session_state) :
  constrained db = true ->
  get_user_by_username name db = Some user ->
  name <> "" ->
  existsb (String.eqb (User.role user)) role_options = true ->
  User.password_hash user = hash_password password ->
  exists db' st' toasts,
    update_role EngineOk name new_role db = (RoleUpdated, db') /\
    authenticate hash_password name password db' st = (true, st', toasts) /\
    is_authenticated st' = true /\
    st_user_role st' = Some new_role /\
    st_user_id st' = User.id user /\
    main_app st' "Administration" =
      if String.eqb new_role "Admin" then AdministrationPage else AccessDenied.
Proof.
  intros Hc Hfind Hname Hrole Hpass.
  assert (primary_key (users db) = true) as Hpk.
  { apply andb_prop in Hc as [Hs _]. apply stored_iff in Hs as (Hpk & _). exact Hpk. }
  assert (In user (users db)) as Hin by (apply find_some in Hfind as [Hin _]; exact Hin).
  destruct (primary_key_keyed (users db) user Hpk Hin) as [k Hid]. simpl in Hid.
  eexists. eexists. eexists.
  split; [exact (update_role_store new_role k name user db Hc Hfind Hid Hname Hrole)|].
  unfold authenticate, get_user_by_username. cbn [users set_users].
  rewrite (find_username_replace_row new_role k name user (users db) Hpk Hid Hfind).
  cbn [with_role User.password_hash User.username User.role User.id].
  rewrite Hpass, String.eqb_refl.
  split; [reflexivity|]. cbn [is_authenticated st_user_role st_user_id].
  split; [reflexivity|]. split; [reflexivity|]. split; [reflexivity|].
  unfold main_app, administration_page, is_admin. cbn [is_authenticated st_user_role negb].
  cbn [String.eqb Ascii.eqb Bool.eqb].
  destruct (String.eqb new_role "Admin"); reflexivity.
Qed.

Lemma role_change_shows_at_next_login_witness :
  exists db' st' toasts,
    update_role EngineOk "member" "Admin" seeded = (RoleUpdated, db') /\
    authenticate demo_hash "member" "memberpass" db' initial_state = (true, st', toasts) /\
    is_authenticated st' = true /\
    st_user_role st' = Some "Admin" /\
    st_user_id st' = Some 3 /\
    main_app st' "Administration" = AdministrationPage.
Proof.
  exact (role_change_shows_at_next_login demo_hash "member" "memberpass" "Admin" member
           seeded initial_state eq_refl eq_refl ltac:(discriminate) eq_refl eq_refl).
Defined.

(** ** Dashboard page *)

Lemma replace_row_split {A : Type} `{Row A} k x y (rows : list A) :
  primary_key rows = true -> get k rows = Some y -> row_id x = Some k ->
  exists l1 l2, rows = l1 ++ y :: l2 /\ replace_row k x rows = l1 ++ x :: l2.
Proof.
  intros Hpk Hget Hx. unfold get, replace_row in *.
  induction rows as [|r rows IH]; [discriminate|].
  cbn [List.find map] in *. cbn [primary_key] in Hpk.
  destruct (row_id r) as [j|] eqn:Er; [|discriminate].
  apply andb_prop in Hpk as [Hfresh Hpk]. apply negb_true_iff in Hfresh.
  cbn [is_id] in *. destruct (Z.eqb_spec j k) as [->|Hne].
  - injection Hget as <-. exists [], rows. split; [reflexivity|]. cbn [app]. f_equal.
    rewrite <- (map_id rows) at 2. apply map_ext_in. intros r' Hr'.
    destruct (is_id k (row_id r')) eqn:E; [|reflexivity].
    apply is_id_true in E. exfalso. exact (proj1 (has_id_false k rows) Hfresh r' Hr' E).
  - destruct (IH Hpk Hget) as (l1 & l2 & -> & Hrep).
    exists (r :: l1), l2. split; [reflexivity|]. cbn [app]. f_equal. exact Hrep.
Qed.

Lemma move_and_log_tasks now user_id k new_status hours_to_log task db r :
  get k (tasks db) = Some task ->
  move_and_log EngineOk EngineOk now user_id k new_status hours_to_log db = Some r ->
  tasks (after r) = replace_row k (with_status new_status task) (tasks db).
Proof.
  intros Hget Hr. destruct (Qle_bool hours_to_log 0) eqn:Hle.
  - rewrite (move_and_log_no_hours EngineOk EngineOk now user_id k new_status hours_to_log
               task db Hget Hle) in Hr.
    injection Hr as <-. reflexivity.
  - rewrite (move_and_log_logged EngineOk now user_id k new_status hours_to_log task db
               Hget Hle) in Hr.
    injection Hr as <-. reflexivity.
Qed.

(** X26.  The dashboard follows the board.  When a card that is assigned to
    the user of the session and is not yet done is moved to "Done" (the
    engine working), the dashboard of that user afterwards counts one done
    task more and one open task less. *)
Theorem dashboard_follows_the_board (st : session_state) (now : datetime)
    (user_id : option Z) (k : Z) (hours_to_log : Q) (task : Task.t) (db : Store)
    (r : moved) :
  stored db = true ->
  get k (tasks db) = Some task ->
  py_eqb (Task.assigned_to_id task) (st_user_id st) = true ->
  Task.status task <> "Done" ->
  move_and_log EngineOk EngineOk now user_id k "Done" hours_to_log db = Some r ->
  my_tasks_done (dashboard_page st (after r)) = S (my_tasks_done (dashboard_page st db)) /\
  S (my_tasks_open (dashboard_page st (after r))) = my_tasks_open (dashboard_page st db).
Proof.
  intros Hs Hget Hmine Hopen Hr.
  apply stored_iff in Hs as (_ & _ & Hpk & _).
  destruct (get_Some k (tasks db) task Hget) as [Hid _].
  assert (row_id (with_status "Done" task) = Some k) as Hid' by exact Hid.
  pose proof (move_and_log_tasks now user_id k "Done" hours_to_log task db r Hget Hr) as Htasks.
  destruct (replace_row_split k (with_status "Done" task) task (tasks db) Hpk Hget Hid')
    as (l1 & l2 & Hrows & Hrows').
  rewrite Hrows' in Htasks.
  apply String.eqb_neq in Hopen.
  unfold dashboard_page, read_all. cbn [truthy andb table my_tasks_done my_tasks_open].
  rewrite !the_tasks_map, Htasks, Hrows.
  rewrite !List.filter_app. cbn [List.filter with_status Task.assigned_to_id Task.status].
  rewrite Hmine. cbn [List.filter with_status Task.status]. rewrite Hopen.
  cbn [String.eqb Ascii.eqb Bool.eqb negb List.filter].
  rewrite !length_app. cbn [length]. split; lia.
Qed.

Lemma dashboard_follows_the_board_witness :
  let st := mk_state true (Some "member") (Some "Team Member") (Some 3) "Dashboard" in
  let db' := set_tasks (replace_row 1 (with_status "Done" task1)) seeded in
  my_tasks_done (dashboard_page st db') = S (my_tasks_done (dashboard_page st seeded)) /\
  S (my_tasks_open (dashboard_page st db')) = my_tasks_open (dashboard_page st seeded).
Proof.
  exact (dashboard_follows_the_board
           (mk_state true (Some "member") (Some "Team Member") (Some 3) "Dashboard")
           boot (Some 3) 1 0 task1 seeded
           (mk_moved None true (set_tasks (replace_row 1 (with_status "Done" task1)) seeded))
           eq_refl eq_refl eq_refl ltac:(discriminate) eq_refl).
Defined.

(** ** Deleting a project and the time report *)

Lemma find_filter_kept {A : Type} (Q P : A -> bool) (l : list A) x :
  List.find Q l = Some x -> P x = true -> List.find Q (List.filter P l) = Some x.
Proof.
  induction l as [|a l IH]; [discriminate|]. cbn [List.find List.filter].
  destruct (Q a) eqn:Ea.
  - intros [= ->] Hx. rewrite Hx. cbn [List.find]. rewrite Ea. reflexivity.
  - intros Hfind Hx. destruct (P a); [cbn [List.find]; rewrite Ea|]; exact (IH Hfind Hx).
Qed.

Lemma find_map_kept {A : Type} (Q : A -> bool) (f : A -> A) (l : list A) :
  (forall a, Q (f a) = Q a) -> List.find Q (map f l) = f <$> List.find Q l.
Proof.
  intros Hf. induction l as [|a l IH]; [reflexivity|]. cbn [List.find map].
  rewrite Hf. destruct (Q a); [reflexivity|exact IH].
Qed.

Lemma log_row_of_delete_project k db log row :
  primary_key (tasks db) = true ->
  In log (time_logs (delete_project k db)) ->
  log_row_of db log = Some row ->
  log_row_of (delete_project k db) log = Some row.
Proof.
  intros Hpk Hin. rewrite time_logs_delete_project in Hin.
  apply List.filter_In in Hin as [_ Hkept]. apply negb_true_iff in Hkept.
  unfold log_row_of.
  change (users (delete_project k db)) with (users db).
  destruct (TimeLog.user_id log ≫= _) as [user|]; [|discriminate]. cbn [mbind option_bind].
  destruct (TimeLog.task_id log) as [j|] eqn:Ej; [|discriminate]. cbn [mbind option_bind].
  destruct (get j (tasks db)) as [task|] eqn:Etask; [|discriminate]. cbn [mbind option_bind].
  destruct (get_Some j (tasks db) task Etask) as [Hid Htask]. simpl in Hid.
  assert (is_id k (Task.project_id task) = false) as Hother.
  { destruct (is_id k (Task.project_id task)) eqn:E; [|reflexivity]. exfalso.
    assert (refers (ids_of (tasks_of_project k db)) (Some j) = true) as Hgone.
    { apply refers_ids_of. exists j, task. split; [reflexivity|]. split; [|exact Hid].
      unfold tasks_of_project. apply List.filter_In. auto. }
    congruence. }
  assert (get j (tasks (delete_project k db)) =
          Some (detach_task [] (ids_of (sprints_of_project k db)) []
                  (detach_task (ids_of (tasks_of_project k db)) [] [] task))) as ->.
  { rewrite (tasks_delete_project k db Hpk).
    unfold get. rewrite !find_map_kept by reflexivity.
    rewrite (find_filter_kept _ (fun t => negb (is_id k (Task.project_id t))) (tasks db) task
               Etask) by (rewrite Hother; reflexivity).
    reflexivity. }
  cbn [mbind option_bind detach_task Task.project_id].
  destruct (Task.project_id task) as [q|] eqn:Eq; [|discriminate]. cbn [mbind option_bind].
  destruct (get q (projects db)) as [project|] eqn:Eproject; [|discriminate].
  destruct (get_Some q (projects db) project Eproject) as [Hq _].
  assert (get q (projects (delete_project k db)) = Some project) as ->.
  { change (projects (delete_project k db)) with (remove_row k (projects db)).
    unfold get, remove_row. apply find_filter_kept; [exact Eproject|].
    rewrite Hq. cbn [is_id] in *. rewrite Hother. reflexivity. }
  cbn [mbind option_bind detach_task Task.id Task.title]. trivial.
Qed.

Lemma mapM_filter_kept {A B : Type} (f g : A -> option B) (P : A -> bool) (l : list A) ys :
  mapM f l = Some ys ->
  (forall x y, In x (List.filter P l) -> f x = Some y -> g x = Some y) ->
  exists ys', mapM g (List.filter P l) = Some ys' /\ (forall y, In y ys' -> In y ys).
Proof.
  rewrite mapM_Some. induction 1 as [|x y l ys Hxy _ IH]; intros Hg.
  - exists []. split; [reflexivity|]. intros y [].
  - cbn [List.filter] in *. destruct (P x) eqn:Ex.
    + destruct IH as (ys' & Hys' & Hsub).
      { intros x' y' Hin. apply Hg. right. exact Hin. }
      exists (y :: ys'). split.
      * change (mapM g (x :: List.filter P l)) with
          (b ← g x; k ← mapM g (List.filter P l); mret (b :: k)).
        rewrite (Hg x y (or_introl eq_refl) Hxy), Hys'. reflexivity.
      * intros y' [->|Hy']; [left; reflexivity|right; exact (Hsub y' Hy')].
    + destruct (IH Hg) as (ys' & Hys' & Hsub).
      exists ys'. split; [exact Hys'|]. intros y' Hy'. right. exact (Hsub y' Hy').
Qed.

(** X27.  Deleting a project does not break the time report.  In a store
    that obeys its primary keys and whose report can be built, after the
    delete of a stored project (the engine working) the report can still
    be built: the cascade has removed the TimeLogs of the project's tasks
    with the tasks, and the rows that are left are rows the report had. *)
Theorem delete_project_keeps_the_report (p : Project.t) (k : Z)
    (rows : list log_row) (db : Store) :
  stored db = true ->
  log_data db = Some rows ->
  persisted (EProject p) db = Some k ->
  exists db' rows',
    delete EngineOk (EProject p) (clean db) = (true, clean db') /\
    log_data db' = Some rows' /\
    (forall row, In row rows' -> In row rows) /\
    weekly_logged_hours db' <> ReportFails.
Proof.
  intros Hs Hrows Hp. apply stored_iff in Hs as (_ & _ & Hpk & _).
  exists (delete_project k db).
  destruct (mapM_filter_kept (log_row_of db) (log_row_of (delete_project k db))
              (fun l => negb (refers (ids_of (tasks_of_project k db)) (TimeLog.task_id l)))
              (time_logs db) rows Hrows) as (rows' & Hrows' & Hsub).
  { intros log row Hin. apply log_row_of_delete_project; [exact Hpk|].
    rewrite time_logs_delete_project. exact Hin. }
  exists rows'.
  assert (log_data (delete_project k db) = Some rows') as Hdata.
  { unfold log_data. rewrite time_logs_delete_project. exact Hrows'. }
  split; [|split; [exact Hdata|split; [exact Hsub|]]].
  - rewrite delete_project_eval. cbn [persisted] in Hp.
    assert (Project.id p = Some k) as -> by exact (known_key p (projects db) k Hp).
    reflexivity.
  - unfold weekly_logged_hours. rewrite Hdata.
    destruct (time_logs (delete_project k db)); discriminate.
Qed.

Lemma delete_project_keeps_the_report_witness :
  exists db' rows',
    delete EngineOk (EProject proj_core) (clean seeded) = (true, clean db') /\
    log_data db' = Some rows' /\
    (forall row, In row rows' -> In row (default [] (log_data seeded))) /\
    weekly_logged_hours db' <> ReportFails.
Proof.
  exact (delete_project_keeps_the_report proj_core 1 (default [] (log_data seeded)) seeded
           eq_refl eq_refl eq_refl).
Defined.

(** ** A created task on the board *)

Lemma tasks_by_status_snoc (tasks : list Task.t) (t : Task.t) :
  tasks_by_status (tasks ++ [t]) =
    if existsb (String.eqb (Task.status t)) KANBAN_STATUSES
    then <[Task.status t := default [] (tasks_by_status tasks !! Task.status t) ++ [t]]>
           (tasks_by_status tasks)
    else tasks_by_status tasks.
Proof. unfold tasks_by_status. rewrite fold_left_app. reflexivity. Qed.

(** X28.  A task created with the form shows on the board of its project.
    For a non-empty title, a project key that is not 0 and an option of
    "Depends on" that can be read back, while the engine works: the task
    is created, it is the new last card of the column "To Do" of the
    project's board, under the next key, and the other columns are as
    they were. *)
Theorem created_task_is_on_the_board (now : datetime)
    (task_title task_desc task_priority : string) (task_estimate : Q)
    (project_id : Z) (assigned_to_id sprint_id dependency : option Z)
    (dependency_selection : string) (db : Store) :
  task_title <> "" ->
  project_id <> 0 ->
  dependency_id dependency_selection = Some dependency ->
  let r := create_task EngineOk now task_title task_desc task_priority task_estimate
             (Some project_id) assigned_to_id sprint_id dependency_selection db in
  let new_task := Task.mk (Some (next_id (tasks db))) task_title (Some task_desc) "To Do"
                    task_priority task_estimate dependency sprint_id (Some project_id)
                    assigned_to_id now in
  fst r = TaskCreated /\
  kanban_board (Some project_id) (snd r) !! "To Do" =
    Some (default [] (kanban_board (Some project_id) db !! "To Do") ++ [new_task]) /\
  (forall status, status <> "To Do" ->
     kanban_board (Some project_id) (snd r) !! status =
       kanban_board (Some project_id) db !! status).
Proof.
  intros Htitle Hproject Hdep r new_task. subst r. unfold create_task. rewrite Hdep.
  assert (nonempty task_title = true) as ->.
  { unfold nonempty. apply negb_true_iff, String.eqb_neq, Htitle. }
  cbn [negb]. rewrite create_new_row by reflexivity.
  unfold clean. cbn [fst snd committed]. split; [reflexivity|].
  assert (kanban_board (Some project_id)
            (set_tasks (fun rows => rows ++ [with_id (next_id rows)
               (Task.mk None task_title (Some task_desc) "To Do" task_priority task_estimate
                  dependency sprint_id (Some project_id) assigned_to_id now)]) db) =
          <["To Do" := default [] (kanban_board (Some project_id) db !! "To Do") ++ [new_task]]>
            (kanban_board (Some project_id) db)) as ->.
  { unfold kanban_board, read_all. cbn [truthy has_project_id andb negb].
    destruct (Z.eqb_spec project_id 0) as [E|_]; [contradiction|]. cbn [negb andb table].
    rewrite !the_tasks_filter. cbn [tasks set_tasks project_id_of].
    rewrite List.filter_app. cbn [List.filter with_id Task_row Task.project_id is_id].
    rewrite Z.eqb_refl. fold new_task. rewrite tasks_by_status_snoc. reflexivity. }
  split; [apply lookup_insert_eq|].
  intros status Hstatus. apply lookup_insert_ne. congruence.
Qed.

Lemma created_task_is_on_the_board_witness :
  let r := create_task EngineOk boot "Review follow-up" "" "Low" 1
             (Some 1) (Some 3) None "None" seeded in
  let new_task := Task.mk (Some (next_id (tasks seeded))) "Review follow-up" (Some "") "To Do"
                    "Low" 1 None None (Some 1) (Some 3) boot in
  fst r = TaskCreated /\
  kanban_board (Some 1) (snd r) !! "To Do" =
    Some (default [] (kanban_board (Some 1) seeded !! "To Do") ++ [new_task]) /\
  (forall status, status <> "To Do" ->
     kanban_board (Some 1) (snd r) !! status = kanban_board (Some 1) seeded !! status).
Proof.
  exact (created_task_is_on_the_board boot "Review follow-up" "" "Low" 1 1 (Some 3) None None
           "None" seeded ltac:(discriminate) ltac:(discriminate) eq_refl).
Defined.
